(** * Thyser canvas editor: graph store, commands and auto-save pipeline

    A shallow embedding of [FlowCanvasInner] (the canvas component) and of
    [canvasOperations] (src/lib/supabaseClient.ts), followed by the
    properties of the canvas state and persistence engine.

    Conventions of the embedding:
    - JavaScript numbers that hold pixel or graph coordinates are integers
      of [Z]. Numbers that count (the node-id counter, the suffix parsed
      from an id, an array length, the minutes of the save label) are IEEE
      doubles with their rounding: [Js.number].
    - An optional or nullable field is an [option]; a field read only for
      its truthiness ([selected], [isActive]) is a [bool], an absent field
      reading as [false].
    - React state is a record; a state setter is a record update; the
      state updates of one synchronous stretch of code are one render
      (React 18); an effect is a function run after a render in which one
      of its dependencies changed. *)

From Stdlib Require Import List String Ascii Bool Arith NArith ZArith Lia.
From Stdlib Require Import DecimalString DecimalNat DecimalN DecimalFacts.
Import ListNotations.
Local Open Scope string_scope.

(* ================================================================== *)
(** * JavaScript primitives used by the component                      *)
(* ================================================================== *)

(** Decimal digits of a natural number (row ids and clock ticks of the
    store model). *)
Definition decimal (n : nat) : string :=
  NilEmpty.string_of_uint (Nat.to_uint n).

Module Js.

(** ** Numbers that count

    [Finite n] is the double whose value is the non-negative integer [n].
    The doubles of that kind are the integers below 2^53 and, among the
    integers of 53 + e bits, the multiples of 2^e up to the largest
    double. [roundDouble] takes an integer to the nearest double, a tie to
    the one with the even significand, and what lies past the largest
    double to [Infinity] (round to nearest, ties to even). *)
Inductive number :=
| Finite (n : N)
| Infinity.

Definition two53 : N := 9007199254740992.

Definition roundDouble (n : N) : number :=
  if (n <? two53)%N then Finite n
  else
    let e := (N.log2 n - 52)%N in
    let ulp := (2 ^ e)%N in
    let q := (n / ulp)%N in
    let r := (n mod ulp)%N in
    let half := (ulp / 2)%N in
    let q' := if (r <? half)%N then q
              else if (half <? r)%N then (q + 1)%N
              else if N.even q then q else (q + 1)%N in
    if (2 ^ 1024 <=? q' * ulp)%N then Infinity else Finite (q' * ulp).

(** [a + b] *)
Definition add (a b : number) : number :=
  match a, b with
  | Finite m, Finite n => roundDouble (m + n)
  | _, _ => Infinity
  end.

(** [a < b] *)
Definition ltb (a b : number) : bool :=
  match a, b with
  | Finite m, Finite n => (m <? n)%N
  | Finite _, Infinity => true
  | Infinity, _ => false
  end.

Definition max (a b : number) : number :=
  match a, b with
  | Finite m, Finite n => Finite (N.max m n)
  | _, _ => Infinity
  end.

(** [Math.max(0, ...l)] *)
Definition mathMax0 (l : list number) : number := fold_right max (Finite 0) l.

(** [array.length] *)
Definition length {A} (l : list A) : number := Finite (N.of_nat (List.length l)).

(** [\d] *)
Definition isDigit (c : ascii) : bool :=
  ((48 <=? nat_of_ascii c) && (nat_of_ascii c <=? 57))%nat.

Definition digitValue (c : ascii) : N := N.of_nat (nat_of_ascii c - 48).

Fixpoint allDigits (s : string) : bool :=
  match s with
  | EmptyString => true
  | String c s' => isDigit c && allDigits s'
  end.

Definition isEmpty (s : string) : bool :=
  match s with EmptyString => true | _ => false end.

(** [s.match(/-(\d+)$/)]: the capture group of the leftmost match, a
    dash followed by one or more digits up to the end of the string. *)
Fixpoint matchDashDigitsEnd (s : string) : option string :=
  match s with
  | EmptyString => None
  | String c rest =>
      if Ascii.eqb c "-" && negb (isEmpty rest) && allDigits rest
      then Some rest
      else matchDashDigitsEnd rest
  end.

(** The integer a run of decimal digits denotes. *)
Fixpoint parseDigits (acc : N) (s : string) : N :=
  match s with
  | EmptyString => acc
  | String c s' => parseDigits (10 * acc + digitValue c) s'
  end.

(** [parseInt(s, 10)] on a run of decimal digits: the double nearest to
    the integer they denote (as V8 computes it, for any number of digits). *)
Definition parseInt (s : string) : number := roundDouble (parseDigits 0 s).

(** The decimal digits of an integer. *)
Definition digits (n : N) : string := NilEmpty.string_of_uint (N.to_uint n).

(** [`${x}`], that is Number::toString(x): the digits of the integer with
    the fewest significant digits that still rounds to [x] (the nearest to
    [x] if there are several, the even one of two equally near), padded
    with zeros; from 10^21 on in exponent notation. The search tries one
    significant digit, then two, and so on: with the digits of [n] beyond
    a power of ten [p] cut off ([lo]) or rounded up ([hi]). *)
Definition roundTrips (v n : N) : bool :=
  match roundDouble v with
  | Finite m => (m =? n)%N
  | Infinity => false
  end.

Fixpoint powersOfTen (k : nat) : list N :=
  match k with
  | O => []
  | S k' => (10 ^ N.of_nat k)%N :: powersOfTen k'
  end.

Definition nearer (p n lo hi : N) : N :=
  if (n - lo <? hi - n)%N then lo
  else if (hi - n <? n - lo)%N then hi
  else if N.even (lo / p) then lo else hi.

Fixpoint shortestFrom (n : N) (ps : list N) : N :=
  match ps with
  | [] => n
  | p :: ps' =>
      let lo := (n / p * p)%N in
      let hi := (lo + p)%N in
      match roundTrips lo n, roundTrips hi n with
      | true, true => nearer p n lo hi
      | true, false => lo
      | false, true => hi
      | false, false => shortestFrom n ps'
      end
  end.

Definition shortestDecimal (n : N) : N :=
  shortestFrom n (powersOfTen (String.length (digits n) - 1)).

Fixpoint dropTrailingZeros (s : string) : string :=
  match s with
  | EmptyString => EmptyString
  | String c s' =>
      match dropTrailingZeros s' with
      | EmptyString => if Ascii.eqb c "0" then EmptyString else String c EmptyString
      | t => String c t
      end
  end.

Definition exponential (v : N) : string :=
  let ds := digits v in
  let e := digits (N.of_nat (String.length ds - 1)) in
  match dropTrailingZeros ds with
  | String c EmptyString => String c ("e+" ++ e)
  | String c t => String c ("." ++ t ++ "e+" ++ e)
  | EmptyString => ds
  end.

Definition toString (x : number) : string :=
  match x with
  | Infinity => "Infinity"
  | Finite n =>
      let v := shortestDecimal n in
      if (v <? 10 ^ 21)%N then digits v else exponential v
  end.

(** [l.includes(s)] on an array of strings. *)
Definition includes (l : list string) (s : string) : bool :=
  existsb (String.eqb s) l.

(** [s.replace(pat, rep)] with a string pattern: the first occurrence. *)
Fixpoint replace (pat rep s : string) : string :=
  if String.prefix pat s
  then rep ++ substring (String.length pat) (String.length s - String.length pat) s
  else match s with
       | EmptyString => EmptyString
       | String c s' => String c (replace pat rep s')
       end.

(** [a || b] on strings: the empty string is falsy. *)
Definition orElse (a b : string) : string := if isEmpty a then b else a.

(** Truthiness of an optional string. *)
Definition truthy (a : option string) : bool :=
  match a with Some s => negb (isEmpty s) | None => false end.

End Js.

(* ================================================================== *)
(** * Data model                                                       *)
(* ================================================================== *)

Record XYPosition := { x : Z; y : Z }.

Record Viewport := { vx : Z; vy : Z; zoom : Z }.

(** The part of [node.data] the canvas reads, and the rest of the payload,
    which the canvas copies and never inspects. *)
Record NodeData := {
  title : option string;
  isActive : bool;
  payload : string
}.

Module Node.
Record t := {
  id : string;
  type : option string;
  position : XYPosition;
  selected : bool;
  data : NodeData
}.
End Node.

Module Edge.
Record t := {
  id : string;
  source : string;
  target : string;
  sourceHandle : option string;
  targetHandle : option string;
  type : string;
  animated : bool;
  stroke : string;
  strokeWidth : Z
}.
End Edge.

(** What [addEdge] receives: a reactflow [Connection] with the styling
    fields spread over it, or a complete [Edge] (then [id] is present). *)
Module EdgeParams.
Record t := {
  id : option string;
  source : option string;
  target : option string;
  sourceHandle : option string;
  targetHandle : option string;
  type : string;
  animated : bool;
  stroke : string;
  strokeWidth : Z
}.
End EdgeParams.

Module Connection.
Record t := {
  source : option string;
  target : option string;
  sourceHandle : option string;
  targetHandle : option string
}.
End Connection.

Definition nodeIds (nodes : list Node.t) : list string := map Node.id nodes.

(* ================================================================== *)
(** * Node-id counter seeding (loadCanvasData, lines 106-114)           *)
(* ================================================================== *)

(** The callback mapped over the loaded nodes. *)
Definition idSuffix (node : Node.t) : Js.number :=
  match Js.matchDashDigitsEnd (Node.id node) with
  | Some digits => Js.parseInt digits
  | None => Js.Finite 0
  end.

Definition maxId (nodes : list Node.t) : Js.number :=
  Js.mathMax0 (map idSuffix nodes).

(** The value passed to [setNodeIdCounter] on load: [maxId + 1]. *)
Definition seedNodeIdCounter (nodes : list Node.t) : Js.number :=
  Js.add (maxId nodes) (Js.Finite 1).

(* ================================================================== *)
(** * Component state                                                   *)
(* ================================================================== *)

(** [useReactFlow()]: the methods of the React Flow instance that the
    component calls and whose result the model needs. The projection from
    container coordinates to graph coordinates depends on the viewport
    React Flow holds. *)
Class ReactFlowInstance := {
  screenToFlowPosition : Viewport -> XYPosition -> XYPosition
}.

(** [nodes], [edges] and [nodeIdCounter]: the graph store. *)
Record Graph := {
  nodes : list Node.t;
  edges : list Edge.t;
  nodeIdCounter : Js.number
}.

Definition setNodes (f : list Node.t -> list Node.t) (g : Graph) : Graph :=
  {| nodes := f (nodes g); edges := edges g; nodeIdCounter := nodeIdCounter g |}.

Definition setEdges (f : list Edge.t -> list Edge.t) (g : Graph) : Graph :=
  {| nodes := nodes g; edges := f (edges g); nodeIdCounter := nodeIdCounter g |}.

Definition setNodeIdCounter (f : Js.number -> Js.number) (g : Graph) : Graph :=
  {| nodes := nodes g; edges := edges g; nodeIdCounter := f (nodeIdCounter g) |}.

(** [useState] initial values. *)
Definition emptyGraph : Graph :=
  {| nodes := []; edges := []; nodeIdCounter := Js.Finite 1 |}.

Definition setSelected (b : bool) (node : Node.t) : Node.t :=
  {| Node.id := Node.id node; Node.type := Node.type node;
     Node.position := Node.position node; Node.selected := b;
     Node.data := Node.data node |}.

Definition setPosition (p : XYPosition) (node : Node.t) : Node.t :=
  {| Node.id := Node.id node; Node.type := Node.type node;
     Node.position := p; Node.selected := Node.selected node;
     Node.data := Node.data node |}.

(* ================================================================== *)
(** * Connecting (onConnect, lines 272-286)                             *)
(* ================================================================== *)

(** reactflow's [addEdge] is imported from the library (line 3) and is not
    part of the repository; it is embedded as the library defines it.
    [getEdgeId] derives the id of a connection that carries none. *)
Definition handleText (h : option string) : string :=
  match h with Some s => s | None => "" end.

Definition getEdgeId (p : EdgeParams.t) (source target : string) : string :=
  "reactflow__edge-" ++ source ++ handleText (EdgeParams.sourceHandle p)
    ++ "-" ++ target ++ handleText (EdgeParams.targetHandle p).

Definition optEqb (a b : option string) : bool :=
  match a, b with
  | Some u, Some v => String.eqb u v
  | None, None => true
  | _, _ => false
  end.

(** [a === b || (!a && !b)] on handle ids. *)
Definition sameHandle (a b : option string) : bool :=
  optEqb a b || (negb (Js.truthy a) && negb (Js.truthy b)).

Definition connectionExists (edge : Edge.t) (eds : list Edge.t) : bool :=
  existsb (fun el =>
    String.eqb (Edge.source el) (Edge.source edge)
    && String.eqb (Edge.target el) (Edge.target edge)
    && sameHandle (Edge.sourceHandle el) (Edge.sourceHandle edge)
    && sameHandle (Edge.targetHandle el) (Edge.targetHandle edge)) eds.

Definition addEdge (p : EdgeParams.t) (eds : list Edge.t) : list Edge.t :=
  if negb (Js.truthy (EdgeParams.source p)) || negb (Js.truthy (EdgeParams.target p))
  then eds
  else
    let source := handleText (EdgeParams.source p) in
    let target := handleText (EdgeParams.target p) in
    let edge :=
      {| Edge.id := match EdgeParams.id p with
                    | Some i => i
                    | None => getEdgeId p source target
                    end;
         Edge.source := source;
         Edge.target := target;
         Edge.sourceHandle := EdgeParams.sourceHandle p;
         Edge.targetHandle := EdgeParams.targetHandle p;
         Edge.type := EdgeParams.type p;
         Edge.animated := EdgeParams.animated p;
         Edge.stroke := EdgeParams.stroke p;
         Edge.strokeWidth := EdgeParams.strokeWidth p |} in
    if connectionExists edge eds then eds else (eds ++ [edge])%list.

(** The edge literal of [onConnect]: the connection spread, then the
    styling fields. *)
Definition styledConnection (isDarkMode : bool) (connection : Connection.t)
  : EdgeParams.t :=
  {| EdgeParams.id := None;
     EdgeParams.source := Connection.source connection;
     EdgeParams.target := Connection.target connection;
     EdgeParams.sourceHandle := Connection.sourceHandle connection;
     EdgeParams.targetHandle := Connection.targetHandle connection;
     EdgeParams.type := "smoothstep";
     EdgeParams.animated := true;
     EdgeParams.stroke := if isDarkMode then "#06b6d4" else "#0891b2";
     EdgeParams.strokeWidth := 2 |}.

Definition onConnect (isDarkMode : bool) (connection : Connection.t)
  (g : Graph) : Graph :=
  setEdges (fun eds => addEdge (styledConnection isDarkMode connection) eds) g.

(* ================================================================== *)
(** * Keyboard commands (handleKeyDown and its helpers)                 *)
(* ================================================================== *)

(** Delete or Backspace (lines 374-384). *)
Definition selectedNodeIds (nds : list Node.t) : list string :=
  map Node.id (filter Node.selected nds).

Definition deleteSelected (g : Graph) : Graph :=
  let ids := selectedNodeIds (nodes g) in
  if (0 <? List.length ids)%nat then
    setEdges (fun prevEdges =>
                filter (fun edge => negb (Js.includes ids (Edge.source edge))
                                    && negb (Js.includes ids (Edge.target edge)))
                       prevEdges)
      (setNodes (fun prevNodes =>
                   filter (fun node => negb (Js.includes ids (Node.id node)))
                          prevNodes) g)
  else g.

(** Ctrl/Meta + A (lines 392-396). *)
Definition selectAll (g : Graph) : Graph :=
  setNodes (map (setSelected true)) g.

(** [duplicateSelectedNodes] (lines 465-489). *)
Definition duplicateId (node : Node.t) (nodeIdCounter len : Js.number) : string :=
  Js.orElse (match Node.type node with
             | Some t => Js.replace "Node" "" t
             | None => ""
             end) "node"
  ++ "-" ++ Js.toString (Js.add nodeIdCounter len).

Definition duplicateData (d : NodeData) : NodeData :=
  {| title := Some (if Js.truthy (title d)
                    then handleText (title d) ++ " Copy"
                    else "Copy");
     isActive := isActive d || false;
     payload := payload d |}.

Definition duplicateNode (nodeIdCounter len : Js.number) (node : Node.t) : Node.t :=
  {| Node.id := duplicateId node nodeIdCounter len;
     Node.type := Node.type node;
     Node.position := {| x := x (Node.position node) + 50;
                         y := y (Node.position node) + 50 |};
     Node.selected := false;
     Node.data := duplicateData (Node.data node) |}.

Definition duplicateSelectedNodes (g : Graph) : Graph :=
  let selectedNodesList := filter Node.selected (nodes g) in
  if (List.length selectedNodesList =? 0)%nat then g
  else
    let newNodes :=
      map (duplicateNode (nodeIdCounter g) (Js.length (nodes g))) selectedNodesList in
    setNodeIdCounter (fun prev => Js.add prev (Js.length newNodes))
      (setNodes (fun prevNodes => (map (setSelected false) prevNodes ++ newNodes)%list) g).

(** [organizeNodes] (lines 492-509). [ceilSqrt n] is
    [Math.ceil(Math.sqrt(n))] and [ceilDiv a b] is [Math.ceil(a / b)]. *)
Definition ceilSqrt (n : nat) : nat :=
  let r := Nat.sqrt n in if (r * r =? n)%nat then r else S r.

Definition ceilDiv (a b : nat) : nat := (a + b - 1) / b.

Fixpoint mapIndexed {A B} (f : A -> nat -> B) (i : nat) (l : list A) : list B :=
  match l with
  | [] => []
  | a :: l' => f a i :: mapIndexed f (S i) l'
  end.

Definition organizeNodes (g : Graph) : Graph :=
  let n := List.length (nodes g) in
  if (n =? 0)%nat then g
  else
    let cols := ceilSqrt n in
    let spacing := 300%Z in
    let startX := (- ((Z.of_nat cols - 1) * spacing) / 2)%Z in
    let startY := (- ((Z.of_nat (ceilDiv n cols) - 1) * spacing) / 2)%Z in
    setNodes (fun prevNodes =>
      mapIndexed (fun node index =>
        setPosition {| x := startX + Z.of_nat (index mod cols) * spacing;
                       y := startY + Z.of_nat (index / cols) * spacing |} node)
        0 prevNodes) g.

(** [handleCreateNode] (lines 512-664): the React Flow node type and the
    initial payload per sidebar entry. *)
Definition nodeTypeOf (nodeType : string) : string :=
  if String.eqb nodeType "text" then "textNode"
  else if String.eqb nodeType "image" then "imageNode"
  else if String.eqb nodeType "video" then "videoNode"
  else if String.eqb nodeType "audio" then "audioNode"
  else if String.eqb nodeType "document" then "documentNode"
  else if String.eqb nodeType "url" then "urlNode"
  else if String.eqb nodeType "aiModel" then "aiModelNode"
  else "default".

Definition toUpperCase (c : ascii) : ascii :=
  let n := nat_of_ascii c in
  if ((97 <=? n) && (n <=? 122))%nat then ascii_of_nat (n - 32) else c.

Definition capitalize (s : string) : string :=
  match s with
  | EmptyString => EmptyString
  | String c s' => String (toUpperCase c) s'
  end.

Definition mediaPayload : string :=
  "uploadMethod:'file',isLoading:false,error:null".

Definition playerPayload : string :=
  mediaPayload ++ ",isPlaying:false,isMuted:false,currentTime:0,duration:0,volume:1".

Definition initialData (nodeType : string) : NodeData :=
  if String.eqb nodeType "text" then
    {| title := Some "Text Input"; isActive := false;
       payload := "text:'',isRichText:true,isMultiline:true,alignment:'left',"
                  ++ "formatting:{bold:false,italic:false},"
                  ++ "suggestionPrompt:'A description of a haunted mansion in winter'" |}
  else if String.eqb nodeType "image" then
    {| title := None; isActive := false;
       payload := "imageUrl:'',imageFile:null," ++ mediaPayload |}
  else if String.eqb nodeType "video" then
    {| title := None; isActive := false;
       payload := "videoUrl:'',videoFile:null," ++ playerPayload |}
  else if String.eqb nodeType "audio" then
    {| title := None; isActive := false;
       payload := "audioUrl:'',audioFile:null," ++ playerPayload |}
  else if String.eqb nodeType "document" then
    {| title := None; isActive := false;
       payload := "documentUrl:'',documentFile:null," ++ mediaPayload
                  ++ ",fileName:'',fileSize:0,fileType:'',pageCount:undefined,"
                  ++ "extractedText:'',isPreviewOpen:false" |}
  else if String.eqb nodeType "url" then
    {| title := Some ""; isActive := false;
       payload := "url:'',description:'',favicon:'',isLoading:false,error:null,"
                  ++ "isPreviewVisible:true,lastFetched:null" |}
  else if String.eqb nodeType "aiModel" then
    {| title := None; isActive := false;
       payload := "selectedModel:null,prompt:'',response:'',isLoading:false,"
                  ++ "error:null,showModelInfo:false" |}
  else
    {| title := None; isActive := false;
       payload := "label:'" ++ capitalize nodeType ++ " Node'" |}.

Section Handlers.
Context {RF : ReactFlowInstance}.

Definition handleCreateNode (flow : Viewport) (nodeType : string)
  (position : XYPosition) (g : Graph) : Graph :=
  let id := nodeType ++ "-" ++ Js.toString (nodeIdCounter g) in
  let flowPosition := screenToFlowPosition flow position in
  let newNode :=
    {| Node.id := id;
       Node.type := Some (nodeTypeOf nodeType);
       Node.position := flowPosition;
       Node.selected := false;
       Node.data := initialData nodeType |} in
  setNodes (fun nds => (nds ++ [newNode])%list)
    (setNodeIdCounter (fun prev => Js.add prev (Js.Finite 1)) g).

(** [handleSelectAIModel] (lines 667-699). The window is
    [2 * halfInnerWidth] by [2 * halfInnerHeight] pixels: [innerWidth / 2]
    and [innerHeight / 2] are then points of the integer grid the model
    keeps coordinates in (a window of odd width has its centre between two
    of them and is not covered). *)
Definition handleSelectAIModel (flow : Viewport) (halfInnerWidth halfInnerHeight : Z)
  (modelId modelName provider : string) (g : Graph) : Graph :=
  let centerX := (halfInnerWidth - 175)%Z in
  let centerY := (halfInnerHeight - 100)%Z in
  let flowPosition := screenToFlowPosition flow {| x := centerX; y := centerY |} in
  let id := "aiModel-" ++ Js.toString (nodeIdCounter g) in
  let newNode :=
    {| Node.id := id;
       Node.type := Some "aiModelNode";
       Node.position := flowPosition;
       Node.selected := false;
       Node.data :=
         {| title := None; isActive := false;
            payload := "selectedModel:{id:'" ++ modelId ++ "',name:'" ++ modelName
                       ++ "',provider:'" ++ provider
                       ++ "',description:'',capabilities:[]},prompt:'',response:'',"
                       ++ "isLoading:false,error:null,showModelInfo:false" |} |} in
  setNodes (fun nds => (nds ++ [newNode])%list)
    (setNodeIdCounter (fun prev => Js.add prev (Js.Finite 1)) g).

(* ---------------------------------------------------------------- *)
(** ** Marquee selection (lines 294-362)                             *)
(* ---------------------------------------------------------------- *)

Record Marquee := {
  isSelecting : bool;
  selectionStart : option XYPosition;
  selectionEnd : option XYPosition
}.

Definition noMarquee : Marquee :=
  {| isSelecting := false; selectionStart := None; selectionEnd := None |}.

(** [mouse] is the pointer relative to the container:
    [clientX - rect.left], [clientY - rect.top]. *)
Definition handleMouseDown (mouse : XYPosition) : Marquee :=
  {| isSelecting := true; selectionStart := Some mouse; selectionEnd := Some mouse |}.

Definition handleMouseUp : Marquee := noMarquee.

Definition nodeWidth : Z := 250.
Definition nodeHeight : Z := 150.

(** The filter predicate of [handleMouseMove]. *)
Definition withinSelection (flowStart flowEnd : XYPosition) (node : Node.t) : bool :=
  let nodeX := x (Node.position node) in
  let nodeY := y (Node.position node) in
  ((x flowStart <=? nodeX) && (y flowStart <=? nodeY)
   && (nodeX + nodeWidth <=? x flowEnd) && (nodeY + nodeHeight <=? y flowEnd))%Z.

Definition flowStartOf (flow : Viewport) (start mouse : XYPosition) : XYPosition :=
  screenToFlowPosition flow {| x := Z.min (x start) (x mouse);
                               y := Z.min (y start) (y mouse) |}.

Definition flowEndOf (flow : Viewport) (start mouse : XYPosition) : XYPosition :=
  screenToFlowPosition flow {| x := Z.max (x start) (x mouse);
                               y := Z.max (y start) (y mouse) |}.

Definition marqueeNodeIds (flow : Viewport) (start mouse : XYPosition)
  (nds : list Node.t) : list string :=
  map Node.id
    (filter (withinSelection (flowStartOf flow start mouse)
                             (flowEndOf flow start mouse)) nds).

Definition handleMouseMove (flow : Viewport) (mouse : XYPosition)
  (m : Marquee) (g : Graph) : Marquee * Graph :=
  match isSelecting m, selectionStart m with
  | true, Some start =>
      let ids := marqueeNodeIds flow start mouse (nodes g) in
      ({| isSelecting := isSelecting m;
          selectionStart := selectionStart m;
          selectionEnd := Some mouse |},
       setNodes (fun prevNodes =>
                   map (fun node => setSelected (Js.includes ids (Node.id node)) node)
                       prevNodes) g)
  | _, _ => (m, g)
  end.

End Handlers.

(* ================================================================== *)
(** * Command sequences on the graph store                              *)
(* ================================================================== *)

(** One user action on the graph. Actions that read the pointer carry the
    viewport React Flow held at that moment. A marquee drag is a mouse-down
    on the background at [start] followed by a move to [mouse]. *)
Inductive Command :=
| CreateNode (flow : Viewport) (nodeType : string) (position : XYPosition)
| SelectAIModel (flow : Viewport) (halfInnerWidth halfInnerHeight : Z)
                (modelId modelName provider : string)
| Connect (isDarkMode : bool) (connection : Connection.t)
| MarqueeDrag (flow : Viewport) (start mouse : XYPosition)
| SelectAll
| DeleteSelected
| DuplicateSelected
| Organize.

Section Commands.
Context {RF : ReactFlowInstance}.

Definition exec (c : Command) (g : Graph) : Graph :=
  match c with
  | CreateNode flow nodeType position => handleCreateNode flow nodeType position g
  | SelectAIModel flow w h modelId modelName provider =>
      handleSelectAIModel flow w h modelId modelName provider g
  | Connect isDarkMode connection => onConnect isDarkMode connection g
  | MarqueeDrag flow start mouse =>
      snd (handleMouseMove flow mouse (handleMouseDown start) g)
  | SelectAll => selectAll g
  | DeleteSelected => deleteSelected g
  | DuplicateSelected => duplicateSelectedNodes g
  | Organize => organizeNodes g
  end.

Definition run (cs : list Command) (g : Graph) : Graph :=
  fold_left (fun g c => exec c g) cs g.

End Commands.

Definition isConnect (c : Command) : bool :=
  match c with Connect _ _ => true | _ => false end.

(** The graph store right after a successful load of [loaded] nodes and
    edges (lines 97-98 and 114). *)
Definition loadedGraph (nds : list Node.t) (eds : list Edge.t) : Graph :=
  {| nodes := nds; edges := eds; nodeIdCounter := seedNodeIdCounter nds |}.

(** A sample projection for concrete runs: translation by the viewport
    offset at zoom 1. *)
Definition unitZoomFlow : ReactFlowInstance :=
  {| screenToFlowPosition := fun flow p =>
       {| x := x p - vx flow; y := y p - vy flow |} |}.

Definition homeViewport : Viewport := {| vx := 0; vy := 0; zoom := 1 |}.

(** The ids a command takes from the counter when run in [g]: the id of
    the node [handleCreateNode] or [handleSelectAIModel] appends, and the
    ids [duplicateSelectedNodes] gives to the copies. *)
Definition assignedId (c : Command) (g : Graph) : list string :=
  match c with
  | CreateNode _ nodeType _ => [nodeType ++ "-" ++ Js.toString (nodeIdCounter g)]
  | SelectAIModel _ _ _ _ _ _ => ["aiModel-" ++ Js.toString (nodeIdCounter g)]
  | DuplicateSelected =>
      map (fun node => duplicateId node (nodeIdCounter g) (Js.length (nodes g)))
          (filter Node.selected (nodes g))
  | _ => []
  end.

Section AssignedIds.
Context {RF : ReactFlowInstance}.

Fixpoint assignedIds (cs : list Command) (g : Graph) : list string :=
  match cs with
  | [] => []
  | c :: cs' => (assignedId c g ++ assignedIds cs' (exec c g))%list
  end.
End AssignedIds.

(** [x] is an integer that doubles count exactly: below 2^53. *)
Definition safeInteger (x : Js.number) : bool := Js.ltb x (Js.Finite Js.two53).

(** The number a command writes into the ids it assigns when run in [g]. *)
Definition idNumber (c : Command) (g : Graph) : option Js.number :=
  match c with
  | CreateNode _ _ _ | SelectAIModel _ _ _ _ _ _ => Some (nodeIdCounter g)
  | DuplicateSelected =>
      if existsb Node.selected (nodes g)
      then Some (Js.add (nodeIdCounter g) (Js.length (nodes g)))
      else None
  | _ => None
  end.

Section SafeRuns.
Context {RF : ReactFlowInstance}.

(** Every number written into an id during the run is below 2^53. *)
Fixpoint safeRun (cs : list Command) (g : Graph) : bool :=
  match cs with
  | [] => true
  | c :: cs' =>
      match idNumber c g with
      | Some x => safeInteger x
      | None => true
      end && safeRun cs' (exec c g)
  end.
End SafeRuns.

(** Follows the specification's wording: [k] is the trailing numeric
    suffix of [s] when [s] ends with a dash and the decimal digits of [k]. *)
Definition numericSuffix (s : string) (k : N) : Prop :=
  exists p d, s = p ++ "-" ++ d
              /\ Js.isEmpty d = false /\ Js.allDigits d = true
              /\ Js.parseDigits 0 d = k.

(* ================================================================== *)
(** * Graph consistency                                                 *)
(* ================================================================== *)

(** Both endpoints of [edge] are ids of nodes of [nds]. *)
Definition attached (nds : list Node.t) (edge : Edge.t) : bool :=
  Js.includes (nodeIds nds) (Edge.source edge)
  && Js.includes (nodeIds nds) (Edge.target edge).

(** No dangling edge, as a check that runs. *)
Definition danglingFree (g : Graph) : bool :=
  forallb (attached (nodes g)) (edges g).

(** [i] is the id of a selected node of [nds]. *)
Definition selectedId (nds : list Node.t) (i : string) : bool :=
  existsb (fun m => Node.selected m && String.eqb (Node.id m) i) nds.

(** A node of [g] that [g'] no longer has. *)
Definition deletedNode (g g' : Graph) (n : Node.t) : Prop :=
  In n (nodes g) /\ ~ In n (nodes g').

(** [edge] starts or ends at [n]. *)
Definition incident (edge : Edge.t) (n : Node.t) : Prop :=
  Edge.source edge = Node.id n \/ Edge.target edge = Node.id n.

(** A connection React Flow can offer: it joins handles of nodes that are
    on the canvas. *)
Definition aimed (nds : list Node.t) (connection : Connection.t) : bool :=
  match Connection.source connection, Connection.target connection with
  | Some s, Some t => Js.includes (nodeIds nds) s && Js.includes (nodeIds nds) t
  | _, _ => true
  end.

Section WellAimed.
Context {RF : ReactFlowInstance}.

(** Every [Connect] of the sequence is aimed at nodes present when it runs. *)
Fixpoint wellAimed (cs : list Command) (g : Graph) : bool :=
  match cs with
  | [] => true
  | c :: cs' =>
      match c with
      | Connect _ connection => aimed (nodes g) connection
      | _ => true
      end && wellAimed cs' (exec c g)
  end.
End WellAimed.


(* ================================================================== *)
(** * Sample canvases                                                   *)
(* ================================================================== *)

Definition at_ (px py : Z) : XYPosition := {| x := px; y := py |}.

Definition textNodeAt (i : string) (px py : Z) (sel : bool) : Node.t :=
  {| Node.id := i; Node.type := Some "textNode"; Node.position := at_ px py;
     Node.selected := sel; Node.data := initialData "text" |}.

Definition connectionFromTo (s t : string) : Connection.t :=
  {| Connection.source := Some s; Connection.target := Some t;
     Connection.sourceHandle := None; Connection.targetHandle := None |}.

(** Two text nodes, both selected, as left by two creations and select-all. *)
Definition twoSelectedTexts : list Command :=
  [ CreateNode homeViewport "text" (at_ 0 0);
    CreateNode homeViewport "text" (at_ 1000 0);
    SelectAll ].

(** Three text nodes; the first is copied, the first two are deleted, and
    the one that is left is copied. *)
Definition copyDeleteCopy : list Command :=
  [ CreateNode homeViewport "text" (at_ 0 0);
    CreateNode homeViewport "text" (at_ 1000 0);
    CreateNode homeViewport "text" (at_ 2000 0);
    MarqueeDrag homeViewport (at_ (-10) (-10)) (at_ 300 200);
    DuplicateSelected;
    MarqueeDrag homeViewport (at_ 1300 160) (at_ (-10) (-10));
    DeleteSelected;
    MarqueeDrag homeViewport (at_ 1990 (-10)) (at_ 2300 200) ].

(** A canvas with nodes [a] and [b] and no edge. *)
Definition canvasAB : Graph :=
  {| nodes := [textNodeAt "a" 0 0 false; textNodeAt "b" 400 0 false];
     edges := []; nodeIdCounter := Js.Finite 1 |}.

(** What [onConnect] does with a connection, read off [addEdge]: nothing
    when an endpoint is missing or an equal connection exists. *)
Definition connectionIgnored (connection : Connection.t) (eds : list Edge.t) : bool :=
  match Connection.source connection, Connection.target connection with
  | Some s, Some t =>
      Js.isEmpty s || Js.isEmpty t
      || existsb (fun el =>
           String.eqb (Edge.source el) s && String.eqb (Edge.target el) t
           && sameHandle (Edge.sourceHandle el) (Connection.sourceHandle connection)
           && sameHandle (Edge.targetHandle el) (Connection.targetHandle connection))
           eds
  | _, _ => true
  end.

(** Node [a] lies inside the rectangle dragged from (-10, -10) to
    (300, 200); node [b] overlaps it only in part. *)
Definition canvasMarquee : Graph :=
  {| nodes := [textNodeAt "a" 0 0 false; textNodeAt "b" 200 100 true];
     edges := []; nodeIdCounter := Js.Finite 1 |}.

(* ================================================================== *)
(** * The remote store (src/lib/supabaseClient.ts)                      *)
(* ================================================================== *)

(** ** Tables (the migrations and the [CanvasData], [SharedCanvas]
       interfaces); timestamps are ticks of one clock. *)

Module CanvasData.
Record t := {
  id : string;
  user_id : string;
  canvas_name : string;
  nodes : list Node.t;
  edges : list Edge.t;
  viewport : Viewport;
  thumbnail_url : option string;
  is_public : bool;
  shared_with : list string;
  created_at : nat;
  updated_at : nat
}.
End CanvasData.

Inductive Permission := view | edit.

Module SharedCanvas.
Record t := {
  canvas_id : string;
  shared_with_user_id : string;
  permission : Permission;
  shared_by_user_id : string
}.
End SharedCanvas.

Record Database := {
  canvases : list CanvasData.t;
  canvas_shares : list SharedCanvas.t
}.

(** [dataToSave] of [saveCanvas]; [thumbnail_url] is absent from the
    object when it is [None]. *)
Module SavePayload.
Record t := {
  user_id : string;
  canvas_name : string;
  nodes : list Node.t;
  edges : list Edge.t;
  viewport : Viewport;
  updated_at : nat;
  thumbnail_url : option string
}.
End SavePayload.

(** ** Requests and the network *)

Inductive Request :=
| UpdateCanvas (canvasId : string) (dataToSave : SavePayload.t)
| UpsertCanvas (dataToSave : SavePayload.t)
| UpdateThumbnail (canvasId thumbnailUrl : string) (updatedAt : nat)
| SelectCanvasById (canvasId : string)
| SelectCanvasByName (userId canvasName : string)
| SelectSharePermission (canvasId userId : string)
| SelectVersions (userId canvasName : string)
| DeleteCanvases (ids : list string).

Definition isWrite (r : Request) : bool :=
  match r with
  | UpdateCanvas _ _ | UpsertCanvas _ | UpdateThumbnail _ _ _ | DeleteCanvases _ => true
  | _ => false
  end.

(** The store and the way to it: the tables, the clock, the supply of row
    ids, the requests sent so far (oldest first), and for each coming
    request whether the network drops it ([true]; none dropped once the
    list is used up). *)
Record Backend := {
  db : Database;
  clock : nat;
  nextUuid : nat;
  outages : list bool;
  requests : list Request
}.

(** What a supabase query resolves to: [{ data, error: null }] or
    [{ data: null, error }]. *)
Inductive Response (A : Type) :=
| Data (data : A)
| Error (message : string).
Arguments Data {A} data.
Arguments Error {A} message.

Definition dropped (w : Backend) : bool :=
  match outages w with
  | true :: _ => true
  | _ => false
  end.

(** Sending [r]: it is logged, time passes, one outage entry is used. *)
Definition transmit (r : Request) (w : Backend) : Backend :=
  {| db := db w; clock := S (clock w); nextUuid := nextUuid w;
     outages := tl (outages w); requests := (requests w ++ [r])%list |}.

Definition withDb (d : Database) (w : Backend) : Backend :=
  {| db := d; clock := clock w; nextUuid := nextUuid w;
     outages := outages w; requests := requests w |}.

Definition withCanvases (rows : list CanvasData.t) (w : Backend) : Backend :=
  withDb {| canvases := rows; canvas_shares := canvas_shares (db w) |} w.

(** ** Row operations *)

Definition gen_random_uuid (n : nat) : string := "uuid-" ++ decimal n.

(** [.single()] and [.maybeSingle()] over the rows a query returned. *)
Definition single {A} (rows : list A) : Response A :=
  match rows with
  | [r] => Data r
  | _ => Error "PGRST116"
  end.

Definition maybeSingle {A} (rows : list A) : Response (option A) :=
  match rows with
  | [] => Data None
  | [r] => Data (Some r)
  | _ => Error "PGRST116"
  end.

(** What the browser supplies. [JSON_stringify] serializes the object
    [{ nodes, edges, viewport }]. [JSON_image] is the rest of a node's
    [data] as it comes back from a jsonb column, that is after
    [JSON.stringify] and [JSON.parse]: a field that holds [undefined] is
    gone and a [File] has become [{}]. [createThumbnailSvg]
    (supabaseClient.ts, lines 348-426) builds its text from formatted
    doubles and is left uninterpreted, as is [btoa]. *)
Class Platform := {
  JSON_stringify : list Node.t -> list Edge.t -> Viewport -> string;
  JSON_image : string -> string;
  createThumbnailSvg : list Node.t -> list Edge.t -> Viewport -> string;
  btoa : string -> string
}.

Section Rows.
Context {P : Platform}.

(** A node as the jsonb column [nodes] returns it. Strings, booleans and
    numbers come back as they went; an absent [title] stays absent. *)
Definition storedNode (node : Node.t) : Node.t :=
  {| Node.id := Node.id node; Node.type := Node.type node;
     Node.position := Node.position node; Node.selected := Node.selected node;
     Node.data := {| title := title (Node.data node);
                     isActive := isActive (Node.data node);
                     payload := JSON_image (payload (Node.data node)) |} |}.

(** The columns an update or upsert writes; the trigger
    [update_canvases_updated_at] stamps the row with the server time. *)
Definition writeRow (p : SavePayload.t) (now : nat) (row : CanvasData.t)
  : CanvasData.t :=
  {| CanvasData.id := CanvasData.id row;
     CanvasData.user_id := SavePayload.user_id p;
     CanvasData.canvas_name := SavePayload.canvas_name p;
     CanvasData.nodes := map storedNode (SavePayload.nodes p);
     CanvasData.edges := SavePayload.edges p;
     CanvasData.viewport := SavePayload.viewport p;
     CanvasData.thumbnail_url :=
       match SavePayload.thumbnail_url p with
       | Some u => Some u
       | None => CanvasData.thumbnail_url row
       end;
     CanvasData.is_public := CanvasData.is_public row;
     CanvasData.shared_with := CanvasData.shared_with row;
     CanvasData.created_at := CanvasData.created_at row;
     CanvasData.updated_at := now |}.

Definition newRow (p : SavePayload.t) (uuid : string) (now : nat) : CanvasData.t :=
  {| CanvasData.id := uuid;
     CanvasData.user_id := SavePayload.user_id p;
     CanvasData.canvas_name := SavePayload.canvas_name p;
     CanvasData.nodes := map storedNode (SavePayload.nodes p);
     CanvasData.edges := SavePayload.edges p;
     CanvasData.viewport := SavePayload.viewport p;
     CanvasData.thumbnail_url := SavePayload.thumbnail_url p;
     CanvasData.is_public := false;
     CanvasData.shared_with := [];
     CanvasData.created_at := now;
     CanvasData.updated_at := SavePayload.updated_at p |}.

Definition writeThumbnail (url : string) (now : nat) (row : CanvasData.t)
  : CanvasData.t :=
  {| CanvasData.id := CanvasData.id row;
     CanvasData.user_id := CanvasData.user_id row;
     CanvasData.canvas_name := CanvasData.canvas_name row;
     CanvasData.nodes := CanvasData.nodes row;
     CanvasData.edges := CanvasData.edges row;
     CanvasData.viewport := CanvasData.viewport row;
     CanvasData.thumbnail_url := Some url;
     CanvasData.is_public := CanvasData.is_public row;
     CanvasData.shared_with := CanvasData.shared_with row;
     CanvasData.created_at := CanvasData.created_at row;
     CanvasData.updated_at := now |}.

Definition hasId (i : string) (row : CanvasData.t) : bool :=
  String.eqb (CanvasData.id row) i.

Definition ownedAs (userId canvasName : string) (row : CanvasData.t) : bool :=
  String.eqb (CanvasData.user_id row) userId
  && String.eqb (CanvasData.canvas_name row) canvasName.

(** The constraint [unique_user_canvas]. *)
Fixpoint uniqueUserCanvas (rows : list CanvasData.t) : bool :=
  match rows with
  | [] => true
  | r :: rows' =>
      negb (existsb (ownedAs (CanvasData.user_id r) (CanvasData.canvas_name r)) rows')
      && uniqueUserCanvas rows'
  end.

Definition mapWhere {A} (p : A -> bool) (f : A -> A) (l : list A) : list A :=
  map (fun a => if p a then f a else a) l.

(** [.order('updated_at', { ascending: false })] *)
Fixpoint insertByUpdatedAt (r : CanvasData.t) (l : list CanvasData.t)
  : list CanvasData.t :=
  match l with
  | [] => [r]
  | a :: l' =>
      if (CanvasData.updated_at a <? CanvasData.updated_at r)%nat
      then r :: a :: l'
      else a :: insertByUpdatedAt r l'
  end.

Definition newestFirst (l : list CanvasData.t) : list CanvasData.t :=
  fold_right insertByUpdatedAt [] l.

(** ** Queries: one request each *)

Definition Query (A : Type) := Backend -> Response A * Backend.

(** [from('canvases').update(dataToSave).eq('id', canvasId).select().single()] *)
Definition updateCanvasQuery (canvasId : string) (p : SavePayload.t)
  : Query CanvasData.t := fun w =>
  let w1 := transmit (UpdateCanvas canvasId p) w in
  if dropped w then (Error "network", w1)
  else
    let rows := canvases (db w1) in
    if existsb (hasId canvasId) rows
       && existsb (fun r => negb (hasId canvasId r)
                            && ownedAs (SavePayload.user_id p)
                                       (SavePayload.canvas_name p) r) rows
    then (Error "23505", w1)
    else
      let rows' := mapWhere (hasId canvasId) (writeRow p (clock w1)) rows in
      (single (filter (hasId canvasId) rows'), withCanvases rows' w1).

(** [from('canvases').upsert(dataToSave, { onConflict: 'user_id,canvas_name' })
     .select().single()] *)
Definition upsertCanvasQuery (p : SavePayload.t) : Query CanvasData.t := fun w =>
  let w1 := transmit (UpsertCanvas p) w in
  if dropped w then (Error "network", w1)
  else
    let rows := canvases (db w1) in
    let mine := ownedAs (SavePayload.user_id p) (SavePayload.canvas_name p) in
    if existsb mine rows then
      let rows' := mapWhere mine (writeRow p (clock w1)) rows in
      (single (filter mine rows'), withCanvases rows' w1)
    else
      let row := newRow p (gen_random_uuid (nextUuid w1)) (clock w1) in
      (Data row,
       {| db := {| canvases := (rows ++ [row])%list;
                   canvas_shares := canvas_shares (db w1) |};
          clock := clock w1; nextUuid := S (nextUuid w1);
          outages := outages w1; requests := requests w1 |}).

(** [from('canvases').update({ thumbnail_url, updated_at }).eq('id', canvasId)
     .select().single()] *)
Definition updateThumbnailQuery (canvasId thumbnailUrl : string)
  : Query CanvasData.t := fun w =>
  let w1 := transmit (UpdateThumbnail canvasId thumbnailUrl (clock w)) w in
  if dropped w then (Error "network", w1)
  else
    let rows' := mapWhere (hasId canvasId) (writeThumbnail thumbnailUrl (clock w1))
                          (canvases (db w1)) in
    (single (filter (hasId canvasId) rows'), withCanvases rows' w1).

(** [from('canvases').select('*').eq('id', canvasId).maybeSingle()] *)
Definition selectCanvasByIdQuery (canvasId : string)
  : Query (option CanvasData.t) := fun w =>
  let w1 := transmit (SelectCanvasById canvasId) w in
  if dropped w then (Error "network", w1)
  else (maybeSingle (filter (hasId canvasId) (canvases (db w1))), w1).

(** [from('canvases').select('*').eq('user_id', userId)
     .eq('canvas_name', canvasName).maybeSingle()] *)
Definition selectCanvasByNameQuery (userId canvasName : string)
  : Query (option CanvasData.t) := fun w =>
  let w1 := transmit (SelectCanvasByName userId canvasName) w in
  if dropped w then (Error "network", w1)
  else (maybeSingle (filter (ownedAs userId canvasName) (canvases (db w1))), w1).

(** [from('canvas_shares').select('permission').eq('canvas_id', canvasId)
     .eq('shared_with_user_id', userId).maybeSingle()] *)
Definition selectSharePermissionQuery (canvasId userId : string)
  : Query (option Permission) := fun w =>
  let w1 := transmit (SelectSharePermission canvasId userId) w in
  if dropped w then (Error "network", w1)
  else
    (maybeSingle
       (map SharedCanvas.permission
          (filter (fun s => String.eqb (SharedCanvas.canvas_id s) canvasId
                            && String.eqb (SharedCanvas.shared_with_user_id s) userId)
                  (canvas_shares (db w1)))),
     w1).

(** [from('canvases').select('id, updated_at').eq('user_id', userId)
     .eq('canvas_name', canvasName).order('updated_at', { ascending: false })] *)
Definition selectVersionsQuery (userId canvasName : string)
  : Query (list CanvasData.t) := fun w =>
  let w1 := transmit (SelectVersions userId canvasName) w in
  if dropped w then (Error "network", w1)
  else (Data (newestFirst (filter (ownedAs userId canvasName) (canvases (db w1)))), w1).

(** [from('canvases').delete().in('id', idsToDelete)]; shares of a deleted
    canvas go with it (ON DELETE CASCADE). *)
Definition deleteCanvasesQuery (ids : list string) : Query unit := fun w =>
  let w1 := transmit (DeleteCanvases ids) w in
  if dropped w then (Error "network", w1)
  else
    (Data tt,
     withDb {| canvases :=
                 filter (fun r => negb (Js.includes ids (CanvasData.id r)))
                        (canvases (db w1));
               canvas_shares :=
                 filter (fun s => negb (Js.includes ids (SharedCanvas.canvas_id s)))
                        (canvas_shares (db w1)) |} w1).

End Rows.

(** ** Promises of [canvasOperations] *)

Inductive Outcome (A : Type) :=
| Resolved (value : A)
| Rejected (reason : string).
Arguments Resolved {A} value.
Arguments Rejected {A} reason.

Definition Async (A : Type) := Backend -> Outcome A * Backend.

Definition resolve {A} (a : A) : Async A := fun w => (Resolved a, w).

Definition throw {A} (reason : string) : Async A := fun w => (Rejected reason, w).

Definition andThen {A B} (m : Async A) (k : A -> Async B) : Async B := fun w =>
  match m w with
  | (Resolved a, w1) => k a w1
  | (Rejected e, w1) => (Rejected e, w1)
  end.

(** [const { data, error } = await q; if (error) throw error] *)
Definition dataOf {A} (q : Query A) : Async A := fun w =>
  match q w with
  | (Data a, w1) => (Resolved a, w1)
  | (Error e, w1) => (Rejected e, w1)
  end.

Notation "x <- m ;; k" := (andThen m (fun x => k))
  (at level 61, m at next level, right associativity).

(** The argument object of [saveCanvas]. *)
Module SaveArgs.
Record t := {
  nodes : list Node.t;
  edges : list Edge.t;
  viewport : Viewport;
  canvasName : option string;
  canvasId : option string;
  thumbnailUrl : option string
}.
End SaveArgs.

(** What [loadCanvas] resolves to when it is not [null]: the columns of
    the row spread into the object (no column at all when the row is
    [null]), then [permission] and [isOwner]. *)
Module LoadedCanvas.
Record t := {
  row : option CanvasData.t;
  permission : Permission;
  isOwner : bool
}.
End LoadedCanvas.

Definition defaultUser : string := "default-user".

Definition keepTruthy (a : option string) : option string :=
  if Js.truthy a then a else None.

Module canvasOperations.
Section Operations.
Context {P : Platform}.

(** [dataToSave] (lines 57-65); [now] is [new Date()]. *)
Definition dataToSave (canvasData : SaveArgs.t) (now : nat) : SavePayload.t :=
  {| SavePayload.user_id := defaultUser;
     SavePayload.canvas_name :=
       if Js.truthy (SaveArgs.canvasName canvasData)
       then handleText (SaveArgs.canvasName canvasData) else "My Canvas";
     SavePayload.nodes := SaveArgs.nodes canvasData;
     SavePayload.edges := SaveArgs.edges canvasData;
     SavePayload.viewport := SaveArgs.viewport canvasData;
     SavePayload.updated_at := now;
     SavePayload.thumbnail_url := keepTruthy (SaveArgs.thumbnailUrl canvasData) |}.

(** [saveCanvas] (lines 43-98); the catch block logs and rethrows. *)
Definition saveCanvas (canvasData : SaveArgs.t) : Async CanvasData.t := fun w =>
  let payload := dataToSave canvasData (clock w) in
  if Js.truthy (SaveArgs.canvasId canvasData)
  then dataOf (updateCanvasQuery (handleText (SaveArgs.canvasId canvasData)) payload) w
  else dataOf (upsertCanvasQuery payload) w.

(** [loadCanvas] (lines 146-194). *)
Definition loadCanvas (canvasId : option string) (canvasName : string)
  : Async (option LoadedCanvas.t) :=
  if Js.truthy canvasId then
    data <- dataOf (selectCanvasByIdQuery (handleText canvasId)) ;;
    match data with
    | Some r =>
        if negb (String.eqb (CanvasData.user_id r) defaultUser) then
          fun w =>
            match selectSharePermissionQuery (handleText canvasId) defaultUser w with
            | (Data (Some perm), w1) =>
                (Resolved (Some {| LoadedCanvas.row := Some r;
                                   LoadedCanvas.permission := perm;
                                   LoadedCanvas.isOwner := false |}), w1)
            | (_, w1) => (Rejected "Access denied to this canvas", w1)
            end
        else resolve (Some {| LoadedCanvas.row := Some r;
                              LoadedCanvas.permission := edit;
                              LoadedCanvas.isOwner := true |})
    | None => resolve (Some {| LoadedCanvas.row := None;
                               LoadedCanvas.permission := edit;
                               LoadedCanvas.isOwner := true |})
    end
  else
    data <- dataOf (selectCanvasByNameQuery defaultUser canvasName) ;;
    resolve (match data with
             | Some r => Some {| LoadedCanvas.row := Some r;
                                 LoadedCanvas.permission := edit;
                                 LoadedCanvas.isOwner := true |}
             | None => None
             end).

(** [generateThumbnail] (lines 320-345). *)
Definition generateThumbnail (canvasId : string) (nds : list Node.t)
  (eds : list Edge.t) (viewport : Viewport) : Async string :=
  let thumbnailSvg := createThumbnailSvg nds eds viewport in
  let thumbnailUrl := "data:image/svg+xml;base64," ++ btoa thumbnailSvg in
  _ <- dataOf (updateThumbnailQuery canvasId thumbnailUrl) ;;
  resolve thumbnailUrl.

(** [cleanupOldVersions] (lines 429-464): it never rejects. *)
Definition cleanupOldVersions (canvasName : string) : Backend -> Backend := fun w =>
  match selectVersionsQuery defaultUser canvasName w with
  | (Error _, w1) => w1
  | (Data allCanvases, w1) =>
      if (1 <? List.length allCanvases)%nat then
        let canvasesToDelete := tl allCanvases in
        let idsToDelete := map CanvasData.id canvasesToDelete in
        snd (deleteCanvasesQuery idsToDelete w1)
      else w1
  end.

End Operations.
End canvasOperations.

(* ================================================================== *)
(** * The canvas session: load, auto-save, manual save                  *)
(* ================================================================== *)

Record SaveState := {
  lastSavedTime : string;
  isSaving : bool;
  saveError : option string
}.

(** The render values a save function closes over: [saveCanvasData] those
    of the render whose effect armed the timer, [manualSave] those of the
    render in which the keydown handler was registered. *)
Record SaveClosure := {
  closedNodes : list Node.t;
  closedEdges : list Edge.t;
  closedCanvasId : option string;
  closedCanvasName : string
}.

(** The load effect (lines 80-131) depends on [setReactFlowViewport], which
    [useReactFlow()] hands out twice: at the first render the initial
    helper, which does nothing, and once React Flow has set up its pane the
    helper that moves the viewport. The effect therefore runs twice on
    mount and two calls of [loadCanvasData] are under way, the first with
    the helper that does nothing. *)
Inductive LoadCall := FirstLoad | SecondLoad.

(** State and refs of [FlowCanvasInner]. [flowViewport] is the viewport
    React Flow holds, read by [getViewport()]; [saveTimeoutRef] is the
    pending timeout with the closure it will run, if any; [keydownClosure]
    is what the [manualSave] of the registered keydown handler closes over;
    [loadsInFlight] are the calls of [loadCanvasData] that have not
    settled. *)
Record Session := {
  graph : Graph;
  viewport : Viewport;
  flowViewport : Viewport;
  saveState : SaveState;
  isLoaded : bool;
  currentCanvasId : option string;
  canvasName : string;
  lastSaveDataRef : string;
  saveTimeoutRef : option SaveClosure;
  keydownClosure : SaveClosure;
  loadsInFlight : list LoadCall
}.

Definition setGraph (g : Graph) (s : Session) : Session :=
  {| graph := g; viewport := viewport s; flowViewport := flowViewport s;
     saveState := saveState s; isLoaded := isLoaded s;
     currentCanvasId := currentCanvasId s; canvasName := canvasName s;
     lastSaveDataRef := lastSaveDataRef s;
     saveTimeoutRef := saveTimeoutRef s;
     keydownClosure := keydownClosure s; loadsInFlight := loadsInFlight s |}.

Definition setViewport (v : Viewport) (s : Session) : Session :=
  {| graph := graph s; viewport := v; flowViewport := flowViewport s;
     saveState := saveState s; isLoaded := isLoaded s;
     currentCanvasId := currentCanvasId s; canvasName := canvasName s;
     lastSaveDataRef := lastSaveDataRef s;
     saveTimeoutRef := saveTimeoutRef s;
     keydownClosure := keydownClosure s; loadsInFlight := loadsInFlight s |}.

Definition setFlowViewport (v : Viewport) (s : Session) : Session :=
  {| graph := graph s; viewport := viewport s; flowViewport := v;
     saveState := saveState s; isLoaded := isLoaded s;
     currentCanvasId := currentCanvasId s; canvasName := canvasName s;
     lastSaveDataRef := lastSaveDataRef s;
     saveTimeoutRef := saveTimeoutRef s;
     keydownClosure := keydownClosure s; loadsInFlight := loadsInFlight s |}.

Definition setSaveState (st : SaveState) (s : Session) : Session :=
  {| graph := graph s; viewport := viewport s;
     flowViewport := flowViewport s; saveState := st;
     isLoaded := isLoaded s; currentCanvasId := currentCanvasId s;
     canvasName := canvasName s; lastSaveDataRef := lastSaveDataRef s;
     saveTimeoutRef := saveTimeoutRef s;
     keydownClosure := keydownClosure s; loadsInFlight := loadsInFlight s |}.

Definition setIsLoaded (b : bool) (s : Session) : Session :=
  {| graph := graph s; viewport := viewport s;
     flowViewport := flowViewport s; saveState := saveState s;
     isLoaded := b; currentCanvasId := currentCanvasId s;
     canvasName := canvasName s; lastSaveDataRef := lastSaveDataRef s;
     saveTimeoutRef := saveTimeoutRef s;
     keydownClosure := keydownClosure s; loadsInFlight := loadsInFlight s |}.

Definition setCurrentCanvasId (i : option string) (s : Session) : Session :=
  {| graph := graph s; viewport := viewport s;
     flowViewport := flowViewport s; saveState := saveState s;
     isLoaded := isLoaded s; currentCanvasId := i;
     canvasName := canvasName s; lastSaveDataRef := lastSaveDataRef s;
     saveTimeoutRef := saveTimeoutRef s;
     keydownClosure := keydownClosure s; loadsInFlight := loadsInFlight s |}.

Definition setCanvasName (n : string) (s : Session) : Session :=
  {| graph := graph s; viewport := viewport s;
     flowViewport := flowViewport s; saveState := saveState s;
     isLoaded := isLoaded s; currentCanvasId := currentCanvasId s;
     canvasName := n; lastSaveDataRef := lastSaveDataRef s;
     saveTimeoutRef := saveTimeoutRef s;
     keydownClosure := keydownClosure s; loadsInFlight := loadsInFlight s |}.

Definition setLastSaveData (h : string) (s : Session) : Session :=
  {| graph := graph s; viewport := viewport s;
     flowViewport := flowViewport s; saveState := saveState s;
     isLoaded := isLoaded s; currentCanvasId := currentCanvasId s;
     canvasName := canvasName s; lastSaveDataRef := h;
     saveTimeoutRef := saveTimeoutRef s;
     keydownClosure := keydownClosure s; loadsInFlight := loadsInFlight s |}.

Definition setSaveTimeout (t : option SaveClosure) (s : Session) : Session :=
  {| graph := graph s; viewport := viewport s;
     flowViewport := flowViewport s; saveState := saveState s;
     isLoaded := isLoaded s; currentCanvasId := currentCanvasId s;
     canvasName := canvasName s; lastSaveDataRef := lastSaveDataRef s;
     saveTimeoutRef := t; keydownClosure := keydownClosure s;
     loadsInFlight := loadsInFlight s |}.

Definition setKeydownClosure (c : SaveClosure) (s : Session) : Session :=
  {| graph := graph s; viewport := viewport s;
     flowViewport := flowViewport s; saveState := saveState s;
     isLoaded := isLoaded s; currentCanvasId := currentCanvasId s;
     canvasName := canvasName s; lastSaveDataRef := lastSaveDataRef s;
     saveTimeoutRef := saveTimeoutRef s; keydownClosure := c;
     loadsInFlight := loadsInFlight s |}.

Definition setLoadsInFlight (l : list LoadCall) (s : Session) : Session :=
  {| graph := graph s; viewport := viewport s;
     flowViewport := flowViewport s; saveState := saveState s;
     isLoaded := isLoaded s; currentCanvasId := currentCanvasId s;
     canvasName := canvasName s; lastSaveDataRef := lastSaveDataRef s;
     saveTimeoutRef := saveTimeoutRef s;
     keydownClosure := keydownClosure s; loadsInFlight := l |}.

(** [setViewport(v); setReactFlowViewport(v)] with the helper that moves
    the viewport. *)
Definition setViewports (v : Viewport) (s : Session) : Session :=
  setFlowViewport v (setViewport v s).

Definition setLastSavedTime (t : string) (s : Session) : Session :=
  setSaveState {| lastSavedTime := t; isSaving := isSaving (saveState s);
                  saveError := saveError (saveState s) |} s.

Definition setIsSaving (b : bool) (s : Session) : Session :=
  setSaveState {| lastSavedTime := lastSavedTime (saveState s); isSaving := b;
                  saveError := saveError (saveState s) |} s.

Definition setSaveError (e : option string) (s : Session) : Session :=
  setSaveState {| lastSavedTime := lastSavedTime (saveState s);
                  isSaving := isSaving (saveState s); saveError := e |} s.

Definition closureOf (s : Session) : SaveClosure :=
  {| closedNodes := nodes (graph s); closedEdges := edges (graph s);
     closedCanvasId := currentCanvasId s; closedCanvasName := canvasName s |}.

(** The component as mounted: both calls of [loadCanvasData] started and
    waiting for the store (they have run [setIsSaving(true)]), the keydown
    handler registered in the first render. *)
Definition mounted : Session :=
  {| graph := emptyGraph;
     viewport := homeViewport;
     flowViewport := homeViewport;
     saveState := {| lastSavedTime := "just now"; isSaving := true; saveError := None |};
     isLoaded := false;
     currentCanvasId := None;
     canvasName := "My Canvas";
     lastSaveDataRef := "";
     saveTimeoutRef := None;
     keydownClosure := {| closedNodes := []; closedEdges := [];
                          closedCanvasId := None; closedCanvasName := "My Canvas" |};
     loadsInFlight := [FirstLoad; SecondLoad] |}.

(** Loose equality test on the optional canvas id. *)
Definition sameCanvasId (a b : option string) : bool := optEqb a b.

Definition sameCall (a b : LoadCall) : bool :=
  match a, b with
  | FirstLoad, FirstLoad | SecondLoad, SecondLoad => true
  | _, _ => false
  end.

Definition inFlight (call : LoadCall) (s : Session) : bool :=
  existsb (sameCall call) (loadsInFlight s).

Definition settled (call : LoadCall) (s : Session) : Session :=
  setLoadsInFlight (filter (fun k => negb (sameCall call k)) (loadsInFlight s)) s.

(** Which state a command sets anew, so that the next render sees a new
    array: [setNodes] is not called by [onConnect], and by the delete,
    duplicate and organize commands only past their guards; [addEdge]
    returns the array it was given when it ignores the connection. *)
Definition setsNodes (c : Command) (g : Graph) : bool :=
  match c with
  | CreateNode _ _ _ | SelectAIModel _ _ _ _ _ _ | MarqueeDrag _ _ _ | SelectAll => true
  | Connect _ _ => false
  | DeleteSelected | DuplicateSelected => existsb Node.selected (nodes g)
  | Organize => negb (List.length (nodes g) =? 0)%nat
  end.

Definition setsEdges (c : Command) (g : Graph) : bool :=
  match c with
  | Connect isDarkMode connection =>
      negb (List.length (addEdge (styledConnection isDarkMode connection) (edges g))
            =? List.length (edges g))%nat
  | DeleteSelected => existsb Node.selected (nodes g)
  | _ => false
  end.

Section Component.
Context {P : Platform} {RF : ReactFlowInstance}.

(** [loadCanvasData] from the point where the store answers (lines
    86-127); [canvasId] is the prop, [call] says which of the two calls
    it is. *)
Definition loadCanvasData (call : LoadCall) (canvasId : option string)
  (s : Session) (w : Backend) : Session * Backend :=
  let (outcome, w1) :=
    canvasOperations.loadCanvas (keepTruthy canvasId) "My Canvas" w in
  let s1 :=
    match outcome with
    | Resolved canvasData =>
        let s2 :=
          if Js.truthy canvasId then setCurrentCanvasId canvasId s
          else setCurrentCanvasId
                 (match canvasData with
                  | Some cd =>
                      keepTruthy (option_map CanvasData.id (LoadedCanvas.row cd))
                  | None => None
                  end) s in
        match canvasData with
        | Some cd =>
            let loadedNodes :=
              match LoadedCanvas.row cd with
              | Some r => CanvasData.nodes r | None => [] end in
            let loadedEdges :=
              match LoadedCanvas.row cd with
              | Some r => CanvasData.edges r | None => [] end in
            let name :=
              Js.orElse (match LoadedCanvas.row cd with
                         | Some r => CanvasData.canvas_name r | None => "" end)
                        "My Canvas" in
            let s3 :=
              setCanvasName name
                (setGraph {| nodes := loadedNodes; edges := loadedEdges;
                             nodeIdCounter := nodeIdCounter (graph s2) |} s2) in
            let s4 :=
              match LoadedCanvas.row cd, call with
              | Some r, FirstLoad => setViewport (CanvasData.viewport r) s3
              | Some r, SecondLoad => setViewports (CanvasData.viewport r) s3
              | None, _ => s3
              end in
            setLastSavedTime "just now"
              (setGraph (setNodeIdCounter (fun _ => seedNodeIdCounter loadedNodes)
                                          (graph s4)) s4)
        | None => setCanvasName "My Canvas" (setLastSavedTime "never" s2)
        end
    | Rejected _ =>
        setLastSavedTime "error" (setSaveError (Some "Failed to load canvas data") s)
    end in
  (setIsLoaded true (setIsSaving false s1), w1).

(** Whether the call got a canvas and so ran [setNodes] and [setEdges]. *)
Definition loadSetsGraph (canvasId : option string) (w : Backend) : bool :=
  match fst (canvasOperations.loadCanvas (keepTruthy canvasId) "My Canvas" w) with
  | Resolved (Some _) => true
  | _ => false
  end.

(** Steps shared by both save paths: the thumbnail, when there are
    nodes; a failure is caught and logged, the url stays undefined. *)
Definition tryThumbnail (canvasId : option string) (nds : list Node.t)
  (eds : list Edge.t) (currentViewport : Viewport) (w : Backend)
  : option string * Backend :=
  if (0 <? List.length nds)%nat then
    match canvasOperations.generateThumbnail
            (if Js.truthy canvasId then handleText canvasId else "temp")
            nds eds currentViewport w with
    | (Resolved url, w1) => (Some url, w1)
    | (Rejected _, w1) => (None, w1)
    end
  else (None, w).

Definition saveArgs (nds : list Node.t) (eds : list Edge.t)
  (currentViewport : Viewport) (name : string) (canvasId thumbnailUrl : option string)
  : SaveArgs.t :=
  {| SaveArgs.nodes := nds; SaveArgs.edges := eds;
     SaveArgs.viewport := currentViewport;
     SaveArgs.canvasName := Some name;
     SaveArgs.canvasId := keepTruthy canvasId;
     SaveArgs.thumbnailUrl := thumbnailUrl |}.

(** [if (!currentCanvasId && savedCanvas?.id) setCurrentCanvasId(savedCanvas.id)] *)
Definition adoptCanvasId (canvasId : option string) (savedCanvas : CanvasData.t)
  (s : Session) : Session :=
  if negb (Js.truthy canvasId) && negb (Js.isEmpty (CanvasData.id savedCanvas))
  then setCurrentCanvasId (Some (CanvasData.id savedCanvas)) s
  else s.

(** [saveCanvasData] (lines 137-196), run by the timeout with the values
    [c] of the render that armed it. *)
Definition saveCanvasData (c : SaveClosure) (s : Session) (w : Backend)
  : Session * Backend :=
  let currentViewport := flowViewport s in
  let currentDataHash :=
    JSON_stringify (closedNodes c) (closedEdges c) currentViewport in
  if String.eqb currentDataHash (lastSaveDataRef s)
  then (setIsSaving false s, w) (* the early return still runs [finally] *)
  else
    let s1 := setSaveError None (setIsSaving true s) in
    let (thumbnailUrl, w1) :=
      tryThumbnail (closedCanvasId c) (closedNodes c) (closedEdges c)
                   currentViewport w in
    match canvasOperations.saveCanvas
            (saveArgs (closedNodes c) (closedEdges c) currentViewport
                      (closedCanvasName c) (closedCanvasId c) thumbnailUrl) w1 with
    | (Resolved savedCanvas, w2) =>
        let s2 := adoptCanvasId (closedCanvasId c) savedCanvas s1 in
        let w3 := canvasOperations.cleanupOldVersions (closedCanvasName c) w2 in
        (setIsSaving false
           (setLastSavedTime "just now" (setLastSaveData currentDataHash s2)), w3)
    | (Rejected _, w2) =>
        (setIsSaving false
           (setLastSavedTime "error" (setSaveError (Some "Auto-save failed") s1)), w2)
    end.

(** [manualSave] (lines 416-462) with the values [c] it closes over;
    [getViewport()] reads the viewport React Flow holds now. *)
Definition manualSave (c : SaveClosure) (s : Session) (w : Backend)
  : Session * Backend :=
  let s1 := setSaveError None (setIsSaving true s) in
  let currentViewport := flowViewport s in
  let (thumbnailUrl, w1) :=
    tryThumbnail (closedCanvasId c) (closedNodes c) (closedEdges c)
                 currentViewport w in
  match canvasOperations.saveCanvas
          (saveArgs (closedNodes c) (closedEdges c) currentViewport
                    (closedCanvasName c) (closedCanvasId c) thumbnailUrl) w1 with
  | (Resolved savedCanvas, w2) =>
      let s2 := adoptCanvasId (closedCanvasId c) savedCanvas s1 in
      let w3 := canvasOperations.cleanupOldVersions (closedCanvasName c) w2 in
      (setIsSaving false (setLastSavedTime "just now" s2), w3)
  | (Rejected _, w2) =>
      (setIsSaving false
         (setLastSavedTime "error" (setSaveError (Some "Save failed") s1)), w2)
  end.

(** The auto-save effect (lines 134-211) when it runs: nothing before the
    load has completed, otherwise the pending timeout is cleared and a new
    one is set. *)
Definition autoSaveEffect (s : Session) : Session :=
  if negb (isLoaded s) then s
  else setSaveTimeout (Some (closureOf s)) s.

(** The keydown effect (lines 365-413, dependency [nodes]): the handler
    is registered anew, and with it the [manualSave] of this render. *)
Definition keydownEffect (s : Session) : Session :=
  setKeydownClosure (closureOf s) s.

(** The effects after the render that follows a change from [before] to
    [s]. [nodesSet] says that [setNodes] was given a new array,
    [othersSet] that [setEdges] or [setViewport] was given a new object.
    The keydown effect runs when [nodes] changed; the auto-save effect
    when one of [nodes], [edges], [viewport], [isLoaded],
    [currentCanvasId], [canvasName] changed. *)
Definition afterRender (nodesSet othersSet : bool) (before s : Session) : Session :=
  let s1 := if nodesSet then keydownEffect s else s in
  if nodesSet || othersSet
     || negb (sameCanvasId (currentCanvasId before) (currentCanvasId s))
     || negb (String.eqb (canvasName before) (canvasName s))
     || negb (Bool.eqb (isLoaded before) (isLoaded s))
  then autoSaveEffect s1
  else s1.

(** What can happen to a mounted canvas. An edit carries the command it
    runs on the graph store. [Pan] is the user moving or zooming the pane:
    React Flow takes the new viewport, the component does not render.
    [ViewportPoll] is the interval callback of lines 248-260, due every
    16 ms, which copies that viewport into the state. [TimerFired] is the
    pending timeout of the auto-save coming due, 2000 ms after it was
    armed: every poll in between re-arms it, so it comes due only when
    the polls were held up that long. [ManualSave] is Ctrl+S. *)
Inductive Event :=
| Edit (c : Command)
| Pan (v : Viewport)
| ViewportPoll
| Rename (newName : string)
| LoadSettled (call : LoadCall)
| TimerFired
| ManualSave.

(** One event, run to completion; [canvasId] is the prop. *)
Definition step (canvasId : option string) (e : Event) (c : Session * Backend)
  : Session * Backend :=
  let (s, w) := c in
  match e with
  | Edit cmd =>
      (afterRender (setsNodes cmd (graph s)) (setsEdges cmd (graph s)) s
                   (setGraph (exec cmd (graph s)) s), w)
  | Pan v => (setFlowViewport v s, w)
  | ViewportPoll => (afterRender false true s (setViewport (flowViewport s) s), w)
  | Rename newName => (afterRender false false s (setCanvasName newName s), w)
  | LoadSettled call =>
      if inFlight call s then
        let (s', w') := loadCanvasData call canvasId s w in
        (afterRender (loadSetsGraph canvasId w) (loadSetsGraph canvasId w) s
                     (settled call s'), w')
      else c
  | TimerFired =>
      match saveTimeoutRef s with
      | None => c
      | Some closure =>
          let (s', w') := saveCanvasData closure (setSaveTimeout None s) w in
          (afterRender false false s s', w')
      end
  | ManualSave =>
      let (s', w') := manualSave (keydownClosure s) s w in
      (afterRender false false s s', w')
  end.

Definition runSession (canvasId : option string) (es : list Event)
  (c : Session * Backend) : Session * Backend :=
  fold_left (fun c e => step canvasId e c) es c.

(** The requests sent between two states of the store. *)
Definition requestsSince (before after : Backend) : list Request :=
  skipn (List.length (requests before)) (requests after).

(** Each event of a run with the requests it sent. *)
Fixpoint history (canvasId : option string) (es : list Event)
  (c : Session * Backend) : list (Event * list Request) :=
  match es with
  | [] => []
  | e :: es' =>
      let c' := step canvasId e c in
      (e, requestsSince (snd c) (snd c')) :: history canvasId es' c'
  end.

End Component.

Section Renders.
Context {P : Platform} {RF : ReactFlowInstance}.

End Renders.

Definition isTimerFired (e : Event) : bool :=
  match e with TimerFired => true | _ => false end.



Definition isViewportPoll (e : Event) : bool :=
  match e with ViewportPoll => true | _ => false end.

(* ================================================================== *)
(** * Sample platform, sessions and stores                              *)
(* ================================================================== *)

(** A serializer good enough to tell the sample snapshots apart, and the
    jsonb image of the payloads [initialData] builds: the document node's
    [pageCount: undefined] does not come back. *)
Definition samplePlatform : Platform :=
  {| JSON_stringify := fun nds eds v =>
       "{nodes:[" ++ String.concat "," (nodeIds nds)
       ++ "],edges:[" ++ String.concat "," (map Edge.id eds)
       ++ "],zoom:" ++ decimal (Z.to_nat (zoom v)) ++ "}";
     JSON_image := Js.replace "pageCount:undefined," "";
     createThumbnailSvg := fun _ _ _ => "<svg/>";
     btoa := fun s => s |}.

Definition emptyStore : Backend :=
  {| db := {| canvases := []; canvas_shares := [] |};
     clock := 0; nextUuid := 0; outages := []; requests := [] |}.

(** The same store behind a network that drops the next request. *)
Definition flakyStore : Backend :=
  {| db := {| canvases := []; canvas_shares := [] |};
     clock := 0; nextUuid := 0; outages := [true]; requests := [] |}.

(** A session whose load found nothing, before any edit. *)
Definition freshSession : Session :=
  fst (loadCanvasData FirstLoad None mounted emptyStore).

(** One text node on the canvas of [freshSession]. *)
Definition oneNodeSession : Session :=
  setGraph (@handleCreateNode unitZoomFlow homeViewport "text" (at_ 100 100)
              (graph freshSession)) freshSession.

(* ================================================================== *)
(** * Vocabulary of the properties                                      *)
(* ================================================================== *)

(** Running [r] from the store [w] sent exactly the requests [l]. *)
Definition sends {A} (r : A * Backend) (w : Backend) (l : list Request) : Prop :=
  requests (snd r) = (requests w ++ l)%list.

(** The request [saveCanvas] sends for [a] at time [now]: an update of the
    known row, or an upsert by owner and name. *)
Definition saveRequest (a : SaveArgs.t) (now : nat) : Request :=
  if Js.truthy (SaveArgs.canvasId a)
  then UpdateCanvas (handleText (SaveArgs.canvasId a)) (canvasOperations.dataToSave a now)
  else UpsertCanvas (canvasOperations.dataToSave a now).

Section Fingerprint.
Context {P : Platform}.

(** The fingerprint a save attempt computes: the serialization of the
    closed-over nodes and edges with the viewport React Flow holds. *)
Definition fingerprint (c : SaveClosure) (s : Session) : string :=
  JSON_stringify (closedNodes c) (closedEdges c) (flowViewport s).

(** The canvas id [generateThumbnail] is called with. *)
Definition thumbnailTarget (canvasId : option string) : string :=
  if Js.truthy canvasId then handleText canvasId else "temp".
End Fingerprint.

Definition savedOk : SaveState :=
  {| lastSavedTime := "just now"; isSaving := false; saveError := None |}.

Definition saveFailed (message : string) : SaveState :=
  {| lastSavedTime := "error"; isSaving := false; saveError := Some message |}.

(** A stored canvas with no content under the id [canvasId]. *)
Definition emptyCanvasRow (canvasId : string) (created : nat) : CanvasData.t :=
  {| CanvasData.id := canvasId;
     CanvasData.user_id := defaultUser;
     CanvasData.canvas_name := "My Canvas";
     CanvasData.nodes := [];
     CanvasData.edges := [];
     CanvasData.viewport := homeViewport;
     CanvasData.thumbnail_url := None;
     CanvasData.is_public := false;
     CanvasData.shared_with := [];
     CanvasData.created_at := created;
     CanvasData.updated_at := created |}.

(** The object [{ permission: 'edit', isOwner: true }]. *)
Definition bareOwnerObject : LoadedCanvas.t :=
  {| LoadedCanvas.row := None;
     LoadedCanvas.permission := edit;
     LoadedCanvas.isOwner := true |}.


(* ================================================================== *)
(** * Further code of the component                                     *)
(* ================================================================== *)

Definition isDuplicate (c : Command) : bool :=
  match c with DuplicateSelected => true | _ => false end.

(** As long as [x] is an integer below 2^53, every id of [nds] has a
    numeric suffix below it (ids without such a suffix count as 0). *)
Definition suffixesBelow (nds : list Node.t) (x : Js.number) : Prop :=
  forall c, x = Js.Finite c -> (c < Js.two53)%N ->
  forall n, In n nds -> exists j, idSuffix n = Js.Finite j /\ (j < c)%N.

Definition suffixesBelowCounter (g : Graph) : Prop :=
  suffixesBelow (nodes g) (nodeIdCounter g).

(** ** The scaffold's view of the graph (lines 706-725) *)

(** [nodes.find(n => n.id === id)] *)
Definition findNode (nds : list Node.t) (i : string) : option Node.t :=
  find (fun n => String.eqb (Node.id n) i) nds.

Definition centerOf (node : Node.t) : XYPosition :=
  {| x := x (Node.position node) + 125; y := y (Node.position node) + 75 |}.

(** One entry per edge, [null] when an endpoint is not found; the
    [filter(Boolean)] then drops the [null]s. *)
Definition connectionOf (nds : list Node.t) (edge : Edge.t)
  : option (XYPosition * XYPosition) :=
  match findNode nds (Edge.source edge), findNode nds (Edge.target edge) with
  | Some sourceNode, Some targetNode => Some (centerOf sourceNode, centerOf targetNode)
  | _, _ => None
  end.

Fixpoint filterBoolean {A} (l : list (option A)) : list A :=
  match l with
  | [] => []
  | Some a :: l' => a :: filterBoolean l'
  | None :: l' => filterBoolean l'
  end.

Definition connections (g : Graph) : list (XYPosition * XYPosition) :=
  filterBoolean (map (connectionOf (nodes g)) (edges g)).

(** ** SelectionBox (the component drawn while a marquee is dragged) *)

Record BoxStyle := { left : Z; top : Z; width : Z; height : Z }.

Definition SelectionBox (start end_ : XYPosition) : BoxStyle :=
  {| left := Z.min (x start) (x end_);
     top := Z.min (y start) (y end_);
     width := Z.abs (x end_ - x start);
     height := Z.abs (y end_ - y start) |}.

(** ** The periodic relabeling of the save time (lines 214-229) *)

(** [s.includes(sub)] *)
Fixpoint includesText (sub s : string) : bool :=
  String.prefix sub s
  || match s with
     | EmptyString => false
     | String _ s' => includesText sub s'
     end.

(** The longest run of digits at the head of [s], and what follows it. *)
Fixpoint takeDigits (s : string) : string * string :=
  match s with
  | String c s' =>
      if Js.isDigit c
      then let (ds, rest) := takeDigits s' in (String c ds, rest)
      else (EmptyString, s)
  | EmptyString => (EmptyString, EmptyString)
  end.

(** [s.match(/(\d+)m/)?.[1]]: the capture of the leftmost match. *)
Fixpoint matchDigitsM (s : string) : option string :=
  match s with
  | EmptyString => None
  | String c s' =>
      if Js.isDigit c then
        match takeDigits s with
        | (ds, String "m" _) => Some ds
        | _ => matchDigitsM s'
        end
      else matchDigitsM s'
  end.

(** The body of the interval callback: the next label. *)
Definition updateTime (lastSavedTime : string) : string :=
  if String.eqb lastSavedTime "just now" then "1m ago"
  else if includesText "m ago" lastSavedTime then
    let minutes :=
      Js.parseInt (match matchDigitsM lastSavedTime with
                   | Some ds => Js.orElse ds "1"
                   | None => "1"
                   end) in
    if Js.ltb minutes (Js.Finite 60)
    then Js.toString (Js.add minutes (Js.Finite 1)) ++ "m ago"
    else "1h ago"
  else lastSavedTime.

(** Two positions far enough apart that node boxes placed there do not
    overlap: a grid step of 300 in one direction. *)
Definition gridApart (p q : XYPosition) : Prop :=
  (300 <= Z.abs (x p - x q) \/ 300 <= Z.abs (y p - y q))%Z.

(** What the user does to the canvas, and the viewport poll. *)
Definition isEdit (e : Event) : bool :=
  match e with
  | Edit _ | Pan _ | ViewportPoll | Rename _ => true
  | _ => false
  end.

(** The object [loadCanvas] builds for a row of the user's own. *)
Definition ownedCanvas (r : CanvasData.t) : LoadedCanvas.t :=
  {| LoadedCanvas.row := Some r;
     LoadedCanvas.permission := edit;
     LoadedCanvas.isOwner := true |}.

(** A share of [canvasId] with [userId]. *)
Definition sharedWith (canvasId userId : string) (s : SharedCanvas.t) : bool :=
  String.eqb (SharedCanvas.canvas_id s) canvasId
  && String.eqb (SharedCanvas.shared_with_user_id s) userId.

(** A store that holds three rows named "My Canvas" of the default user
    (as left by early versions without the unique constraint) and a row of
    another name. *)
Definition rowOf (i name : string) (nds : list Node.t) (updated : nat) : CanvasData.t :=
  {| CanvasData.id := i;
     CanvasData.user_id := defaultUser;
     CanvasData.canvas_name := name;
     CanvasData.nodes := nds;
     CanvasData.edges := [];
     CanvasData.viewport := homeViewport;
     CanvasData.thumbnail_url := None;
     CanvasData.is_public := false;
     CanvasData.shared_with := [];
     CanvasData.created_at := 0;
     CanvasData.updated_at := updated |}.

Definition storeOf (rows : list CanvasData.t) (shares : list SharedCanvas.t)
  (drops : list bool) : Backend :=
  {| db := {| canvases := rows; canvas_shares := shares |};
     clock := 10; nextUuid := 0; outages := drops; requests := [] |}.

Definition versionedStore : Backend :=
  storeOf [ rowOf "v1" "My Canvas" [] 3;
            rowOf "other" "Sketch" [] 9;
            rowOf "v3" "My Canvas" [textNodeAt "text-1" 0 0 false] 7;
            rowOf "v2" "My Canvas" [] 5 ] [] [].

(** A store whose first two requests are dropped and whose later ones
    are not; it holds the canvas "My Canvas" of the user, with one node. *)
Definition storeBehindOutage : Backend :=
  storeOf [rowOf "c1" "My Canvas" [textNodeAt "text-1" 0 0 false] 3] []
          [true; true; false].

(** The same canvas behind a network that works, and a canvas whose one
    node carries the id suffix 2^53. *)
Definition oneCanvasStore : Backend :=
  storeOf [rowOf "c1" "My Canvas" [textNodeAt "text-1" 0 0 false] 3] [] [].

Definition hugeSuffixStore : Backend :=
  storeOf [rowOf "c1" "My Canvas"
             [textNodeAt "text-9007199254740992" 0 0 false] 3] [] [].

(** A canvas of another user, shared with the default user for viewing. *)
Definition foreignRow : CanvasData.t :=
  {| CanvasData.id := "f1";
     CanvasData.user_id := "someone-else";
     CanvasData.canvas_name := "Theirs";
     CanvasData.nodes := [];
     CanvasData.edges := [];
     CanvasData.viewport := homeViewport;
     CanvasData.thumbnail_url := None;
     CanvasData.is_public := false;
     CanvasData.shared_with := [];
     CanvasData.created_at := 0;
     CanvasData.updated_at := 1 |}.

Definition viewShare : SharedCanvas.t :=
  {| SharedCanvas.canvas_id := "f1";
     SharedCanvas.shared_with_user_id := defaultUser;
     SharedCanvas.permission := view;
     SharedCanvas.shared_by_user_id := "someone-else" |}.

Definition sharedStore : Backend := storeOf [foreignRow] [viewShare] [].

(** A loaded session that has just had its snapshot accepted. *)
Definition savedSession : Session :=
  fst (@saveCanvasData samplePlatform (closureOf freshSession) freshSession emptyStore).

Definition savedStore : Backend :=
  snd (@saveCanvasData samplePlatform (closureOf freshSession) freshSession emptyStore).

(* ================================================================== *)
(** * Canvas management (supabaseClient.ts, lines 196-317)              *)
(* ================================================================== *)

(** The operations the dashboard calls. Each is run against the tables
    with the list [drops] saying, per request of the call in order,
    whether the network drops it (not dropped past the end of the list). *)
Definition droppedAt (drops : list bool) (k : nat) : bool := nth k drops false.

Definition Remote (A : Type) := Database -> Outcome A * Database.

Definition ownsId (canvasId : string) (r : CanvasData.t) : bool :=
  hasId canvasId r && String.eqb (CanvasData.user_id r) defaultUser.

Definition renamedRow (newName : string) (now : nat) (r : CanvasData.t)
  : CanvasData.t :=
  {| CanvasData.id := CanvasData.id r;
     CanvasData.user_id := CanvasData.user_id r;
     CanvasData.canvas_name := newName;
     CanvasData.nodes := CanvasData.nodes r;
     CanvasData.edges := CanvasData.edges r;
     CanvasData.viewport := CanvasData.viewport r;
     CanvasData.thumbnail_url := CanvasData.thumbnail_url r;
     CanvasData.is_public := CanvasData.is_public r;
     CanvasData.shared_with := CanvasData.shared_with r;
     CanvasData.created_at := CanvasData.created_at r;
     CanvasData.updated_at := now |}.

(** [renameCanvas] (lines 197-218): one update, restricted to the row of
    the user, answered with the single row it changed; the constraint
    [unique_user_canvas] refuses a name the user already has. *)
Definition renameCanvas (drops : list bool) (now : nat) (canvasId newName : string)
  : Remote CanvasData.t := fun d =>
  if droppedAt drops 0 then (Rejected "network", d)
  else
    let rows := canvases d in
    if existsb (ownsId canvasId) rows
       && existsb (fun r => negb (ownsId canvasId r)
                            && ownedAs defaultUser newName r) rows
    then (Rejected "23505", d)
    else
      let rows' := mapWhere (ownsId canvasId) (renamedRow newName now) rows in
      let d' := {| canvases := rows'; canvas_shares := canvas_shares d |} in
      match single (filter (ownsId canvasId) rows') with
      | Data r => (Resolved r, d')
      | Error e => (Rejected e, d')
      end.

Definition shareOf (canvasId : string) (s : SharedCanvas.t) : bool :=
  String.eqb (SharedCanvas.canvas_id s) canvasId.

(** [deleteCanvas] (lines 221-243): the shares of the canvas are deleted
    first, the answer to that request is not looked at; then the canvas is
    deleted if it is the user's, and an error of that request is thrown. *)
Definition deleteCanvas (drops : list bool) (canvasId : string) : Remote unit :=
  fun d =>
  let shares1 :=
    if droppedAt drops 0 then canvas_shares d
    else filter (fun s => negb (shareOf canvasId s)) (canvas_shares d) in
  if droppedAt drops 1
  then (Rejected "network", {| canvases := canvases d; canvas_shares := shares1 |})
  else
    (Resolved tt,
     {| canvases := filter (fun r => negb (ownsId canvasId r)) (canvases d);
        canvas_shares :=
          if existsb (ownsId canvasId) (canvases d)
          then filter (fun s => negb (shareOf canvasId s)) shares1 (* cascade *)
          else shares1 |}).

Definition newShare (canvasId shareWithUserId : string) (p : Permission)
  : SharedCanvas.t :=
  {| SharedCanvas.canvas_id := canvasId;
     SharedCanvas.shared_with_user_id := shareWithUserId;
     SharedCanvas.permission := p;
     SharedCanvas.shared_by_user_id := defaultUser |}.

(** [shareCanvas] (lines 246-282): the ownership check, then the upsert of
    the share on the key (canvas_id, shared_with_user_id). *)
Definition shareCanvas (drops : list bool) (canvasId shareWithUserId : string)
  (p : Permission) : Remote SharedCanvas.t := fun d =>
  match (if droppedAt drops 0 then Error "network"
         else single (filter (ownsId canvasId) (canvases d))) with
  | Error _ => (Rejected "Canvas not found or access denied", d)
  | Data _ =>
      if droppedAt drops 1 then (Rejected "network", d)
      else
        let key := sharedWith canvasId shareWithUserId in
        let shares' :=
          if existsb key (canvas_shares d)
          then mapWhere key (fun _ => newShare canvasId shareWithUserId p)
                        (canvas_shares d)
          else (canvas_shares d ++ [newShare canvasId shareWithUserId p])%list in
        let d' := {| canvases := canvases d; canvas_shares := shares' |} in
        match single (filter key shares') with
        | Data s => (Resolved s, d')
        | Error e => (Rejected e, d')
        end
  end.

(** [unshareCanvas] (lines 285-301). *)
Definition unshareCanvas (drops : list bool) (canvasId unshareFromUserId : string)
  : Remote unit := fun d =>
  if droppedAt drops 0 then (Rejected "network", d)
  else
    (Resolved tt,
     {| canvases := canvases d;
        canvas_shares :=
          filter (fun s => negb (sharedWith canvasId unshareFromUserId s
                                 && String.eqb (SharedCanvas.shared_by_user_id s)
                                               defaultUser))
                 (canvas_shares d) |}).

(** [getCanvasShares] (lines 304-317). *)
Definition getCanvasShares (drops : list bool) (canvasId : string)
  : Remote (list SharedCanvas.t) := fun d =>
  if droppedAt drops 0 then (Rejected "network", d)
  else (Resolved (filter (shareOf canvasId) (canvas_shares d)), d).

(** Tables for the runs below: the canvas of someone else with its share,
    and a canvas of the user. *)
Definition mixedTables : Database :=
  {| canvases := [foreignRow; rowOf "c1" "My Canvas" [] 3];
     canvas_shares := [viewShare] |}.

(* ================================================================== *)
(** * Properties                                                        *)
(* ================================================================== *)

(** ** Doubles that count *)

Lemma roundDouble_small (n : N) :
  (n < Js.two53)%N -> Js.roundDouble n = Js.Finite n.
Proof.
  intros H. unfold Js.roundDouble. apply N.ltb_lt in H. rewrite H. reflexivity.
Qed.

(** Rounding does not take an integer from 2^53 on below 2^53. *)
Lemma roundDouble_large (n m : N) :
  (Js.two53 <= n)%N -> Js.roundDouble n = Js.Finite m -> (Js.two53 <= m)%N.
Proof.
  intros Hn. unfold Js.roundDouble.
  assert (Hlt : (n <? Js.two53)%N = false) by (apply N.ltb_ge; exact Hn).
  rewrite Hlt. cbv zeta.
  set (e := (N.log2 n - 52)%N). set (ulp := (2 ^ e)%N). set (q := (n / ulp)%N).
  assert (H53 : (53 <= N.log2 n)%N).
  { change 53%N with (N.log2 Js.two53). apply N.log2_le_mono, Hn. }
  assert (Hn0 : (0 < n)%N) by (unfold Js.two53 in Hn; lia).
  destruct (N.log2_spec n Hn0) as [Hlo _].
  assert (Hsplit : (2 ^ N.log2 n = 4503599627370496 * ulp)%N).
  { replace (N.log2 n) with (52 + e)%N by (unfold e; lia).
    rewrite N.pow_add_r. reflexivity. }
  assert (Hulp : (2 <= ulp)%N).
  { unfold ulp. replace e with (1 + (e - 1))%N by (unfold e; lia).
    rewrite N.pow_add_r. change (2 ^ 1)%N with 2%N.
    assert (0 < 2 ^ (e - 1))%N by (apply N.neq_0_lt_0, N.pow_nonzero; discriminate).
    lia. }
  assert (Hq : (4503599627370496 <= q)%N).
  { unfold q. apply N.div_le_lower_bound; [lia|]. rewrite N.mul_comm. lia. }
  match goal with |- context [(_ <=? ?t * ulp)%N] => set (q' := t) end.
  assert (Hq' : (q <= q')%N).
  { unfold q'. repeat match goal with |- context [if ?b then _ else _] => destruct b end; lia. }
  destruct (2 ^ 1024 <=? q' * ulp)%N; [discriminate|].
  intros [= <-]. unfold Js.two53. nia.
Qed.

(** A result below 2^53 is the integer itself. *)
Lemma roundDouble_exact (n m : N) :
  Js.roundDouble n = Js.Finite m -> (m < Js.two53)%N -> n = m.
Proof.
  intros H Hm. destruct (N.lt_ge_cases n Js.two53) as [Hn|Hn].
  - rewrite roundDouble_small in H by exact Hn. congruence.
  - pose proof (roundDouble_large n m Hn H). lia.
Qed.

Lemma add_safe (a b : N) :
  (a + b <= Js.two53)%N -> Js.add (Js.Finite a) (Js.Finite b) = Js.Finite (a + b).
Proof.
  intros H. unfold Js.add.
  destruct (N.eq_dec (a + b) Js.two53) as [E|E].
  - rewrite E. reflexivity.
  - apply roundDouble_small. lia.
Qed.

Lemma add_exact (x y : Js.number) (m : N) :
  Js.add x y = Js.Finite m -> (m < Js.two53)%N ->
  exists a b, x = Js.Finite a /\ y = Js.Finite b /\ (a + b = m)%N.
Proof.
  destruct x as [a|], y as [b|]; simpl; try discriminate.
  intros H Hm. exists a, b. repeat split. apply roundDouble_exact; assumption.
Qed.

Lemma safeInteger_spec (x : Js.number) :
  safeInteger x = true <-> exists c, x = Js.Finite c /\ (c < Js.two53)%N.
Proof.
  unfold safeInteger. destruct x as [c|]; simpl.
  - rewrite N.ltb_lt. split; [eauto|]. intros (c' & [= <-] & H). exact H.
  - split; [discriminate|]. intros (c & H & _). discriminate.
Qed.

Lemma mathMax0_finite (l : list Js.number) (m : N) :
  Js.mathMax0 l = Js.Finite m ->
  (forall x, In x l -> exists j, x = Js.Finite j /\ (j <= m)%N)
  /\ (m = 0%N \/ In (Js.Finite m) l).
Proof.
  revert m. induction l as [|a l IH]; simpl; intros m H.
  - injection H as <-. split; [tauto|auto].
  - destruct a as [a|]; [|discriminate].
    destruct (Js.mathMax0 l) as [k|] eqn:E; [|discriminate].
    injection H as <-. destruct (IH k eq_refl) as [Hall Hat]. split.
    + intros x [<-|Hx]; [exists a; split; [reflexivity|lia]|].
      destruct (Hall x Hx) as (j & -> & Hj). exists j. split; [reflexivity|lia].
    + destruct (N.max_spec a k) as [[_ ->]|[_ ->]]; [|auto].
      destruct Hat as [->|Hat]; auto.
Qed.

(** ** Decimal text and the id-suffix pattern *)

Lemma isDigit_chars (d : Decimal.uint) :
  Js.allDigits (NilEmpty.string_of_uint d) = true.
Proof. induction d; simpl; auto. Qed.

Lemma digits_allDigits (n : N) : Js.allDigits (Js.digits n) = true.
Proof. apply isDigit_chars. Qed.

Lemma digits_nonempty (n : N) : Js.isEmpty (Js.digits n) = false.
Proof.
  unfold Js.digits.
  rewrite <- (DecimalN.Unsigned.of_to n) at 1. rewrite DecimalN.Unsigned.to_of.
  unfold Decimal.unorm.
  destruct (Decimal.nzhead (N.to_uint n)); reflexivity.
Qed.

Lemma parseDigits_of_lu (d : Decimal.uint) (acc : N) :
  Js.parseDigits acc (NilEmpty.string_of_uint d)
  = (DecimalPos.Unsigned.of_lu (Decimal.rev d)
     + acc * 10 ^ DecimalPos.Unsigned.usize d)%N.
Proof.
  revert acc.
  induction d; intro acc; cbn [NilEmpty.string_of_uint Js.parseDigits];
    [simpl; lia|..];
    rewrite IHd; unfold Decimal.rev at 2; cbn [Decimal.revapp];
    match goal with |- context [Decimal.revapp d ?t] =>
      rewrite (DecimalPos.Unsigned.of_lu_revapp d t) end;
    cbn [DecimalPos.Unsigned.usize]; rewrite N.pow_succ_r';
    unfold Js.digitValue; simpl DecimalPos.Unsigned.of_lu;
    simpl N.of_nat; ring.
Qed.

Lemma parseDigits_digits (n : N) : Js.parseDigits 0 (Js.digits n) = n.
Proof.
  unfold Js.digits. rewrite parseDigits_of_lu, <- DecimalPos.Unsigned.of_uint_alt.
  rewrite N.mul_0_l, N.add_0_r. apply DecimalN.Unsigned.of_to.
Qed.

(** The search for the shortest decimal returns the integer itself or an
    integer that rounds to it. *)
Lemma shortestFrom_roundTrips (n : N) (ps : list N) :
  Js.shortestFrom n ps = n \/ Js.roundTrips (Js.shortestFrom n ps) n = true.
Proof.
  induction ps as [|p ps IH]; simpl; [auto|].
  destruct (Js.roundTrips (n / p * p) n) eqn:Elo,
           (Js.roundTrips (n / p * p + p) n) eqn:Ehi; auto.
  unfold Js.nearer.
  repeat match goal with |- context [if ?b then _ else _] => destruct b end; auto.
Qed.

(** Below 2^53 every integer is a double of its own, and its shortest
    decimal is the integer. *)
Lemma shortestDecimal_safe (n : N) :
  (n < Js.two53)%N -> Js.shortestDecimal n = n.
Proof.
  intros Hn. unfold Js.shortestDecimal.
  destruct (shortestFrom_roundTrips n
              (Js.powersOfTen (String.length (Js.digits n) - 1))) as [E|E]; [exact E|].
  unfold Js.roundTrips in E.
  destruct (Js.roundDouble (Js.shortestFrom n _)) as [m|] eqn:Er; [|discriminate].
  apply N.eqb_eq in E. subst m. apply roundDouble_exact; assumption.
Qed.

Lemma toString_safe (n : N) :
  (n < Js.two53)%N -> Js.toString (Js.Finite n) = Js.digits n.
Proof.
  intros Hn. unfold Js.toString. rewrite shortestDecimal_safe by exact Hn.
  assert (H : (n <? 10 ^ 21)%N = true).
  { apply N.ltb_lt. eapply N.lt_trans; [exact Hn|]. reflexivity. }
  rewrite H. reflexivity.
Qed.

Lemma parseInt_toString (n : N) :
  (n < Js.two53)%N -> Js.parseInt (Js.toString (Js.Finite n)) = Js.Finite n.
Proof.
  intros Hn. rewrite toString_safe by exact Hn. unfold Js.parseInt.
  rewrite parseDigits_digits. apply roundDouble_small, Hn.
Qed.

Lemma allDigits_app_dash (p d : string) :
  Js.allDigits (p ++ String "-" d) = false.
Proof.
  induction p as [|c p IH]; simpl.
  - reflexivity.
  - rewrite IH. apply andb_false_r.
Qed.

Lemma matchDashDigitsEnd_app (p d : string) :
  Js.isEmpty d = false -> Js.allDigits d = true ->
  Js.matchDashDigitsEnd (p ++ "-" ++ d) = Some d.
Proof.
  intros Hne Hd. change ("-" ++ d) with (String "-" d).
  induction p as [|c p IH]; simpl.
  - rewrite Hne, Hd. reflexivity.
  - rewrite allDigits_app_dash, andb_false_r. exact IH.
Qed.

Lemma matchDashDigitsEnd_sound (s d : string) :
  Js.matchDashDigitsEnd s = Some d ->
  exists p, s = p ++ "-" ++ d /\ Js.isEmpty d = false /\ Js.allDigits d = true.
Proof.
  induction s as [|c s IH]; simpl; [discriminate|].
  destruct (Ascii.eqb c "-" && negb (Js.isEmpty s) && Js.allDigits s) eqn:E.
  - intros [= <-]. apply andb_prop in E as [E Hd]. apply andb_prop in E as [Hc Hne].
    apply Ascii.eqb_eq in Hc. subst c. exists "". simpl.
    rewrite negb_true_iff in Hne. auto.
  - intros H. destruct (IH H) as [p [-> Hp]]. exists (String c p). auto.
Qed.

(** The suffix the code reads is the double nearest to the numeric suffix. *)
Lemma idSuffix_of_numericSuffix (n : Node.t) (k : N) :
  numericSuffix (Node.id n) k -> idSuffix n = Js.roundDouble k.
Proof.
  intros (p & d & Hid & Hne & Hd & Hk). unfold idSuffix.
  rewrite Hid, (matchDashDigitsEnd_app p d Hne Hd). unfold Js.parseInt.
  rewrite Hk. reflexivity.
Qed.

Lemma idSuffix_cases (n : Node.t) :
  idSuffix n = Js.Finite 0
  \/ exists k, numericSuffix (Node.id n) k /\ idSuffix n = Js.roundDouble k.
Proof.
  unfold idSuffix. destruct (Js.matchDashDigitsEnd (Node.id n)) as [d|] eqn:E.
  - right. destruct (matchDashDigitsEnd_sound _ _ E) as (p & Hid & Hne & Hd).
    exists (Js.parseDigits 0 d). split; [|reflexivity]. exists p, d. auto.
  - left. reflexivity.
Qed.

Lemma idSuffix_by_id (n m : Node.t) : Node.id n = Node.id m -> idSuffix n = idSuffix m.
Proof. unfold idSuffix. intros ->. reflexivity. Qed.

(** The id built from a number below 2^53 has that number as its suffix. *)
Lemma idSuffix_counter_id (n : Node.t) (prefix : string) (k : N) :
  (k < Js.two53)%N ->
  Node.id n = prefix ++ "-" ++ Js.toString (Js.Finite k) ->
  idSuffix n = Js.Finite k.
Proof.
  intros Hk Hid. rewrite (idSuffix_of_numericSuffix n k).
  - apply roundDouble_small, Hk.
  - exists prefix, (Js.digits k). rewrite Hid, toString_safe by exact Hk.
    auto using digits_nonempty, digits_allDigits, parseDigits_digits.
Qed.

(** A seed below 2^53 is one more than the largest suffix, and every
    suffix lies below it. *)
Lemma seed_exact (loaded : list Node.t) (c : N) :
  seedNodeIdCounter loaded = Js.Finite c -> (c < Js.two53)%N ->
  (forall n, In n loaded -> exists j, idSuffix n = Js.Finite j /\ (j < c)%N)
  /\ (1 <= c)%N
  /\ (c = 1%N \/ exists n, In n loaded /\ idSuffix n = Js.Finite (c - 1)).
Proof.
  unfold seedNodeIdCounter, maxId. intros H Hc.
  apply add_exact in H as (m & one & Hm & [= <-] & Hsum); [|exact Hc].
  destruct (mathMax0_finite _ _ Hm) as [Hall Hat]. split; [|split; [lia|]].
  - intros n Hn. destruct (Hall (idSuffix n) (in_map _ _ _ Hn)) as (j & Hj & Hle).
    exists j. split; [exact Hj|lia].
  - destruct Hat as [->|Hat]; [left; lia|right].
    apply in_map_iff in Hat as (n & Hn & Hin). exists n. split; [exact Hin|].
    rewrite Hn. f_equal. lia.
Qed.

(** ** Ids taken from the counter *)

Lemma existsb_filter_nil {A} (p : A -> bool) (l : list A) :
  existsb p l = false <-> filter p l = [].
Proof.
  induction l as [|a l IH]; simpl; [tauto|].
  destruct (p a); simpl; [split; discriminate|exact IH].
Qed.

Section CounterFacts.
Context {RF : ReactFlowInstance}.

(** A command that writes no number into an id leaves the counter. *)
Lemma exec_counter_kept (c : Command) (g : Graph) :
  idNumber c g = None -> nodeIdCounter (exec c g) = nodeIdCounter g.
Proof.
  destruct c; simpl; try discriminate; try reflexivity.
  - unfold deleteSelected. destruct (_ <? _)%nat; reflexivity.
  - destruct (existsb Node.selected (nodes g)) eqn:E; [discriminate|]. intros _.
    apply existsb_filter_nil in E. unfold duplicateSelectedNodes. rewrite E. reflexivity.
  - unfold organizeNodes. destruct (_ =? _)%nat; reflexivity.
Qed.

(** A command that writes a number below 2^53 into its ids counts
    exactly: the counter was at most that number and moves up, to at most
    one more. *)
Lemma exec_counter_safe (c : Command) (g : Graph) (x : Js.number) :
  idNumber c g = Some x -> safeInteger x = true ->
  exists c0 k c1,
    nodeIdCounter g = Js.Finite c0 /\ x = Js.Finite k
    /\ nodeIdCounter (exec c g) = Js.Finite c1
    /\ (c0 <= k < Js.two53)%N /\ (c0 <= c1 <= k + 1)%N.
Proof.
  intros Hx Hsafe. apply safeInteger_spec in Hsafe as (k & -> & Hk).
  destruct c; simpl in Hx; try discriminate.
  - injection Hx as Hx. exists k, k, (k + 1)%N. simpl. rewrite Hx.
    rewrite add_safe by lia. repeat split; lia.
  - injection Hx as Hx. exists k, k, (k + 1)%N. simpl. rewrite Hx.
    rewrite add_safe by lia. repeat split; lia.
  - destruct (existsb Node.selected (nodes g)) eqn:E; [|discriminate].
    injection Hx as Hx. apply add_exact in Hx as (c0 & len & Hc & Hlen & Hsum); [|exact Hk].
    injection Hlen as Hlen.
    assert (Hsel : filter Node.selected (nodes g) <> []).
    { intros H. apply existsb_filter_nil in H. congruence. }
    pose proof (filter_length_le Node.selected (nodes g)) as Hle.
    destruct (filter Node.selected (nodes g)) as [|n sel] eqn:Ef; [congruence|].
    exists c0, k, (c0 + N.of_nat (List.length (n :: sel)))%N.
    cbn [exec]. unfold duplicateSelectedNodes. rewrite Ef.
    cbn [List.length Nat.eqb nodeIdCounter setNodeIdCounter setNodes].
    rewrite Hc. unfold Js.length. rewrite length_map.
    cbn [List.length] in *. rewrite add_safe by lia. repeat split; lia.
Qed.

Lemma assignedId_form (c : Command) (g : Graph) (i : string) :
  In i (assignedId c g) ->
  exists prefix x, idNumber c g = Some x /\ i = prefix ++ "-" ++ Js.toString x.
Proof.
  destruct c; simpl; try tauto.
  - intros [<-|[]]. eauto.
  - intros [<-|[]]. exists "aiModel". eauto.
  - intros H. apply in_map_iff in H as (n & <- & Hn).
    assert (E : existsb Node.selected (nodes g) = true).
    { apply existsb_exists. apply filter_In in Hn. eauto. }
    rewrite E. unfold duplicateId. eauto.
Qed.

(** Ids taken while the numbers stay below 2^53 differ from the ids
    whose suffixes lie below the counter. *)
Lemma assignedIds_fresh (loaded : list Node.t) (cs : list Command) (g : Graph) :
  suffixesBelow loaded (nodeIdCounter g) ->
  safeRun cs g = true ->
  forall i, In i (assignedIds cs g) -> ~ In i (nodeIds loaded).
Proof.
  revert g. induction cs as [|c cs IH]; simpl; intros g Hg Hsafe i Hi; [tauto|].
  apply andb_prop in Hsafe as [Hc Hcs].
  apply in_app_or in Hi as [Hi|Hi].
  - apply assignedId_form in Hi as (prefix & x & Hx & ->). rewrite Hx in Hc.
    destruct (exec_counter_safe c g x Hx Hc) as (c0 & k & c1 & Hc0 & -> & _ & Hk & _).
    intros Hin. unfold nodeIds in Hin. apply in_map_iff in Hin as (n & Hid & Hn).
    destruct (Hg c0 Hc0 ltac:(lia) n Hn) as (j & Hj & Hlt).
    rewrite (idSuffix_counter_id n prefix k) in Hj by (try exact Hid; lia).
    injection Hj as <-. lia.
  - apply (IH (exec c g)); [|exact Hcs|exact Hi].
    destruct (idNumber c g) as [x|] eqn:Hx.
    + destruct (exec_counter_safe c g x Hx Hc) as (c0 & k & c1 & Hc0 & _ & Hc1 & Hk & Hle).
      rewrite Hc1. intros c' [= <-] Hlt n Hn.
      destruct (Hg c0 Hc0 ltac:(lia) n Hn) as (j & Hj & Hjlt). exists j. split; [exact Hj|lia].
    + rewrite (exec_counter_kept c g Hx). exact Hg.
Qed.

(** The node a create command appends carries the id it took from the
    counter, and the counter moves on by one. *)
Lemma handleCreateNode_appends (flow : Viewport) (nodeType : string)
  (position : XYPosition) (g : Graph) :
  exists n,
    nodes (handleCreateNode flow nodeType position g) = (nodes g ++ [n])%list
    /\ [Node.id n] = assignedId (CreateNode flow nodeType position) g
    /\ nodeIdCounter (handleCreateNode flow nodeType position g)
       = Js.add (nodeIdCounter g) (Js.Finite 1).
Proof. eexists; simpl; repeat split. Qed.

End CounterFacts.

Lemma suffixesBelow_seed (loaded : list Node.t) :
  suffixesBelow loaded (seedNodeIdCounter loaded).
Proof. intros c Hc Hlt. exact (proj1 (seed_exact loaded c Hc Hlt)). Qed.

Section Seeding.
Context {RF : ReactFlowInstance}.

(** What a call of [loadCanvasData] that got a canvas leaves in the graph
    store: the loaded nodes and edges, and the seeded counter. *)
Lemma loadCanvasData_graph (call : LoadCall) (canvasId : option string)
  (s : Session) (w : Backend) (cd : LoadedCanvas.t) :
  fst (canvasOperations.loadCanvas (keepTruthy canvasId) "My Canvas" w)
    = Resolved (Some cd) ->
  let loaded := match LoadedCanvas.row cd with
                | Some r => CanvasData.nodes r | None => [] end in
  graph (fst (loadCanvasData call canvasId s w))
  = {| nodes := loaded;
       edges := match LoadedCanvas.row cd with
                | Some r => CanvasData.edges r | None => [] end;
       nodeIdCounter := seedNodeIdCounter loaded |}.
Proof.
  intros H loaded. unfold loadCanvasData.
  destruct (canvasOperations.loadCanvas _ _ w) as [o w1]. simpl in H. subst o.
  destruct (Js.truthy canvasId), (LoadedCanvas.row cd) as [r|], call; reflexivity.
Qed.

(** C7, amended. A call of [loadCanvasData] that gets a canvas puts the
    loaded nodes into the graph store and seeds the counter with
    [maxId + 1], computed in doubles. When the seed is below 2^53 it
    exceeds every trailing numeric suffix of a loaded id and is 1 or one
    more than a suffix that occurs. Whatever commands follow, as long as
    the numbers written into ids stay below 2^53, no id taken from the
    counter (by node creation or by duplication) equals the id of a loaded
    node, deletions included. *)
Theorem seeded_counter_never_reuses_loaded_id (call : LoadCall)
  (canvasId : option string) (s : Session) (w : Backend) (cd : LoadedCanvas.t) :
  fst (canvasOperations.loadCanvas (keepTruthy canvasId) "My Canvas" w)
    = Resolved (Some cd) ->
  let loaded := match LoadedCanvas.row cd with
                | Some r => CanvasData.nodes r | None => [] end in
  let g := graph (fst (loadCanvasData call canvasId s w)) in
  nodes g = loaded
  /\ nodeIdCounter g = Js.add (Js.mathMax0 (map idSuffix loaded)) (Js.Finite 1)
  /\ (forall c, nodeIdCounter g = Js.Finite c -> (c < Js.two53)%N ->
        (forall n k, In n loaded -> numericSuffix (Node.id n) k -> (k < c)%N)
        /\ (c = 1%N
            \/ exists n, In n loaded /\ numericSuffix (Node.id n) (c - 1)))
  /\ (forall cs i, safeRun cs g = true -> In i (assignedIds cs g) ->
                   ~ In i (nodeIds loaded)).
Proof.
  intros H loaded g. subst g.
  rewrite (loadCanvasData_graph call canvasId s w cd H). fold loaded.
  cbn [nodes nodeIdCounter].
  split; [reflexivity|]. split; [reflexivity|]. split.
  - intros c Hc Hlt. destruct (seed_exact loaded c Hc Hlt) as (Hall & Hpos & Hat). split.
    + intros n k Hn Hk. destruct (Hall n Hn) as (j & Hj & Hjlt).
      rewrite (idSuffix_of_numericSuffix n k Hk) in Hj.
      rewrite (roundDouble_exact k j Hj) by lia. exact Hjlt.
    + destruct Hat as [->|(n & Hn & Hs)]; [auto|].
      destruct (idSuffix_cases n) as [H0|(k & Hk & Hr)].
      * left. rewrite H0 in Hs. injection Hs as Hs. lia.
      * right. exists n. split; [exact Hn|].
        rewrite Hr in Hs. rewrite <- (roundDouble_exact k (c - 1) Hs) by lia. exact Hk.
  - intros cs i Hsafe.
    eapply assignedIds_fresh; [|exact Hsafe]. apply suffixesBelow_seed.
Qed.

End Seeding.

(** The canvas "My Canvas" with the node text-1 is loaded and a text node
    is created: it is text-2. *)
Lemma seeded_counter_never_reuses_loaded_id_witness :
  let g := graph (fst (loadCanvasData SecondLoad None mounted oneCanvasStore)) in
  nodeIds (nodes g) = ["text-1"]
  /\ nodeIdCounter g = Js.Finite 2
  /\ ~ In "text-2" (nodeIds (nodes g)).
Proof.
  intros g.
  pose proof (@seeded_counter_never_reuses_loaded_id unitZoomFlow
                SecondLoad None mounted oneCanvasStore
                (ownedCanvas (rowOf "c1" "My Canvas" [textNodeAt "text-1" 0 0 false] 3))
                eq_refl) as H.
  cbv zeta in H. destruct H as (Hn & Hc & _ & Hfresh).
  split; [reflexivity|]. split; [reflexivity|].
  exact (Hfresh [CreateNode homeViewport "text" (at_ 0 0)] "text-2" eq_refl
                (or_introl eq_refl)).
Defined.

(** C7, the claim refuted. The loaded canvas holds the node
    text-9007199254740992, whose suffix is 2^53. The seed [maxId + 1] is
    2^53 again, since 2^53 + 1 is no double, and the node created next
    receives the id of the loaded node. *)
Lemma seed_past_2_53_reuses_the_loaded_id :
  let g := graph (fst (loadCanvasData SecondLoad None mounted hugeSuffixStore)) in
  let create := CreateNode homeViewport "text" (at_ 0 0) in
  nodeIds (nodes g) = ["text-9007199254740992"]
  /\ maxId (nodes g) = Js.Finite 9007199254740992
  /\ nodeIdCounter g = Js.Finite 9007199254740992
  /\ assignedId create g = ["text-9007199254740992"]
  /\ nodeIds (nodes (@exec unitZoomFlow create g))
     = ["text-9007199254740992"; "text-9007199254740992"].
Proof. vm_compute. repeat split. Qed.
(* ------------------------------------------------------------------ *)
(** ** Deleting the selection                                           *)
(* ------------------------------------------------------------------ *)

Lemma includes_In (l : list string) (s : string) :
  Js.includes l s = true <-> In s l.
Proof.
  unfold Js.includes. rewrite existsb_exists. split.
  - intros (u & Hu & E). apply String.eqb_eq in E. now subst.
  - intros H. exists s. split; [exact H|apply String.eqb_refl].
Qed.

Lemma includes_false (l : list string) (s : string) :
  Js.includes l s = false <-> ~ In s l.
Proof. rewrite <- includes_In. destruct (Js.includes l s); intuition congruence. Qed.

Lemma filter_all {A} (f : A -> bool) (l : list A) :
  (forall a, In a l -> f a = true) -> filter f l = l.
Proof.
  induction l as [|a l IH]; simpl; intros H; [reflexivity|].
  rewrite (H a (or_introl eq_refl)), IH; auto.
Qed.

(** The guard on a non-empty selection changes nothing: with no selected
    node both filters keep everything. *)
Lemma deleteSelected_unfold (g : Graph) :
  let ids := selectedNodeIds (nodes g) in
  nodes (deleteSelected g)
    = filter (fun node => negb (Js.includes ids (Node.id node))) (nodes g)
  /\ edges (deleteSelected g)
    = filter (fun edge => negb (Js.includes ids (Edge.source edge))
                          && negb (Js.includes ids (Edge.target edge))) (edges g)
  /\ nodeIdCounter (deleteSelected g) = nodeIdCounter g.
Proof.
  unfold deleteSelected. destruct (selectedNodeIds (nodes g)) as [|i ids] eqn:E.
  - simpl. repeat split; symmetry; apply filter_all; reflexivity.
  - simpl. repeat split.
Qed.

Lemma selectedNodeIds_In (nds : list Node.t) (i : string) :
  In i (selectedNodeIds nds)
  <-> exists n, In n nds /\ Node.selected n = true /\ Node.id n = i.
Proof.
  unfold selectedNodeIds. rewrite in_map_iff. split.
  - intros (n & Hid & Hn). apply filter_In in Hn. exists n. tauto.
  - intros (n & Hn & Hs & Hid). exists n. rewrite filter_In. tauto.
Qed.

Lemma deleteSelected_nodes (g : Graph) (n : Node.t) :
  In n (nodes (deleteSelected g))
  <-> In n (nodes g) /\ ~ In (Node.id n) (selectedNodeIds (nodes g)).
Proof.
  destruct (deleteSelected_unfold g) as (-> & _ & _).
  rewrite filter_In, negb_true_iff, includes_false. tauto.
Qed.

Lemma deletedNode_iff (g : Graph) (n : Node.t) :
  deletedNode g (deleteSelected g) n
  <-> In n (nodes g) /\ In (Node.id n) (selectedNodeIds (nodes g)).
Proof.
  unfold deletedNode. rewrite deleteSelected_nodes.
  destruct (in_dec string_dec (Node.id n) (selectedNodeIds (nodes g))); tauto.
Qed.

Lemma deleteSelected_edges (g : Graph) (e : Edge.t) :
  In e (edges (deleteSelected g))
  <-> In e (edges g)
      /\ ~ In (Edge.source e) (selectedNodeIds (nodes g))
      /\ ~ In (Edge.target e) (selectedNodeIds (nodes g)).
Proof.
  destruct (deleteSelected_unfold g) as (_ & -> & _).
  rewrite filter_In, andb_true_iff, !negb_true_iff, !includes_false. tauto.
Qed.

Lemma endpoint_deleted_iff (g : Graph) (i : string) :
  In i (selectedNodeIds (nodes g))
  <-> exists n, deletedNode g (deleteSelected g) n /\ Node.id n = i.
Proof.
  split.
  - intros H. pose proof H as H'.
    apply selectedNodeIds_In in H as (n & Hn & _ & Hid).
    exists n. split; [|exact Hid]. apply deletedNode_iff. rewrite Hid. auto.
  - intros (n & Hd & <-). apply deletedNode_iff in Hd. tauto.
Qed.

Lemma danglingFree_spec (g : Graph) :
  danglingFree g = true
  <-> forall e, In e (edges g) ->
        In (Edge.source e) (nodeIds (nodes g))
        /\ In (Edge.target e) (nodeIds (nodes g)).
Proof.
  unfold danglingFree, attached. rewrite forallb_forall.
  split; intros H e He; specialize (H e He).
  - apply andb_prop in H. rewrite !includes_In in H. exact H.
  - apply andb_true_intro. rewrite !includes_In. exact H.
Qed.

(** Commands that leave the edges alone and lose no node id keep the
    graph free of dangling edges. *)
Lemma danglingFree_grow (g g' : Graph) :
  edges g' = edges g -> incl (nodeIds (nodes g)) (nodeIds (nodes g')) ->
  danglingFree g = true -> danglingFree g' = true.
Proof.
  rewrite !danglingFree_spec. intros He Hi H e Hin. rewrite He in Hin.
  destruct (H e Hin). split; apply Hi; assumption.
Qed.

Lemma danglingFree_deleteSelected (g : Graph) :
  danglingFree g = true -> danglingFree (deleteSelected g) = true.
Proof.
  rewrite !danglingFree_spec. intros H e He.
  apply deleteSelected_edges in He as (He & Hs & Ht).
  destruct (H e He) as [Hs' Ht']. unfold nodeIds in *.
  apply in_map_iff in Hs' as (n & Hn & Hin).
  apply in_map_iff in Ht' as (m & Hm & Him).
  split; apply in_map_iff; [exists n|exists m]; split; auto;
    apply deleteSelected_nodes; split; auto; congruence.
Qed.

Lemma nodeIds_map_same (f : Node.t -> Node.t) (nds : list Node.t) :
  (forall n, Node.id (f n) = Node.id n) -> nodeIds (map f nds) = nodeIds nds.
Proof.
  intros H. unfold nodeIds. rewrite map_map. apply map_ext. exact H.
Qed.

Lemma nodeIds_mapIndexed_same (f : Node.t -> nat -> Node.t) (i : nat)
  (nds : list Node.t) :
  (forall n k, Node.id (f n k) = Node.id n) ->
  nodeIds (mapIndexed f i nds) = nodeIds nds.
Proof.
  intros H. revert i. induction nds as [|n nds IH]; intro i; simpl; [reflexivity|].
  unfold nodeIds in *. rewrite H, IH. reflexivity.
Qed.

Section DeleteFacts.
Context {RF : ReactFlowInstance}.

Lemma danglingFree_exec (c : Command) (g : Graph) :
  isConnect c = false -> danglingFree g = true -> danglingFree (exec c g) = true.
Proof.
  destruct c; simpl; try discriminate; intros _.
  - apply danglingFree_grow; [reflexivity|].
    simpl. unfold nodeIds. rewrite map_app. apply incl_appl, incl_refl.
  - apply danglingFree_grow; [reflexivity|].
    simpl. unfold nodeIds. rewrite map_app. apply incl_appl, incl_refl.
  - apply danglingFree_grow; [reflexivity|].
    simpl. rewrite nodeIds_map_same by reflexivity. apply incl_refl.
  - apply danglingFree_grow; [reflexivity|].
    simpl. rewrite nodeIds_map_same by reflexivity. apply incl_refl.
  - apply danglingFree_deleteSelected.
  - unfold duplicateSelectedNodes. destruct (_ =? 0)%nat; [auto|].
    apply danglingFree_grow; [reflexivity|].
    simpl. unfold nodeIds. rewrite map_app.
    fold (nodeIds (map (setSelected false) (nodes g))).
    rewrite nodeIds_map_same by reflexivity. apply incl_appl, incl_refl.
  - unfold organizeNodes. destruct (_ =? 0)%nat; [auto|].
    apply danglingFree_grow; [reflexivity|].
    simpl. rewrite nodeIds_mapIndexed_same by reflexivity. apply incl_refl.
Qed.

Lemma danglingFree_onConnect (isDarkMode : bool) (connection : Connection.t)
  (g : Graph) :
  aimed (nodes g) connection = true ->
  danglingFree g = true -> danglingFree (onConnect isDarkMode connection g) = true.
Proof.
  unfold aimed, onConnect, danglingFree, addEdge. simpl. intros Ha Hg.
  destruct (Connection.source connection) as [s|];
    destruct (Connection.target connection) as [t|]; simpl;
    rewrite ?orb_true_r; try exact Hg.
  destruct (negb (negb (Js.isEmpty s)) || negb (negb (Js.isEmpty t))); [exact Hg|].
  destruct (connectionExists _ _); [exact Hg|].
  rewrite forallb_app, Hg. simpl. unfold attached. simpl.
  rewrite Ha. reflexivity.
Qed.

Lemma danglingFree_run (cs : list Command) (g : Graph) :
  wellAimed cs g = true ->
  danglingFree g = true -> danglingFree (run cs g) = true.
Proof.
  revert g. induction cs as [|c cs IH]; simpl; intros g Hc Hg; [exact Hg|].
  apply andb_prop in Hc as [Hc Hcs].
  apply IH; [exact Hcs|].
  destruct (isConnect c) eqn:E.
  - destruct c; try discriminate. simpl. apply danglingFree_onConnect; assumption.
  - apply danglingFree_exec; assumption.
Qed.

Lemma wellAimed_without_connect (cs : list Command) (g : Graph) :
  forallb (fun c => negb (isConnect c)) cs = true -> wellAimed cs g = true.
Proof.
  revert g. induction cs as [|c cs IH]; simpl; intros g H; [reflexivity|].
  apply andb_prop in H as [Hc Hcs]. rewrite IH by exact Hcs.
  destruct c; try reflexivity; discriminate.
Qed.

End DeleteFacts.

Lemma id_determines_node (nds : list Node.t) (n m : Node.t) :
  NoDup (nodeIds nds) -> In n nds -> In m nds -> Node.id n = Node.id m -> n = m.
Proof.
  unfold nodeIds. induction nds as [|a nds IH]; simpl; [tauto|].
  intros Hnd Hn Hm E. inversion Hnd as [|? ? Hnotin Hnd']; subst.
  destruct Hn as [->|Hn], Hm as [->|Hm]; auto.
  - exfalso. apply Hnotin. rewrite E. apply in_map, Hm.
  - exfalso. apply Hnotin. rewrite <- E. apply in_map, Hn.
Qed.

Lemma selectedId_spec (nds : list Node.t) (i : string) :
  selectedId nds i = Js.includes (selectedNodeIds nds) i.
Proof.
  unfold selectedId, Js.includes, selectedNodeIds.
  induction nds as [|a nds IH]; simpl; [reflexivity|].
  destruct (Node.selected a); simpl; rewrite IH; [|reflexivity].
  rewrite (String.eqb_sym i). reflexivity.
Qed.

Lemma selectedId_true (nds : list Node.t) (i : string) :
  selectedId nds i = true
  <-> exists m, In m nds /\ Node.selected m = true /\ Node.id m = i.
Proof.
  unfold selectedId. rewrite existsb_exists. split.
  - intros (m & Hm & H). apply andb_prop in H as [Hs E].
    apply String.eqb_eq in E. eauto.
  - intros (m & Hm & Hs & <-). exists m. rewrite Hs, String.eqb_refl. auto.
Qed.

(** C1. Delete-selected keeps, in their order, exactly the nodes whose id
    is not the id of a selected node and exactly the edges neither end of
    which is such an id; the counter stays. So every selected node is
    removed, on a canvas with distinct ids every unselected node stays,
    and an edge is removed exactly when its source or its target is the
    id of a node that was deleted. Hence a graph without dangling edges
    stays so under any sequence of node additions, selections,
    duplications, re-arrangements and delete-selected commands, also when
    connections between nodes then on the canvas are mixed in; in
    particular every graph built that way from the empty canvas has both
    endpoints of every edge among its nodes. *)
Theorem delete_selected_leaves_no_dangling_edge {RF : ReactFlowInstance} :
  (forall g : Graph,
      nodes (deleteSelected g)
        = filter (fun n => negb (selectedId (nodes g) (Node.id n))) (nodes g)
      /\ edges (deleteSelected g)
        = filter (fun e => negb (selectedId (nodes g) (Edge.source e))
                           && negb (selectedId (nodes g) (Edge.target e))) (edges g)
      /\ nodeIdCounter (deleteSelected g) = nodeIdCounter g
      /\ (forall n, In n (nodes g) -> Node.selected n = true ->
                    deletedNode g (deleteSelected g) n)
      /\ (NoDup (nodeIds (nodes g)) ->
          nodes (deleteSelected g) = filter (fun n => negb (Node.selected n)) (nodes g))
      /\ (forall e, In e (edges g) ->
            (~ In e (edges (deleteSelected g))
             <-> exists n, deletedNode g (deleteSelected g) n /\ incident e n)))
  /\ (forall (cs : list Command) (g : Graph),
        forallb (fun c => negb (isConnect c)) cs = true ->
        danglingFree g = true -> danglingFree (run cs g) = true)
  /\ (forall (cs : list Command) (g : Graph),
        wellAimed cs g = true ->
        danglingFree g = true -> danglingFree (run cs g) = true)
  /\ (forall cs : list Command,
        wellAimed cs emptyGraph = true ->
        forall e, In e (edges (run cs emptyGraph)) ->
          In (Edge.source e) (nodeIds (nodes (run cs emptyGraph)))
          /\ In (Edge.target e) (nodeIds (nodes (run cs emptyGraph)))).
Proof.
  split; [|split; [|split]].
  - intros g. destruct (deleteSelected_unfold g) as (Hn & He & Hc).
    split; [|split; [|split; [exact Hc|split; [|split]]]].
    + rewrite Hn. apply filter_ext. intros n. rewrite selectedId_spec. reflexivity.
    + rewrite He. apply filter_ext. intros e. rewrite !selectedId_spec. reflexivity.
    + intros n Hin Hs. apply deletedNode_iff. split; [exact Hin|].
      apply selectedNodeIds_In. eauto.
    + intros Hnd. rewrite Hn. apply filter_ext_in. intros n Hin. f_equal.
      rewrite <- selectedId_spec.
      destruct (Node.selected n) eqn:Hs.
      * apply selectedId_true. eauto.
      * apply not_true_is_false. intros H. apply selectedId_true in H as (m & Hm & Hms & Hid).
        rewrite (id_determines_node (nodes g) m n Hnd Hm Hin Hid) in Hms. congruence.
    + intros e Hin. rewrite deleteSelected_edges. unfold incident. split.
      * intros H.
        destruct (in_dec string_dec (Edge.source e) (selectedNodeIds (nodes g))) as [Hs|Hs].
        { apply endpoint_deleted_iff in Hs as (n & Hd & Hid). eauto. }
        destruct (in_dec string_dec (Edge.target e) (selectedNodeIds (nodes g))) as [Ht|Ht].
        { apply endpoint_deleted_iff in Ht as (n & Hd & Hid). eauto. }
        tauto.
      * intros (n & Hd & [Hi|Hi]) (_ & Hs & Ht);
          [apply Hs|apply Ht]; apply endpoint_deleted_iff; eauto.
  - intros cs g Hcs. apply danglingFree_run, wellAimed_without_connect, Hcs.
  - intros cs g. apply danglingFree_run.
  - intros cs Hcs. apply danglingFree_spec, danglingFree_run; [exact Hcs|reflexivity].
Qed.
(* ------------------------------------------------------------------ *)
(** ** Duplicating the selection                                        *)
(* ------------------------------------------------------------------ *)

Lemma Forall2_map_r {A B} (R : A -> B -> Prop) (f : A -> B) (l : list A) :
  (forall a, In a l -> R a (f a)) -> Forall2 R l (map f l).
Proof.
  induction l as [|a l IH]; simpl; intros H; constructor; auto.
Qed.

(** What the command does get right: one copy per selected node, moved by
    (50, 50), unselected, and the counter advanced by the number of copies.
    All copies of one node type receive the same id. *)
Lemma duplicateSelectedNodes_shape (g : Graph) :
  filter Node.selected (nodes g) <> [] ->
  exists copies,
    nodes (duplicateSelectedNodes g)
      = (map (setSelected false) (nodes g) ++ copies)%list
    /\ Forall2 (fun n c =>
          Node.position c = {| x := x (Node.position n) + 50;
                               y := y (Node.position n) + 50 |}
          /\ Node.selected c = false /\ Node.type c = Node.type n)
        (filter Node.selected (nodes g)) copies
    /\ nodeIdCounter (duplicateSelectedNodes g)
         = Js.add (nodeIdCounter g) (Js.length (filter Node.selected (nodes g)))
    /\ (forall c c', In c copies -> In c' copies ->
          Node.type c = Node.type c' -> Node.id c = Node.id c').
Proof.
  intros Hne. unfold duplicateSelectedNodes.
  destruct (filter Node.selected (nodes g)) as [|n sel] eqn:E; [congruence|].
  cbn [List.length Nat.eqb].
  eexists. split; [reflexivity|]. split; [|split].
  - apply Forall2_map_r. intros a _. simpl. auto.
  - cbn [nodeIdCounter setNodeIdCounter setNodes]. unfold Js.length.
    rewrite length_map. reflexivity.
  - intros c c' Hc Hc' Ht.
    apply in_map_iff in Hc as (a & <- & _). apply in_map_iff in Hc' as (a' & <- & _).
    simpl in *. unfold duplicateId. rewrite Ht. reflexivity.
Qed.

(** C3. The duplicate command run on two selected text nodes (ids text-1
    and text-2, counter 3) appends two copies that both carry the id
    text-5; and run on the canvas left by copy, delete, copy it gives the
    copy of text-3 the id text-7 that a node of the canvas already has.
    The counter advances by the number of copies in both runs. *)
Theorem duplicate_selected_repeats_ids :
  let g := @run unitZoomFlow twoSelectedTexts emptyGraph in
  let h := @run unitZoomFlow copyDeleteCopy emptyGraph in
  (nodeIds (nodes g) = ["text-1"; "text-2"]
   /\ map Node.selected (nodes g) = [true; true]
   /\ nodeIdCounter g = Js.Finite 3
   /\ nodeIds (nodes (duplicateSelectedNodes g))
      = ["text-1"; "text-2"; "text-5"; "text-5"]
   /\ nodeIdCounter (duplicateSelectedNodes g) = Js.Finite 5)
  /\ (nodeIds (nodes h) = ["text-3"; "text-7"]
      /\ map Node.selected (nodes h) = [true; false]
      /\ nodeIdCounter h = Js.Finite 5
      /\ nodeIds (nodes (duplicateSelectedNodes h)) = ["text-3"; "text-7"; "text-7"]
      /\ nodeIdCounter (duplicateSelectedNodes h) = Js.Finite 6).
Proof. vm_compute. repeat split. Qed.

(* ------------------------------------------------------------------ *)
(** ** Connecting                                                       *)
(* ------------------------------------------------------------------ *)

(** [onConnect] touches the edges only. *)
Lemma onConnect_nodes (isDarkMode : bool) (connection : Connection.t) (g : Graph) :
  nodes (onConnect isDarkMode connection g) = nodes g
  /\ nodeIdCounter (onConnect isDarkMode connection g) = nodeIdCounter g.
Proof. split; reflexivity. Qed.

(** C6, the claim refuted. On the canvas with nodes a and b and no edge,
    connecting a to itself is not a no-op: it adds the edge a -> a. And
    once a -> b exists, connecting a to b again adds nothing: the canvas
    keeps a single edge. *)
Lemma connect_keeps_self_loop_and_drops_repeat :
  onConnect true (connectionFromTo "a" "a") canvasAB <> canvasAB
  /\ map (fun e => (Edge.source e, Edge.target e))
         (edges (onConnect true (connectionFromTo "a" "a") canvasAB))
     = [("a", "a")]
  /\ let once := onConnect true (connectionFromTo "a" "b") canvasAB in
     map (fun e => (Edge.source e, Edge.target e)) (edges once) = [("a", "b")]
     /\ onConnect true (connectionFromTo "a" "b") once = once
     /\ List.length (edges (onConnect true (connectionFromTo "a" "b") once)) <> 2.
Proof.
  vm_compute. repeat split; discriminate.
Qed.

(** C6, amended. [onConnect] leaves nodes and counter alone. It ignores a
    connection whose source or target is missing or empty, and one for
    which an edge with the same source, target and handles exists; any
    other connection, a self-loop included, appends exactly one edge that
    carries the connection's endpoints and handles. *)
Theorem connect_appends_unless_present (isDarkMode : bool)
  (connection : Connection.t) (g : Graph) :
  nodes (onConnect isDarkMode connection g) = nodes g
  /\ nodeIdCounter (onConnect isDarkMode connection g) = nodeIdCounter g
  /\ (if connectionIgnored connection (edges g)
      then edges (onConnect isDarkMode connection g) = edges g
      else exists e,
          edges (onConnect isDarkMode connection g) = (edges g ++ [e])%list
          /\ Connection.source connection = Some (Edge.source e)
          /\ Connection.target connection = Some (Edge.target e)
          /\ Edge.sourceHandle e = Connection.sourceHandle connection
          /\ Edge.targetHandle e = Connection.targetHandle connection).
Proof.
  split; [reflexivity|]. split; [reflexivity|].
  unfold onConnect, addEdge, connectionIgnored, connectionExists. simpl.
  destruct (Connection.source connection) as [s|];
    destruct (Connection.target connection) as [t|]; simpl;
    rewrite ?orb_true_r; try reflexivity.
  rewrite !negb_involutive.
  destruct (Js.isEmpty s || Js.isEmpty t) eqn:E; simpl; [reflexivity|].
  match goal with |- context [existsb ?f (edges g)] =>
    destruct (existsb f (edges g)) eqn:Ex end.
  - reflexivity.
  - eexists. split; [reflexivity|]. simpl. auto.
Qed.

(* ------------------------------------------------------------------ *)
(** ** Marquee selection                                                *)
(* ------------------------------------------------------------------ *)



Section MarqueeFacts.
Context {RF : ReactFlowInstance}.





End MarqueeFacts.


(* ------------------------------------------------------------------ *)
(** ** The request log                                                  *)
(* ------------------------------------------------------------------ *)

Lemma requestsSince_app (w w' : Backend) (l : list Request) :
  requests w' = (requests w ++ l)%list -> requestsSince w w' = l.
Proof.
  intros H. unfold requestsSince. rewrite H, skipn_app, skipn_all, Nat.sub_diag.
  reflexivity.
Qed.

Lemma requestsSince_same (w : Backend) : requestsSince w w = [].
Proof. apply requestsSince_app. symmetry. apply List.app_nil_r. Qed.

Section RequestLog.
Context {P : Platform}.

Ltac query_sends :=
  intros; unfold sends;
  repeat match goal with
         | |- context [if ?b then _ else _] => destruct b
         | |- context [match ?x with _ => _ end] => destruct x
         end; reflexivity.

Lemma updateCanvasQuery_sends (i : string) (p : SavePayload.t) (w : Backend) :
  sends (updateCanvasQuery i p w) w [UpdateCanvas i p].
Proof. unfold updateCanvasQuery. query_sends. Qed.

Lemma upsertCanvasQuery_sends (p : SavePayload.t) (w : Backend) :
  sends (upsertCanvasQuery p w) w [UpsertCanvas p].
Proof. unfold upsertCanvasQuery. query_sends. Qed.

Lemma updateThumbnailQuery_sends (i url : string) (w : Backend) :
  sends (updateThumbnailQuery i url w) w [UpdateThumbnail i url (clock w)].
Proof. unfold updateThumbnailQuery. query_sends. Qed.

Lemma selectVersionsQuery_sends (u n : string) (w : Backend) :
  sends (selectVersionsQuery u n w) w [SelectVersions u n].
Proof. unfold selectVersionsQuery. query_sends. Qed.

Lemma deleteCanvasesQuery_sends (ids : list string) (w : Backend) :
  sends (deleteCanvasesQuery ids w) w [DeleteCanvases ids].
Proof. unfold deleteCanvasesQuery. query_sends. Qed.

Lemma dataOf_sends {A} (q : Query A) (w : Backend) (l : list Request) :
  sends (q w) w l -> sends (dataOf q w) w l.
Proof. unfold sends, dataOf. destruct (q w) as [[a|e] w1]; auto. Qed.

Lemma saveRequest_isWrite (a : SaveArgs.t) (now : nat) :
  isWrite (saveRequest a now) = true.
Proof. unfold saveRequest. destruct (Js.truthy _); reflexivity. Qed.

Lemma saveCanvas_sends (a : SaveArgs.t) (w : Backend) :
  sends (canvasOperations.saveCanvas a w) w [saveRequest a (clock w)].
Proof.
  unfold canvasOperations.saveCanvas, saveRequest.
  destruct (Js.truthy (SaveArgs.canvasId a)); apply dataOf_sends;
    [apply updateCanvasQuery_sends|apply upsertCanvasQuery_sends].
Qed.

Lemma cleanupOldVersions_sends (n : string) (w : Backend) :
  exists l, requests (canvasOperations.cleanupOldVersions n w)
            = (requests w ++ SelectVersions defaultUser n :: l)%list.
Proof.
  unfold canvasOperations.cleanupOldVersions.
  pose proof (selectVersionsQuery_sends defaultUser n w) as H. unfold sends in H.
  destruct (selectVersionsQuery defaultUser n w) as [[rows|e] w1]; simpl in H.
  - destruct (1 <? List.length rows)%nat.
    + rewrite (deleteCanvasesQuery_sends _ w1), H, <- app_assoc. simpl. eauto.
    + exists []. exact H.
  - exists []. exact H.
Qed.

End RequestLog.

Section ThumbnailFacts.
Context {P : Platform}.

Lemma generateThumbnail_sends (i : string) (nds : list Node.t) (eds : list Edge.t)
  (v : Viewport) (w : Backend) :
  exists url, sends (canvasOperations.generateThumbnail i nds eds v w) w
                    [UpdateThumbnail i url (clock w)].
Proof.
  unfold canvasOperations.generateThumbnail, andThen, resolve.
  set (url := "data:image/svg+xml;base64," ++ btoa (createThumbnailSvg nds eds v)).
  exists url.
  pose proof (dataOf_sends _ w _ (updateThumbnailQuery_sends i url w)) as H.
  unfold sends in *.
  destruct (dataOf (updateThumbnailQuery i url) w) as [[a|e] w1]; exact H.
Qed.

Lemma tryThumbnail_sends (i : option string) (nds : list Node.t)
  (eds : list Edge.t) (v : Viewport) (w : Backend) :
  exists l, sends (tryThumbnail i nds eds v w) w l.
Proof.
  unfold tryThumbnail. destruct (0 <? List.length nds)%nat.
  - destruct (generateThumbnail_sends
                (if Js.truthy i then handleText i else "temp") nds eds v w) as [url H].
    exists [UpdateThumbnail (if Js.truthy i then handleText i else "temp") url (clock w)].
    unfold sends in *.
    destruct (canvasOperations.generateThumbnail _ nds eds v w) as [[u|e] w1]; exact H.
  - exists []. unfold sends. simpl. symmetry. apply List.app_nil_r.
Qed.
End ThumbnailFacts.

(* ------------------------------------------------------------------ *)
(** ** The debounced save                                               *)
(* ------------------------------------------------------------------ *)

Section SaveFacts.
Context {P : Platform}.

Lemma saveCanvasData_skip (c : SaveClosure) (s : Session) (w : Backend) :
  fingerprint c s = lastSaveDataRef s ->
  saveCanvasData c s w = (setIsSaving false s, w).
Proof.
  unfold saveCanvasData, fingerprint. intros ->.
  rewrite String.eqb_refl. reflexivity.
Qed.

(** Unfolding of an attempt whose fingerprint differs from the record. *)
Lemma saveCanvasData_attempt (c : SaveClosure) (s : Session) (w : Backend) :
  fingerprint c s <> lastSaveDataRef s ->
  saveCanvasData c s w =
  let t := tryThumbnail (closedCanvasId c) (closedNodes c) (closedEdges c)
                        (flowViewport s) w in
  let a := saveArgs (closedNodes c) (closedEdges c) (flowViewport s)
                    (closedCanvasName c) (closedCanvasId c) (fst t) in
  match canvasOperations.saveCanvas a (snd t) with
  | (Resolved savedCanvas, w2) =>
      (setIsSaving false
         (setLastSavedTime "just now"
            (setLastSaveData (fingerprint c s)
               (adoptCanvasId (closedCanvasId c) savedCanvas
                  (setSaveError None (setIsSaving true s))))),
       canvasOperations.cleanupOldVersions (closedCanvasName c) w2)
  | (Rejected _, w2) =>
      (setIsSaving false
         (setLastSavedTime "error"
            (setSaveError (Some "Auto-save failed")
               (setSaveError None (setIsSaving true s)))), w2)
  end.
Proof.
  intros Hne. unfold saveCanvasData, fingerprint in *.
  apply String.eqb_neq in Hne. rewrite Hne.
  destruct (tryThumbnail _ _ _ _ w) as [t w1]. reflexivity.
Qed.

Lemma adoptCanvasId_keeps (i : option string) (row : CanvasData.t) (s : Session) :
  saveState (adoptCanvasId i row s) = saveState s
  /\ lastSaveDataRef (adoptCanvasId i row s) = lastSaveDataRef s
  /\ isLoaded (adoptCanvasId i row s) = isLoaded s
  /\ saveTimeoutRef (adoptCanvasId i row s) = saveTimeoutRef s
  /\ graph (adoptCanvasId i row s) = graph s.
Proof. unfold adoptCanvasId. destruct (_ && _); repeat split. Qed.

(** After an attempt the recorded fingerprint is the attempt's own
    (it was skipped or accepted), or the attempt failed and the record
    is as before. *)
Lemma saveCanvasData_record (c : SaveClosure) (s : Session) (w : Backend) :
  lastSaveDataRef (fst (saveCanvasData c s w)) = fingerprint c s
  \/ (saveError (saveState (fst (saveCanvasData c s w))) = Some "Auto-save failed"
      /\ lastSaveDataRef (fst (saveCanvasData c s w)) = lastSaveDataRef s
      /\ fingerprint c s <> lastSaveDataRef s).
Proof.
  destruct (string_dec (fingerprint c s) (lastSaveDataRef s)) as [E|Hne].
  - left. rewrite saveCanvasData_skip by exact E. simpl. auto.
  - rewrite saveCanvasData_attempt by exact Hne. cbv zeta.
    destruct (canvasOperations.saveCanvas _ _) as [[row|e] w2]; simpl; auto.
Qed.

(** Past the fingerprint check both save functions take the same course
    through the store. *)
Lemma manualSave_sends (c : SaveClosure) (s : Session) (w : Backend) :
  exists thumb rest,
    requestsSince w (snd (manualSave c s w))
    = (thumb ++ saveRequest
                  (saveArgs (closedNodes c) (closedEdges c) (flowViewport s)
                     (closedCanvasName c) (closedCanvasId c)
                     (fst (tryThumbnail (closedCanvasId c) (closedNodes c)
                             (closedEdges c) (flowViewport s) w)))
                  (clock (snd (tryThumbnail (closedCanvasId c) (closedNodes c)
                                 (closedEdges c) (flowViewport s) w)))
              :: rest)%list.
Proof.
  unfold manualSave.
  destruct (tryThumbnail_sends (closedCanvasId c) (closedNodes c)
              (closedEdges c) (flowViewport s) w) as [thumb Ht].
  destruct (tryThumbnail _ _ _ _ w) as [t w1]. unfold sends in Ht. simpl in Ht.
  cbn [fst snd].
  pose proof (saveCanvas_sends
                (saveArgs (closedNodes c) (closedEdges c) (flowViewport s)
                   (closedCanvasName c) (closedCanvasId c) t) w1) as Hs.
  unfold sends in Hs.
  destruct (canvasOperations.saveCanvas _ w1) as [[row|e] w2]; simpl in Hs; cbn [snd].
  - destruct (cleanupOldVersions_sends (closedCanvasName c) w2) as [l Hl].
    exists thumb. eexists. apply requestsSince_app.
    rewrite Hl, Hs, Ht, <- !app_assoc. simpl. reflexivity.
  - exists thumb, []. apply requestsSince_app.
    rewrite Hs, Ht, <- app_assoc. reflexivity.
Qed.

Lemma manualSave_writes (c : SaveClosure) (s : Session) (w : Backend) :
  existsb isWrite (requestsSince w (snd (manualSave c s w))) = true.
Proof.
  destruct (manualSave_sends c s w) as (thumb & rest & ->).
  rewrite existsb_app. simpl. rewrite saveRequest_isWrite. apply orb_true_r.
Qed.

Lemma saveCanvasData_as_manualSave (c : SaveClosure) (s : Session) (w : Backend) :
  fingerprint c s <> lastSaveDataRef s ->
  snd (saveCanvasData c s w) = snd (manualSave c s w)
  /\ currentCanvasId (fst (saveCanvasData c s w))
     = currentCanvasId (fst (manualSave c s w))
  /\ lastSavedTime (saveState (fst (saveCanvasData c s w)))
     = lastSavedTime (saveState (fst (manualSave c s w)))
  /\ isSaving (saveState (fst (saveCanvasData c s w)))
     = isSaving (saveState (fst (manualSave c s w)))
  /\ (saveError (saveState (fst (saveCanvasData c s w))) = None
      <-> saveError (saveState (fst (manualSave c s w))) = None).
Proof.
  intros Hne. rewrite (saveCanvasData_attempt _ _ _ Hne). cbv zeta.
  unfold manualSave.
  destruct (tryThumbnail _ _ _ _ w) as [t w1]. cbn [fst snd].
  destruct (canvasOperations.saveCanvas _ w1) as [[row|e] w2]; cbn [fst snd].
  - unfold adoptCanvasId. destruct (_ && _); simpl; intuition.
  - simpl. intuition discriminate.
Qed.

(** An attempt whose fingerprint differs from the record writes. *)
Lemma saveCanvasData_writes (c : SaveClosure) (s : Session) (w : Backend) :
  fingerprint c s <> lastSaveDataRef s ->
  existsb isWrite (requestsSince w (snd (saveCanvasData c s w))) = true.
Proof.
  intros Hne. rewrite (proj1 (saveCanvasData_as_manualSave c s w Hne)).
  apply manualSave_writes.
Qed.

(** An attempt that ends in an error has left the record alone. *)
Lemma saveCanvasData_failed (c : SaveClosure) (s : Session) (w : Backend) :
  fingerprint c s <> lastSaveDataRef s ->
  saveError (saveState (fst (saveCanvasData c s w))) <> None ->
  lastSaveDataRef (fst (saveCanvasData c s w)) = lastSaveDataRef s
  /\ saveState (fst (saveCanvasData c s w)) = saveFailed "Auto-save failed".
Proof.
  intros Hne. rewrite (saveCanvasData_attempt _ _ _ Hne). cbv zeta.
  destruct (canvasOperations.saveCanvas _ _) as [[row|e] w2]; cbn [fst snd].
  - unfold adoptCanvasId. destruct (_ && _); simpl; congruence.
  - simpl. auto.
Qed.

(** C2, the claim refuted. The first attempt on a fresh canvas is
    dropped by the network, so nothing is recorded; the second attempt,
    whose snapshot serializes to the same text, sends the upsert again. *)
Lemma failed_attempt_is_written_again :
  let c := closureOf freshSession in
  let r1 := @saveCanvasData samplePlatform c freshSession flakyStore in
  let r2 := @saveCanvasData samplePlatform c (fst r1) (snd r1) in
  @fingerprint samplePlatform c (fst r1) = @fingerprint samplePlatform c freshSession
  /\ saveState (fst r1) = saveFailed "Auto-save failed"
  /\ existsb isWrite (requestsSince (snd r1) (snd r2)) = true
  /\ requestsSince (snd r1) (snd r2) <> [].
Proof. vm_compute. repeat split; discriminate. Qed.

(** C2, amended. A save attempt whose fingerprint equals the recorded
    one changes nothing in the store and sends no request: no thumbnail,
    no upsert, no cleanup. An attempt whose fingerprint differs writes;
    it then either leaves its own fingerprint recorded and no error, or
    ends in the auto-save error and leaves the record as it was. Hence, of
    two consecutive attempts with identical serialized snapshots, the
    second sends nothing when the first did not fail, and writes again
    when the first failed. *)
Theorem unchanged_fingerprint_skips_the_write :
  (forall c s w, fingerprint c s = lastSaveDataRef s ->
      snd (saveCanvasData c s w) = w
      /\ requestsSince w (snd (saveCanvasData c s w)) = [])
  /\ (forall c s w, fingerprint c s <> lastSaveDataRef s ->
        existsb isWrite (requestsSince w (snd (saveCanvasData c s w))) = true
        /\ (saveError (saveState (fst (saveCanvasData c s w))) = None
            /\ lastSaveDataRef (fst (saveCanvasData c s w)) = fingerprint c s
            \/ saveState (fst (saveCanvasData c s w)) = saveFailed "Auto-save failed"
               /\ lastSaveDataRef (fst (saveCanvasData c s w)) = lastSaveDataRef s))
  /\ (forall c s w c',
        let r := saveCanvasData c s w in
        saveError (saveState (fst r)) = None ->
        fingerprint c' (fst r) = fingerprint c s ->
        snd (saveCanvasData c' (fst r) (snd r)) = snd r
        /\ requestsSince (snd r) (snd (saveCanvasData c' (fst r) (snd r))) = [])
  /\ (forall c s w c',
        let r := saveCanvasData c s w in
        fingerprint c s <> lastSaveDataRef s ->
        saveError (saveState (fst r)) <> None ->
        fingerprint c' (fst r) = fingerprint c s ->
        lastSaveDataRef (fst r) = lastSaveDataRef s
        /\ existsb isWrite
             (requestsSince (snd r) (snd (saveCanvasData c' (fst r) (snd r)))) = true).
Proof.
  assert (Hskip : forall c s w, fingerprint c s = lastSaveDataRef s ->
             snd (saveCanvasData c s w) = w
             /\ requestsSince w (snd (saveCanvasData c s w)) = []).
  { intros c s w E. rewrite saveCanvasData_skip by exact E. simpl.
    split; [reflexivity|apply requestsSince_same]. }
  split; [exact Hskip|]. split; [|split].
  - intros c s w Hne. split; [apply saveCanvasData_writes, Hne|].
    destruct (saveError (saveState (fst (saveCanvasData c s w)))) as [e|] eqn:E.
    + right. destruct (saveCanvasData_failed c s w Hne) as [H1 H2]; [congruence|]. auto.
    + left. split; [reflexivity|].
      destruct (saveCanvasData_record c s w) as [H|(H1 & _)]; [exact H|congruence].
  - intros c s w c' r Hok Hfp. apply Hskip. rewrite Hfp. subst r.
    destruct (saveCanvasData_record c s w) as [H|(H1 & _)]; [auto|congruence].
  - intros c s w c' r Hne Hfail Hfp. subst r.
    destruct (saveCanvasData_failed c s w Hne Hfail) as [Hrec _].
    split; [exact Hrec|]. apply saveCanvasData_writes. rewrite Hfp, Hrec. exact Hne.
Qed.

End SaveFacts.
(* ---------------------------------------------------------------- *)
(** ** The manual save                                               *)
(* ---------------------------------------------------------------- *)

Section ManualSave.
Context {P : Platform} {RF : ReactFlowInstance}.

Lemma manualSave_record (c : SaveClosure) (s : Session) (w : Backend) :
  lastSaveDataRef (fst (manualSave c s w)) = lastSaveDataRef s
  /\ isLoaded (fst (manualSave c s w)) = isLoaded s
  /\ saveTimeoutRef (fst (manualSave c s w)) = saveTimeoutRef s
  /\ keydownClosure (fst (manualSave c s w)) = keydownClosure s
  /\ graph (fst (manualSave c s w)) = graph s
  /\ canvasName (fst (manualSave c s w)) = canvasName s
  /\ loadsInFlight (fst (manualSave c s w)) = loadsInFlight s.
Proof.
  unfold manualSave, adoptCanvasId.
  destruct (tryThumbnail _ _ _ _ w) as [t w1].
  destruct (canvasOperations.saveCanvas _ w1) as [[row|e] w2]; simpl;
    [destruct (_ && _)|]; repeat split.
Qed.

Lemma saveCanvasData_fields (c : SaveClosure) (s : Session) (w : Backend) :
  isLoaded (fst (saveCanvasData c s w)) = isLoaded s
  /\ saveTimeoutRef (fst (saveCanvasData c s w)) = saveTimeoutRef s
  /\ keydownClosure (fst (saveCanvasData c s w)) = keydownClosure s
  /\ graph (fst (saveCanvasData c s w)) = graph s
  /\ canvasName (fst (saveCanvasData c s w)) = canvasName s
  /\ loadsInFlight (fst (saveCanvasData c s w)) = loadsInFlight s.
Proof.
  unfold saveCanvasData. destruct (String.eqb _ _); [repeat split|].
  destruct (tryThumbnail _ _ _ _ w) as [t w1].
  destruct (canvasOperations.saveCanvas _ w1) as [[row|e] w2]; simpl;
    [unfold adoptCanvasId; destruct (_ && _)|]; repeat split.
Qed.

Lemma autoSaveEffect_fields (s : Session) :
  isLoaded (autoSaveEffect s) = isLoaded s
  /\ keydownClosure (autoSaveEffect s) = keydownClosure s
  /\ closureOf (autoSaveEffect s) = closureOf s
  /\ loadsInFlight (autoSaveEffect s) = loadsInFlight s
  /\ lastSaveDataRef (autoSaveEffect s) = lastSaveDataRef s
  /\ flowViewport (autoSaveEffect s) = flowViewport s.
Proof. unfold autoSaveEffect. destruct (isLoaded s) eqn:E; simpl; rewrite ?E; auto 10. Qed.




End ManualSave.


(** A node is created, the canvas is renamed, and Ctrl+S is pressed: the
    handler still closes over the name of the render in which the node
    was created, and the canvas is stored as "My Canvas". *)
Example manual_save_after_rename_uses_the_old_name :
  let es := [ LoadSettled FirstLoad;
              Edit (CreateNode homeViewport "text" (at_ 100 100));
              Rename "Plan"; ManualSave ] in
  let r := @runSession samplePlatform unitZoomFlow None es (mounted, emptyStore) in
  canvasName (fst r) = "Plan"
  /\ map CanvasData.canvas_name (canvases (db (snd r))) = ["My Canvas"].
Proof. vm_compute. split; reflexivity. Qed.

(* ------------------------------------------------------------------ *)
(** ** Thumbnail failure                                                *)
(* ------------------------------------------------------------------ *)

Section ThumbnailFailure.
Context {P : Platform}.

Lemma tryThumbnail_rejected (i : option string) (nds : list Node.t)
  (eds : list Edge.t) (v : Viewport) (w w1 : Backend) (reason : string) :
  nds <> [] ->
  canvasOperations.generateThumbnail (thumbnailTarget i) nds eds v w
    = (Rejected reason, w1) ->
  tryThumbnail i nds eds v w = (None, w1).
Proof.
  intros Hne H. unfold tryThumbnail, thumbnailTarget in *.
  destruct nds; [congruence|]. simpl. rewrite H. reflexivity.
Qed.

(** C8. When the thumbnail request of a save attempt is rejected, the
    attempt goes on from the store the rejection left: it sends the save
    request next, built without a thumbnail url, so the record written
    has no thumbnail field; and what the attempt ends in is decided by
    that save alone: accepted, it leaves the saved label, no error and
    the new fingerprint; rejected, the auto-save error. The same holds
    of the manual save. *)
Theorem thumbnail_failure_does_not_fail_the_save (c : SaveClosure) (s : Session)
  (w w1 : Backend) (reason : string) :
  fingerprint c s <> lastSaveDataRef s ->
  closedNodes c <> [] ->
  canvasOperations.generateThumbnail (thumbnailTarget (closedCanvasId c))
    (closedNodes c) (closedEdges c) (flowViewport s) w = (Rejected reason, w1) ->
  let a := saveArgs (closedNodes c) (closedEdges c) (flowViewport s)
                    (closedCanvasName c) (closedCanvasId c) None in
  let r := saveCanvasData c s w in
  SavePayload.thumbnail_url (canvasOperations.dataToSave a (clock w1)) = None
  /\ (exists rest, requestsSince w1 (snd r) = saveRequest a (clock w1) :: rest)
  /\ match canvasOperations.saveCanvas a w1 with
     | (Resolved savedCanvas, w2) =>
         saveState (fst r) = savedOk
         /\ lastSaveDataRef (fst r) = fingerprint c s
         /\ snd r = canvasOperations.cleanupOldVersions (closedCanvasName c) w2
     | (Rejected _, w2) =>
         saveState (fst r) = saveFailed "Auto-save failed" /\ snd r = w2
     end.
Proof.
  intros Hfp Hne Hthumb a r. subst r.
  rewrite (saveCanvasData_attempt _ _ _ Hfp). cbv zeta.
  rewrite (tryThumbnail_rejected _ _ _ _ _ _ _ Hne Hthumb). cbn [fst snd]. fold a.
  split; [reflexivity|].
  pose proof (saveCanvas_sends a w1) as Hs. unfold sends in Hs.
  destruct (canvasOperations.saveCanvas a w1) as [[row|e] w2]; cbn [fst snd] in *.
  - split.
    + destruct (cleanupOldVersions_sends (closedCanvasName c) w2) as [l Hl].
      eexists. apply requestsSince_app. rewrite Hl, Hs, <- app_assoc. reflexivity.
    + unfold adoptCanvasId. destruct (_ && _); simpl; auto.
  - split; [|auto].
    exists []. apply requestsSince_app. exact Hs.
Qed.

(** The manual save takes the same course. *)
Lemma thumbnail_failure_manual_save (c : SaveClosure) (s : Session)
  (w w1 : Backend) (reason : string) :
  closedNodes c <> [] ->
  canvasOperations.generateThumbnail (thumbnailTarget (closedCanvasId c))
    (closedNodes c) (closedEdges c) (flowViewport s) w = (Rejected reason, w1) ->
  let a := saveArgs (closedNodes c) (closedEdges c) (flowViewport s)
                    (closedCanvasName c) (closedCanvasId c) None in
  match canvasOperations.saveCanvas a w1 with
  | (Resolved savedCanvas, w2) =>
      saveState (fst (manualSave c s w)) = savedOk
      /\ snd (manualSave c s w)
         = canvasOperations.cleanupOldVersions (closedCanvasName c) w2
  | (Rejected _, w2) =>
      saveState (fst (manualSave c s w)) = saveFailed "Save failed"
      /\ snd (manualSave c s w) = w2
  end.
Proof.
  intros Hne Hthumb a. unfold manualSave.
  rewrite (tryThumbnail_rejected _ _ _ _ _ _ _ Hne Hthumb). fold a.
  destruct (canvasOperations.saveCanvas a w1) as [[row|e] w2]; cbn [fst snd].
  - unfold adoptCanvasId. destruct (_ && _); simpl; auto.
  - auto.
Qed.

End ThumbnailFailure.

(** A new canvas with one node: the thumbnail is aimed at the id "temp",
    which no row has, so it is rejected; the upsert that follows succeeds
    and stores a row without thumbnail. *)
Lemma thumbnail_failure_does_not_fail_the_save_witness :
  let c := closureOf oneNodeSession in
  let r := @saveCanvasData samplePlatform c oneNodeSession emptyStore in
  saveState (fst r) = savedOk
  /\ map CanvasData.thumbnail_url (canvases (db (snd r))) = [None].
Proof.
  intros c r.
  pose proof (@thumbnail_failure_does_not_fail_the_save samplePlatform c oneNodeSession
                emptyStore
                (snd (@canvasOperations.generateThumbnail samplePlatform "temp"
                        (closedNodes c) (closedEdges c) (flowViewport oneNodeSession)
                        emptyStore))
                "PGRST116") as H.
  assert (Hfp : @fingerprint samplePlatform c oneNodeSession
                <> lastSaveDataRef oneNodeSession) by (vm_compute; discriminate).
  assert (Hne : closedNodes c <> []) by (vm_compute; discriminate).
  specialize (H Hfp Hne eq_refl). cbv zeta in H.
  destruct H as (_ & _ & H).
  split; [|reflexivity].
  exact (proj1 H).
Defined.
(* ------------------------------------------------------------------ *)
(** ** No save before the load has completed                            *)
(* ------------------------------------------------------------------ *)

Section SessionFacts.
Context {P : Platform} {RF : ReactFlowInstance}.


Lemma afterRender_isLoaded (nodesSet othersSet : bool) (before s : Session) :
  isLoaded (afterRender nodesSet othersSet before s) = isLoaded s.
Proof.
  unfold afterRender. destruct (_ || _);
    [rewrite (proj1 (autoSaveEffect_fields _))|]; destruct nodesSet; reflexivity.
Qed.


(** The load marks the session loaded whether the store answered or not. *)
Lemma loadCanvasData_isLoaded (call : LoadCall) (canvasId : option string)
  (s : Session) (w : Backend) :
  isLoaded (fst (loadCanvasData call canvasId s w)) = true.
Proof.
  unfold loadCanvasData.
  destruct (canvasOperations.loadCanvas _ _ w) as [o w1]. reflexivity.
Qed.

Lemma step_isLoaded_mono (canvasId : option string) (e : Event)
  (c : Session * Backend) :
  isLoaded (fst c) = true -> isLoaded (fst (step canvasId e c)) = true.
Proof.
  destruct c as [s w]. cbn [fst]. intros H. destruct e; cbn [step fst].
  - rewrite afterRender_isLoaded. exact H.
  - exact H.
  - rewrite afterRender_isLoaded. exact H.
  - rewrite afterRender_isLoaded. exact H.
  - destruct (inFlight call s); [|exact H].
    pose proof (loadCanvasData_isLoaded call canvasId s w) as K.
    destruct (loadCanvasData call canvasId s w) as [s' w']. cbn [fst] in *.
    rewrite afterRender_isLoaded. exact K.
  - destruct (saveTimeoutRef s) as [cl|]; [|exact H].
    pose proof (saveCanvasData_fields cl (setSaveTimeout None s) w) as [K _].
    destruct (saveCanvasData cl (setSaveTimeout None s) w) as [s' w']. cbn [fst] in *.
    rewrite afterRender_isLoaded, K. exact H.
  - pose proof (manualSave_record (keydownClosure s) s w) as (_ & K & _).
    destruct (manualSave (keydownClosure s) s w) as [s' w']. cbn [fst] in *.
    rewrite afterRender_isLoaded, K. exact H.
Qed.







End SessionFacts.

(* ------------------------------------------------------------------ *)
(** ** Loading a canvas that does not exist                             *)
(* ------------------------------------------------------------------ *)

Lemma filter_none {A} (p : A -> bool) (l : list A) :
  existsb p l = false -> filter p l = [].
Proof.
  induction l as [|a l IH]; simpl; [reflexivity|].
  intros H. apply orb_false_elim in H as [-> H]. auto.
Qed.

Lemma keepTruthy_nonempty (i : string) :
  Js.isEmpty i = false -> keepTruthy (Some i) = Some i /\ Js.truthy (Some i) = true.
Proof. unfold keepTruthy. simpl. intros ->. auto. Qed.

(** C10. [loadCanvas] called with an id that no stored row has resolves
    to the object that holds nothing but [permission: 'edit'] and
    [isOwner: true], while loading by a name that no row of the user has
    resolves to [null]. [loadCanvasData], which only tests the result for
    truthiness, therefore ends exactly as if the store held an empty canvas
    under that id: an empty graph named "My Canvas", the id adopted, the
    label "just now" and no error; after the load by name it shows "never"
    and keeps no id. *)
Theorem load_of_unknown_id_is_an_empty_canvas (call : LoadCall)
  (canvasId name : string) (w : Backend) :
  Js.isEmpty canvasId = false ->
  dropped w = false ->
  existsb (hasId canvasId) (canvases (db w)) = false ->
  fst (canvasOperations.loadCanvas (Some canvasId) name w)
    = Resolved (Some bareOwnerObject)
  /\ (existsb (ownedAs defaultUser name) (canvases (db w)) = false ->
      fst (canvasOperations.loadCanvas None name w) = Resolved None)
  /\ (let s := fst (loadCanvasData call (Some canvasId) mounted w) in
      graph s = emptyGraph /\ canvasName s = "My Canvas"
      /\ saveState s = savedOk /\ currentCanvasId s = Some canvasId
      /\ isLoaded s = true)
  /\ (forall created,
        fst (loadCanvasData call (Some canvasId) mounted w)
        = fst (loadCanvasData call (Some canvasId) mounted
                 (withCanvases (canvases (db w) ++ [emptyCanvasRow canvasId created]) w)))
  /\ (existsb (ownedAs defaultUser "My Canvas") (canvases (db w)) = false ->
      let s := fst (loadCanvasData call None mounted w) in
      graph s = emptyGraph /\ lastSavedTime (saveState s) = "never"
      /\ currentCanvasId s = None /\ isLoaded s = true).
Proof.
  intros Hid Hnet Hnone.
  destruct (keepTruthy_nonempty canvasId Hid) as [Hk Ht].
  assert (Hload : forall nm, canvasOperations.loadCanvas (Some canvasId) nm w
                  = (Resolved (Some bareOwnerObject),
                     transmit (SelectCanvasById canvasId) w)).
  { intros nm. unfold canvasOperations.loadCanvas. rewrite Ht.
    unfold andThen, dataOf, selectCanvasByIdQuery. simpl. rewrite Hnet.
    rewrite (filter_none _ _ Hnone). reflexivity. }
  assert (Hname : forall nm,
             existsb (ownedAs defaultUser nm) (canvases (db w)) = false ->
             canvasOperations.loadCanvas None nm w
             = (Resolved None, transmit (SelectCanvasByName defaultUser nm) w)).
  { intros nm Hn. unfold canvasOperations.loadCanvas. simpl.
    unfold andThen, dataOf, selectCanvasByNameQuery. simpl. rewrite Hnet.
    rewrite (filter_none _ _ Hn). reflexivity. }
  split; [rewrite Hload; reflexivity|].
  split; [intros Hn; rewrite Hname by exact Hn; reflexivity|].
  assert (Hs : loadCanvasData call (Some canvasId) mounted w
               = (setIsLoaded true (setIsSaving false
                    (setLastSavedTime "just now"
                       (setCurrentCanvasId (Some canvasId) mounted))),
                  transmit (SelectCanvasById canvasId) w)).
  { unfold loadCanvasData. rewrite Hk, Hload, Ht. reflexivity. }
  split; [rewrite Hs; simpl; auto|].
  split.
  - intros created. rewrite Hs. unfold loadCanvasData. rewrite Hk, Ht.
    unfold canvasOperations.loadCanvas. rewrite Ht.
    unfold andThen, dataOf, selectCanvasByIdQuery. simpl.
    change (dropped (withCanvases _ w)) with (dropped w). rewrite Hnet.
    rewrite filter_app, (filter_none _ _ Hnone). simpl.
    unfold hasId at 1. simpl. rewrite String.eqb_refl. simpl.
    destruct call; reflexivity.
  - intros Hn s. subst s. unfold loadCanvasData.
    change (keepTruthy None) with (@None string).
    rewrite (Hname _ Hn). simpl. auto.
Qed.

(** The id "nope" against the empty store. *)
Lemma load_of_unknown_id_is_an_empty_canvas_witness :
  fst (canvasOperations.loadCanvas (Some "nope") "My Canvas" emptyStore)
  = Resolved (Some bareOwnerObject).
Proof.
  exact (proj1 (load_of_unknown_id_is_an_empty_canvas FirstLoad "nope" "My Canvas"
                  emptyStore eq_refl eq_refl eq_refl)).
Defined.


(* ------------------------------------------------------------------ *)
(** ** Runs on sample canvases                                          *)
(* ------------------------------------------------------------------ *)

Example seed_of_mixed_ids :
  seedNodeIdCounter [textNodeAt "text-3" 0 0 false; textNodeAt "a-1-12" 0 0 false;
                     textNodeAt "note" 0 0 false; textNodeAt "x-007" 0 0 false]
  = Js.Finite 13
  /\ seedNodeIdCounter [textNodeAt "note" 0 0 false] = Js.Finite 1
  /\ seedNodeIdCounter [] = Js.Finite 1.
Proof. vm_compute. repeat split. Qed.

(** Connect text-1 to text-2, then select and delete text-1: no edge is
    left. *)
Example connect_then_delete_source :
  let g := @run unitZoomFlow
             [ CreateNode homeViewport "text" (at_ 0 0);
               CreateNode homeViewport "text" (at_ 1000 0);
               Connect true (connectionFromTo "text-1" "text-2");
               MarqueeDrag homeViewport (at_ (-10) (-10)) (at_ 300 200);
               DeleteSelected ] emptyGraph in
  nodeIds (nodes g) = ["text-2"] /\ edges g = [].
Proof. vm_compute. split; reflexivity. Qed.

(** The marquee of [canvasMarquee] selects a and drops the selection of b. *)
Example marquee_partial_overlap :
  map Node.selected
      (nodes (snd (@handleMouseMove unitZoomFlow homeViewport (at_ 300 200)
                     (handleMouseDown (at_ (-10) (-10))) canvasMarquee)))
  = [true; false].
Proof. reflexivity. Qed.

(** Two attempts in a row on a reachable store: the first one writes, the
    second one sends nothing. *)
Example second_attempt_sends_nothing :
  let c := closureOf freshSession in
  let r1 := @saveCanvasData samplePlatform c freshSession emptyStore in
  let r2 := @saveCanvasData samplePlatform c (fst r1) (snd r1) in
  map isWrite (requestsSince emptyStore (snd r1)) = [true; false]
  /\ requestsSince (snd r1) (snd r2) = [].
Proof. vm_compute. split; reflexivity. Qed.

(** A whole session: load, one node, the debounce delay, the same delay
    again after a pan that the next poll picks up and that changes nothing
    in the serialization. *)
Example session_one_node :
  let es := [ LoadSettled FirstLoad;
              Edit (CreateNode homeViewport "text" (at_ 100 100));
              TimerFired; Pan homeViewport; ViewportPoll; TimerFired ] in
  map (fun h => List.length (snd h))
      (@history samplePlatform unitZoomFlow None es (mounted, emptyStore))
  = [1; 0; 3; 0; 0; 0].
Proof. vm_compute. reflexivity. Qed.
(* ================================================================== *)
(** * Further properties of the graph commands                          *)
(* ================================================================== *)

(** Removing rows keeps their keys distinct. *)
Lemma distinct_after_filter {Row Key} (keyOf : Row -> Key) (keep : Row -> bool)
  (rows : list Row) (Hkeys : NoDup (map keyOf rows)) :
  NoDup (map keyOf (filter keep rows)).
Proof.
  induction rows as [|r rows IH]; simpl in *; [constructor|].
  inversion Hkeys as [|? ? Hfresh Hrest]; subst.
  destruct (keep r); simpl; [constructor|]; auto.
  intros Hin. apply Hfresh. apply in_map_iff in Hin as (b & Hb & Hin).
  apply filter_In in Hin as [Hin _]. apply in_map_iff. eauto.
Qed.

(** A graph store whose ids are distinct and lie below the counter. *)
Lemma distinct_keep (g g' : Graph) :
  nodeIds (nodes g') = nodeIds (nodes g) -> nodeIdCounter g' = nodeIdCounter g ->
  NoDup (nodeIds (nodes g)) /\ suffixesBelowCounter g ->
  NoDup (nodeIds (nodes g')) /\ suffixesBelowCounter g'.
Proof.
  intros Hids Hc [Hnd Hs]. split; [rewrite Hids; exact Hnd|].
  unfold suffixesBelowCounter in *. rewrite Hc. intros c Ec Hlt n' Hn'.
  assert (Hin : In (Node.id n') (nodeIds (nodes g)))
    by (rewrite <- Hids; apply in_map, Hn').
  apply in_map_iff in Hin as (n & Hid & Hn).
  rewrite <- (idSuffix_by_id n n' Hid). exact (Hs c Ec Hlt n Hn).
Qed.

Lemma distinct_append (g : Graph) (prefix : string) (node : Node.t) (c0 : N) :
  nodeIdCounter g = Js.Finite c0 -> (c0 < Js.two53)%N ->
  Node.id node = prefix ++ "-" ++ Js.toString (Js.Finite c0) ->
  NoDup (nodeIds (nodes g)) /\ suffixesBelowCounter g ->
  NoDup (nodeIds (nodes g ++ [node]))
  /\ suffixesBelow (nodes g ++ [node]) (Js.Finite (c0 + 1)).
Proof.
  intros Hc Hlt Hid [Hnd Hs].
  pose proof (idSuffix_counter_id node prefix c0 Hlt Hid) as Hsuf.
  split.
  - unfold nodeIds. rewrite map_app. simpl.
    apply NoDup_app; [exact Hnd|repeat constructor; intros []|].
    intros i Hi [<-|[]]. apply in_map_iff in Hi as (n & Hn & Hin).
    destruct (Hs c0 Hc Hlt n Hin) as (j & Hj & Hjlt).
    rewrite (idSuffix_by_id n node Hn), Hsuf in Hj. injection Hj as <-. lia.
  - intros c [= <-] _ n Hn. apply in_app_or in Hn as [Hn|[<-|[]]].
    + destruct (Hs c0 Hc Hlt n Hn) as (j & Hj & Hjlt). exists j. split; [exact Hj|lia].
    + exists c0. split; [exact Hsuf|lia].
Qed.

Section DistinctIds.
Context {RF : ReactFlowInstance}.

Lemma distinct_exec (c : Command) (g : Graph) :
  isDuplicate c = false ->
  match idNumber c g with Some x => safeInteger x = true | None => True end ->
  NoDup (nodeIds (nodes g)) /\ suffixesBelowCounter g ->
  NoDup (nodeIds (nodes (exec c g))) /\ suffixesBelowCounter (exec c g).
Proof.
  intros Hc Hsafe Hg. destruct c; try discriminate; cbn [exec idNumber] in *;
    try (match goal with |- _ /\ suffixesBelowCounter ?g' =>
           apply (distinct_keep g g'); [|reflexivity|exact Hg] end).
  - apply safeInteger_spec in Hsafe as (c0 & Hc0 & Hlt).
    unfold handleCreateNode, suffixesBelowCounter.
    cbn [nodes nodeIdCounter setNodes setNodeIdCounter]. rewrite Hc0.
    rewrite add_safe by lia.
    apply (distinct_append g nodeType); [exact Hc0|exact Hlt|reflexivity|exact Hg].
  - apply safeInteger_spec in Hsafe as (c0 & Hc0 & Hlt).
    unfold handleSelectAIModel, suffixesBelowCounter.
    cbn [nodes nodeIdCounter setNodes setNodeIdCounter]. rewrite Hc0.
    rewrite add_safe by lia.
    apply (distinct_append g "aiModel"); [exact Hc0|exact Hlt|reflexivity|exact Hg].
  - reflexivity.
  - simpl. apply nodeIds_map_same. reflexivity.
  - simpl. apply nodeIds_map_same. reflexivity.
  - destruct Hg as [Hnd Hs].
    destruct (deleteSelected_unfold g) as (Hn & _ & Hcnt). split.
    + rewrite Hn. unfold nodeIds. apply distinct_after_filter, Hnd.
    + unfold suffixesBelowCounter in *. rewrite Hcnt. intros c0 Ec Hlt n Hin.
      apply (Hs c0 Ec Hlt). apply deleteSelected_nodes in Hin. tauto.
  - unfold organizeNodes. destruct (_ =? 0)%nat; [exact Hg|].
    match goal with |- _ /\ suffixesBelowCounter ?g' =>
      apply (distinct_keep g g'); [|reflexivity|exact Hg] end.
    simpl. apply nodeIds_mapIndexed_same. reflexivity.
Qed.

Lemma distinct_run (cs : list Command) (g : Graph) :
  forallb (fun c => negb (isDuplicate c)) cs = true ->
  safeRun cs g = true ->
  NoDup (nodeIds (nodes g)) /\ suffixesBelowCounter g ->
  NoDup (nodeIds (nodes (run cs g))).
Proof.
  revert g. induction cs as [|c cs IH]; simpl; intros g Hcs Hsafe Hg; [exact (proj1 Hg)|].
  apply andb_prop in Hcs as [Hc Hcs]. apply negb_true_iff in Hc.
  apply andb_prop in Hsafe as [Hx Hsafe].
  apply (IH _ Hcs Hsafe). apply distinct_exec; [exact Hc| |exact Hg].
  destruct (idNumber c g); [exact Hx|exact I].
Qed.

(** A call of [loadCanvasData] that gets no canvas leaves the graph store
    as it was. *)
Lemma loadCanvasData_graph_kept (call : LoadCall) (canvasId : option string)
  (s : Session) (w : Backend) :
  loadSetsGraph canvasId w = false ->
  graph (fst (loadCanvasData call canvasId s w)) = graph s.
Proof.
  unfold loadSetsGraph, loadCanvasData.
  destruct (canvasOperations.loadCanvas _ _ w) as [[[cd|]|e] w1]; cbn [fst];
    [discriminate|..]; intros _; destruct (Js.truthy canvasId); reflexivity.
Qed.

(** X1. Without the duplicate command node ids stay pairwise distinct.
    Take the graph store a call of [loadCanvasData] leaves, having got a
    canvas or having found the store empty-handed on the mounted
    component: if its ids are distinct, every sequence of node creations,
    connections, selections, deletions and re-arrangements in which the
    counter stays below 2^53 leaves a canvas with distinct node ids. *)
Theorem ids_stay_distinct_without_duplicate (call : LoadCall)
  (canvasId : option string) (s : Session) (w : Backend) (cs : list Command) :
  loadSetsGraph canvasId w = true \/ graph s = emptyGraph ->
  let g := graph (fst (loadCanvasData call canvasId s w)) in
  NoDup (nodeIds (nodes g)) ->
  forallb (fun c => negb (isDuplicate c)) cs = true ->
  safeRun cs g = true ->
  NoDup (nodeIds (nodes (run cs g))).
Proof.
  intros Hload g Hnd Hcs Hsafe. apply distinct_run; [exact Hcs|exact Hsafe|].
  split; [exact Hnd|]. subst g. unfold suffixesBelowCounter.
  destruct (loadSetsGraph canvasId w) eqn:E.
  - unfold loadSetsGraph in E.
    destruct (fst (canvasOperations.loadCanvas (keepTruthy canvasId) "My Canvas" w))
      as [[cd|]|e] eqn:El; try discriminate.
    rewrite (loadCanvasData_graph call canvasId s w cd El).
    apply suffixesBelow_seed.
  - destruct Hload as [Hload|Hload]; [discriminate|].
    rewrite (loadCanvasData_graph_kept call canvasId s w E), Hload.
    intros c _ _ n [].
Qed.

End DistinctIds.

(** The canvas with the node text-1 is loaded; two creations, select-all,
    delete, and one more creation follow. *)
Lemma ids_stay_distinct_without_duplicate_witness :
  let cs := (twoSelectedTexts
             ++ [DeleteSelected; CreateNode homeViewport "text" (at_ 0 0)])%list in
  let g := graph (fst (loadCanvasData SecondLoad None mounted oneCanvasStore)) in
  @safeRun unitZoomFlow cs g = true
  /\ nodeIds (nodes (@run unitZoomFlow cs g)) = ["text-4"]
  /\ NoDup (nodeIds (nodes (@run unitZoomFlow cs g))).
Proof.
  intros cs g. split; [reflexivity|]. split; [reflexivity|].
  apply (@ids_stay_distinct_without_duplicate unitZoomFlow SecondLoad None mounted
           oneCanvasStore cs (or_introl eq_refl)).
  - repeat constructor. intros [].
  - reflexivity.
  - reflexivity.
Defined.

(** X2. Select-all followed by delete clears the canvas: no node is left,
    and on a canvas without dangling edges no edge is left either; the id
    counter is not reset. *)
Theorem select_all_then_delete_clears (g : Graph) :
  nodes (deleteSelected (selectAll g)) = []
  /\ (danglingFree g = true -> edges (deleteSelected (selectAll g)) = [])
  /\ nodeIdCounter (deleteSelected (selectAll g)) = nodeIdCounter g.
Proof.
  assert (Hids : selectedNodeIds (nodes (selectAll g)) = nodeIds (nodes g)).
  { unfold selectedNodeIds, selectAll. simpl.
    rewrite filter_all by (intros a Ha; apply in_map_iff in Ha as (n & <- & _); reflexivity).
    apply nodeIds_map_same. reflexivity. }
  destruct (deleteSelected_unfold (selectAll g)) as (Hn & He & Hc).
  rewrite Hids in Hn, He. split; [|split].
  - rewrite Hn. simpl.
    assert (forall l, (forall n, In n l -> In (Node.id n) (nodeIds (nodes g))) ->
              filter (fun node => negb (Js.includes (nodeIds (nodes g)) (Node.id node))) l = []).
    { induction l as [|a l IH]; simpl; intros H; [reflexivity|].
      rewrite (proj2 (includes_In _ _) (H a (or_introl eq_refl))). simpl. auto. }
    apply H. intros n Hin. apply in_map_iff in Hin as (m & <- & Hm).
    simpl. apply in_map, Hm.
  - intros Hd. rewrite He. simpl.
    rewrite danglingFree_spec in Hd. induction (edges g) as [|e l IH]; simpl; [reflexivity|].
    destruct (Hd e (or_introl eq_refl)) as [Hs _].
    rewrite (proj2 (includes_In _ _) Hs). simpl.
    apply IH. intros e' He'. apply Hd. right. exact He'.
  - exact Hc.
Qed.

(** X3. After delete-selected no node is selected, so pressing delete a
    second time changes nothing; and with nothing selected the command
    leaves the graph as it is, edges that dangle included. *)
Theorem delete_selected_is_idempotent (g : Graph) :
  filter Node.selected (nodes (deleteSelected g)) = []
  /\ deleteSelected (deleteSelected g) = deleteSelected g
  /\ (filter Node.selected (nodes g) = [] -> deleteSelected g = g).
Proof.
  assert (Hnone : forall h, filter Node.selected (nodes h) = [] -> deleteSelected h = h).
  { intros h Hh. unfold deleteSelected, selectedNodeIds. rewrite Hh. reflexivity. }
  assert (Hleft : filter Node.selected (nodes (deleteSelected g)) = []).
  { destruct (filter Node.selected (nodes (deleteSelected g))) as [|n l] eqn:E; [reflexivity|].
    exfalso.
    assert (Hn : In n (filter Node.selected (nodes (deleteSelected g))))
      by (rewrite E; left; reflexivity).
    apply filter_In in Hn as [Hin Hsel].
    apply deleteSelected_nodes in Hin as [Hin Hnot].
    apply Hnot. apply selectedNodeIds_In. eauto. }
  split; [exact Hleft|]. split; [apply Hnone, Hleft|apply Hnone].
Qed.

(** X4. Connecting is idempotent: repeating a connection, in either theme,
    leaves the graph exactly as the first connection left it. *)
Theorem connect_twice_is_connect_once (isDarkMode isDarkMode' : bool)
  (connection : Connection.t) (g : Graph) :
  onConnect isDarkMode' connection (onConnect isDarkMode connection g)
  = onConnect isDarkMode connection g.
Proof.
  assert (Hh : forall h, sameHandle h h = true)
    by (intros [h|]; unfold sameHandle; simpl; [rewrite String.eqb_refl|]; reflexivity).
  unfold onConnect, setEdges, addEdge. simpl.
  destruct (negb (Js.truthy (Connection.source connection))
            || negb (Js.truthy (Connection.target connection))) eqn:E; simpl; [reflexivity|].
  match goal with |- context [connectionExists ?e (edges g)] =>
    destruct (connectionExists e (edges g)) eqn:Ex end.
  - unfold connectionExists in *. simpl in *. rewrite Ex. reflexivity.
  - match goal with |- context [connectionExists ?e (?l ++ [?e'])%list] =>
      assert (Hex : connectionExists e (l ++ [e'])%list = true) end.
    { unfold connectionExists. rewrite existsb_app. simpl.
      rewrite !String.eqb_refl, !Hh. simpl. apply orb_true_r. }
    rewrite Hex. reflexivity.
Qed.

(* ------------------------------------------------------------------ *)
(** ** Auto-arrange                                                     *)
(* ------------------------------------------------------------------ *)

Lemma nth_error_mapIndexed {A B} (f : A -> nat -> B) (s : nat) (l : list A) (i : nat) :
  nth_error (mapIndexed f s l) i = option_map (fun a => f a (s + i)) (nth_error l i).
Proof.
  revert s i. induction l as [|a l IH]; intros s [|i]; simpl; try reflexivity.
  - rewrite Nat.add_0_r. reflexivity.
  - rewrite IH. f_equal. replace (S s + i) with (s + S i) by lia. reflexivity.
Qed.

Lemma length_mapIndexed {A B} (f : A -> nat -> B) (s : nat) (l : list A) :
  List.length (mapIndexed f s l) = List.length l.
Proof. revert s. induction l; intro s; simpl; auto. Qed.

Lemma mapIndexed_ext {A B} (f g : A -> nat -> B) (s : nat) (l : list A) :
  (forall a i, f a i = g a i) -> mapIndexed f s l = mapIndexed g s l.
Proof. intros H. revert s. induction l; intro s; simpl; [|rewrite H, IHl]; reflexivity. Qed.

Lemma mapIndexed_twice {A} (f : A -> nat -> A) (s : nat) (l : list A) :
  (forall a i, f (f a i) i = f a i) ->
  mapIndexed f s (mapIndexed f s l) = mapIndexed f s l.
Proof. intros H. revert s. induction l; intro s; simpl; [|rewrite H, IHl]; reflexivity. Qed.

Lemma ceilSqrt_pos (n : nat) : 0 < n -> 0 < ceilSqrt n.
Proof.
  unfold ceilSqrt. intros Hn. destruct (Nat.sqrt n * Nat.sqrt n =? n)%nat eqn:E; [|lia].
  apply Nat.eqb_eq in E. destruct (Nat.sqrt n); simpl in *; lia.
Qed.

Lemma mapIndexed_moves_only (p : nat -> XYPosition) (q : XYPosition) (s : nat)
  (l : list Node.t) :
  map (setPosition q) (mapIndexed (fun node index => setPosition (p index) node) s l)
  = map (setPosition q) l.
Proof. revert s. induction l as [|a l IH]; intro s; simpl; [|rewrite IH]; reflexivity. Qed.

(** Grid cells of different indices are a full step apart. *)
Lemma grid_cells_apart (cols i j : nat) (startX startY : Z) :
  0 < cols -> i <> j ->
  gridApart {| x := startX + Z.of_nat (i mod cols) * 300;
               y := startY + Z.of_nat (i / cols) * 300 |}
            {| x := startX + Z.of_nat (j mod cols) * 300;
               y := startY + Z.of_nat (j / cols) * 300 |}.
Proof.
  intros Hc Hij. unfold gridApart. simpl.
  pose proof (Nat.div_mod_eq i cols). pose proof (Nat.div_mod_eq j cols).
  destruct (Nat.eq_dec (i mod cols) (j mod cols)) as [E|E].
  - right. assert (i / cols <> j / cols) by (intro E'; rewrite E, E' in *; lia). lia.
  - left. lia.
Qed.

(** X5. Auto-arrange moves nodes and nothing else: ids, selection flags,
    payloads, edges and the counter stay, the node order stays. Any two
    nodes of the arranged canvas are a full grid step (300) apart in x or
    in y, so no two boxes of 250 by 150 overlap; and arranging an arranged
    canvas changes nothing. *)
Theorem organize_places_nodes_apart (g : Graph) :
  map (setPosition (at_ 0 0)) (nodes (organizeNodes g))
    = map (setPosition (at_ 0 0)) (nodes g)
  /\ edges (organizeNodes g) = edges g
  /\ nodeIdCounter (organizeNodes g) = nodeIdCounter g
  /\ (forall i j n m, i <> j ->
        nth_error (nodes (organizeNodes g)) i = Some n ->
        nth_error (nodes (organizeNodes g)) j = Some m ->
        gridApart (Node.position n) (Node.position m))
  /\ organizeNodes (organizeNodes g) = organizeNodes g.
Proof.
  unfold organizeNodes.
  destruct (List.length (nodes g)) as [|k] eqn:En.
  { simpl. rewrite En. simpl.
    destruct (nodes g); [|discriminate]. repeat split; auto.
    intros [|i] [|j] n m _ H; discriminate. }
  cbn [Nat.eqb]. cbv zeta.
  set (cols := ceilSqrt (S k)).
  assert (Hcols : 0 < cols) by (apply ceilSqrt_pos; lia).
  split; [|split; [reflexivity|split; [reflexivity|split]]].
  - cbn [nodes setNodes]. apply mapIndexed_moves_only.
  - intros i j n m Hij Hn Hm. cbn [nodes setNodes] in Hn, Hm.
    rewrite nth_error_mapIndexed in Hn, Hm. simpl in Hn, Hm.
    destruct (nth_error (nodes g) i); [|discriminate].
    destruct (nth_error (nodes g) j); [|discriminate].
    injection Hn as <-. injection Hm as <-. simpl.
    apply grid_cells_apart; assumption.
  - cbn [nodes setNodes edges nodeIdCounter]. rewrite length_mapIndexed, En.
    cbn [Nat.eqb]. cbv zeta. fold cols. unfold setNodes. simpl. f_equal.
    apply mapIndexed_twice. reflexivity.
Qed.

(* ------------------------------------------------------------------ *)
(** ** Marquee: small rectangles and the drawn box                      *)
(* ------------------------------------------------------------------ *)

Section MarqueeEdge.
Context {RF : ReactFlowInstance}.

End MarqueeEdge.


(** X8. The box drawn during a drag is the screen rectangle the marquee
    converts: its top-left corner and its corner at (left + width,
    top + height) are the two points [handleMouseMove] passes to
    [screenToFlowPosition], whatever the drag direction; width and height
    are never negative. *)
Theorem selection_box_is_the_marquee_rectangle {RF : ReactFlowInstance}
  (flow : Viewport) (start mouse : XYPosition) :
  let box := SelectionBox start mouse in
  flowStartOf flow start mouse
    = screenToFlowPosition flow {| x := left box; y := top box |}
  /\ flowEndOf flow start mouse
    = screenToFlowPosition flow {| x := left box + width box;
                                   y := top box + height box |}
  /\ (0 <= width box /\ 0 <= height box)%Z
  /\ SelectionBox mouse start = box.
Proof.
  unfold SelectionBox, flowStartOf, flowEndOf. simpl.
  repeat split; try lia.
  - f_equal. f_equal; lia.
  - f_equal; lia.
Qed.

(* ------------------------------------------------------------------ *)
(** ** What the scaffold is given                                       *)
(* ------------------------------------------------------------------ *)

Lemma findNode_Some_iff (nds : list Node.t) (i : string) :
  (exists n, findNode nds i = Some n) <-> In i (nodeIds nds).
Proof.
  unfold findNode, nodeIds. induction nds as [|a l IH]; simpl.
  - split; [intros [n H]; discriminate|tauto].
  - destruct (String.eqb (Node.id a) i) eqn:E.
    + apply String.eqb_eq in E. split; eauto.
    + apply String.eqb_neq in E. rewrite IH. tauto.
Qed.

Lemma findNode_found (nds : list Node.t) (i : string) (n : Node.t) :
  findNode nds i = Some n -> In n nds /\ Node.id n = i.
Proof.
  unfold findNode. intros H. apply find_some in H as [Hin E].
  apply String.eqb_eq in E. auto.
Qed.

(** X17. The scaffold receives one connection for each edge whose two
    endpoints are on the canvas and none for any other edge, each running
    between the centres (position + (125, 75)) of nodes that carry the
    edge's source and target ids; on a canvas without dangling edges that
    is one connection per edge. *)
Theorem scaffold_connections_follow_attached_edges (g : Graph) :
  List.length (connections g) = List.length (filter (attached (nodes g)) (edges g))
  /\ (danglingFree g = true -> List.length (connections g) = List.length (edges g))
  /\ (forall c, In c (connections g) ->
        exists e s t, In e (edges g) /\ In s (nodes g) /\ In t (nodes g)
                      /\ Node.id s = Edge.source e /\ Node.id t = Edge.target e
                      /\ c = (centerOf s, centerOf t)).
Proof.
  unfold connections.
  assert (Hone : forall e,
            (exists c, connectionOf (nodes g) e = Some c) <-> attached (nodes g) e = true).
  { intros e. unfold connectionOf, attached.
    rewrite andb_true_iff, !includes_In, <- !findNode_Some_iff.
    destruct (findNode (nodes g) (Edge.source e)), (findNode (nodes g) (Edge.target e));
      split; try (intros [c H]; discriminate); eauto;
      try (intros [[n H] [n' H']]; discriminate). }
  assert (Hlen : List.length (filterBoolean (map (connectionOf (nodes g)) (edges g)))
                 = List.length (filter (attached (nodes g)) (edges g))).
  { induction (edges g) as [|e l IH]; simpl; [reflexivity|].
    destruct (connectionOf (nodes g) e) as [c|] eqn:E.
    - rewrite (proj1 (Hone e)) by eauto. simpl. rewrite IH. reflexivity.
    - destruct (attached (nodes g) e) eqn:Ea; [|exact IH].
      apply Hone in Ea as [c Hc]. congruence. }
  split; [exact Hlen|]. split.
  - intros Hd. rewrite Hlen. unfold danglingFree in Hd.
    rewrite filter_all; [reflexivity|]. apply forallb_forall. exact Hd.
  - clear Hlen. intros c. induction (edges g) as [|e l IH]; simpl; [tauto|].
    destruct (connectionOf (nodes g) e) as [c'|] eqn:E.
    + intros [<-|Hin].
      * unfold connectionOf in E.
        destruct (findNode (nodes g) (Edge.source e)) as [s|] eqn:Es; [|discriminate].
        destruct (findNode (nodes g) (Edge.target e)) as [t|] eqn:Et; [|discriminate].
        injection E as <-. apply findNode_found in Es as [? ?].
        apply findNode_found in Et as [? ?]. exists e, s, t. auto 10.
      * destruct (IH Hin) as (e' & s & t & H & H'). exists e', s, t. auto.
    + intros Hin. destruct (IH Hin) as (e' & s & t & H & H'). exists e', s, t. auto.
Qed.
(* ------------------------------------------------------------------ *)
(** ** The save-time label                                              *)
(* ------------------------------------------------------------------ *)

Lemma toString_head (k : N) :
  (k < Js.two53)%N ->
  exists c s, Js.toString (Js.Finite k) = String c s /\ Js.isDigit c = true
              /\ Js.allDigits (Js.toString (Js.Finite k)) = true.
Proof.
  intros Hk. rewrite toString_safe by exact Hk.
  pose proof (digits_nonempty k) as Hne. pose proof (digits_allDigits k) as Hd.
  destruct (Js.digits k) as [|c s]; [discriminate|].
  pose proof Hd as Hd'. simpl in Hd'. apply andb_prop in Hd' as [Hc _]. eauto.
Qed.

Lemma takeDigits_app (ds r : string) :
  Js.allDigits ds = true -> takeDigits (ds ++ String "m" r) = (ds, String "m" r).
Proof.
  induction ds as [|c ds IH]; simpl; intros H; [reflexivity|].
  apply andb_prop in H as [Hc Hd]. rewrite Hc, (IH Hd). reflexivity.
Qed.

Lemma matchDigitsM_minutes (k : N) :
  (k < Js.two53)%N ->
  matchDigitsM (Js.toString (Js.Finite k) ++ "m ago") = Some (Js.toString (Js.Finite k)).
Proof.
  intros Hk. destruct (toString_head k Hk) as (c & s & E & Hc & Hd).
  pose proof (takeDigits_app (Js.toString (Js.Finite k)) " ago" Hd) as Ht.
  change ("m ago") with (String "m" " ago"). rewrite E in *.
  change (String c s ++ String "m" " ago") with (String c (s ++ String "m" " ago")) in *.
  cbn [matchDigitsM]. rewrite Hc, Ht. reflexivity.
Qed.

Lemma prefix_refl (s : string) : String.prefix s s = true.
Proof.
  induction s as [|a s IH]; simpl; [reflexivity|].
  destruct (ascii_dec a a); [exact IH|congruence].
Qed.

Lemma includesText_suffix (sub ds : string) :
  includesText sub (ds ++ sub) = true.
Proof.
  induction ds as [|c ds IH].
  - change ("" ++ sub) with sub. destruct sub as [|c s]; [reflexivity|].
    cbn [includesText]. rewrite prefix_refl. reflexivity.
  - change (String c ds ++ sub) with (String c (ds ++ sub)).
    cbn [includesText]. rewrite IH. apply orb_true_r.
Qed.

Lemma updateTime_minutes (k : N) :
  (k < Js.two53)%N ->
  updateTime (Js.toString (Js.Finite k) ++ "m ago")
  = if (k <? 60)%N then Js.toString (Js.Finite (k + 1)) ++ "m ago" else "1h ago".
Proof.
  intros Hk. unfold updateTime.
  assert (Hneq : String.eqb (Js.toString (Js.Finite k) ++ "m ago") "just now" = false).
  { destruct (toString_head k Hk) as (c & s & -> & Hc & _). simpl.
    destruct (Ascii.eqb c "j") eqn:E; [|reflexivity].
    apply Ascii.eqb_eq in E. subst c. discriminate. }
  rewrite Hneq, includesText_suffix, (matchDigitsM_minutes k Hk).
  unfold Js.orElse.
  assert (Hne : Js.isEmpty (Js.toString (Js.Finite k)) = false).
  { destruct (toString_head k Hk) as (c & s & -> & _). reflexivity. }
  rewrite Hne, (parseInt_toString k Hk). cbn [Js.ltb].
  destruct (k <? 60)%N eqn:E; [|reflexivity].
  apply N.ltb_lt in E. rewrite add_safe by (unfold Js.two53; lia). reflexivity.
Qed.

(** X7. The relabeling tick counts minutes up to sixty and then stops:
    k ticks after a save the label reads "k m ago" for k from 1 to 60, from
    the 61st tick on it reads "1h ago" for good; the labels "never" and
    "error" are left alone. *)
Theorem save_label_counts_minutes_then_stops :
  (forall k, 1 <= k <= 60 ->
     Nat.iter k updateTime "just now"
     = Js.toString (Js.Finite (N.of_nat k)) ++ "m ago")
  /\ (forall k, 61 <= k -> Nat.iter k updateTime "just now" = "1h ago")
  /\ updateTime "never" = "never"
  /\ updateTime "error" = "error".
Proof.
  assert (Hmin : forall k, 1 <= k <= 60 ->
            Nat.iter k updateTime "just now"
            = Js.toString (Js.Finite (N.of_nat k)) ++ "m ago").
  { induction k as [|k IH]; intros Hk; [lia|].
    destruct k as [|k]; [reflexivity|].
    change (Nat.iter (S (S k)) updateTime "just now")
      with (updateTime (Nat.iter (S k) updateTime "just now")).
    rewrite IH by lia. rewrite updateTime_minutes by (unfold Js.two53; lia).
    assert (Hlt : (N.of_nat (S k) <? 60)%N = true) by (apply N.ltb_lt; lia).
    rewrite Hlt. replace (N.of_nat (S k) + 1)%N with (N.of_nat (S (S k))) by lia.
    reflexivity. }
  split; [exact Hmin|]. split; [|split; reflexivity].
  intros k Hk. replace k with ((k - 61) + 61) by lia.
  induction (k - 61) as [|d IH].
  - change (Nat.iter (0 + 61) updateTime "just now")
      with (updateTime (Nat.iter 60 updateTime "just now")).
    rewrite Hmin by lia. rewrite updateTime_minutes by reflexivity. reflexivity.
  - change (Nat.iter (S d + 61) updateTime "just now")
      with (updateTime (Nat.iter (d + 61) updateTime "just now")).
    rewrite IH. reflexivity.
Qed.
(* ================================================================== *)
(** * Further properties of the store operations                        *)
(* ================================================================== *)

Lemma mapWhere_In {A} (p : A -> bool) (f : A -> A) (l : list A) (r : A) :
  In r (mapWhere p f l) -> p r = true -> exists a, In a l /\ p a = true /\ r = f a.
Proof.
  intros Hin Hr. unfold mapWhere in Hin. apply in_map_iff in Hin as (a & E & Ha).
  destruct (p a) eqn:Ea.
  - eauto.
  - subst r. congruence.
Qed.

Lemma mapWhere_none {A} (p : A -> bool) (f : A -> A) (l : list A) :
  existsb p l = false -> mapWhere p f l = l.
Proof.
  unfold mapWhere. induction l as [|a l IH]; simpl; intros H; [reflexivity|].
  apply orb_false_elim in H as [-> H]. rewrite IH by exact H. reflexivity.
Qed.

Lemma single_Data {A} (l : list A) (r : A) : single l = Data r -> l = [r].
Proof. destruct l as [|a [|b l]]; simpl; intros H; inversion H. reflexivity. Qed.

Lemma withCanvases_same (w : Backend) : withCanvases (canvases (db w)) w = w.
Proof. destruct w as [[rows shares] c n o r]. reflexivity. Qed.

Section StoreFacts.
Context {P : Platform}.

Lemma writeRow_hasId (i : string) (p : SavePayload.t) (now : nat) (a : CanvasData.t) :
  hasId i (writeRow p now a) = hasId i a.
Proof. reflexivity. Qed.

Lemma writeRow_owned (p : SavePayload.t) (now : nat) (a : CanvasData.t) :
  ownedAs (SavePayload.user_id p) (SavePayload.canvas_name p) (writeRow p now a) = true.
Proof. unfold ownedAs. simpl. rewrite !String.eqb_refl. reflexivity. Qed.

(** What a resolved [saveCanvas] leaves in the table: the row it returns
    is the only row under its key (the id when one was given, owner and
    name otherwise) and carries the payload. *)
Lemma saveCanvas_resolved (a : SaveArgs.t) (w w1 : Backend) (r : CanvasData.t) :
  canvasOperations.saveCanvas a w = (Resolved r, w1) ->
  let p := canvasOperations.dataToSave a (clock w) in
  CanvasData.user_id r = SavePayload.user_id p
  /\ CanvasData.canvas_name r = SavePayload.canvas_name p
  /\ CanvasData.nodes r = map storedNode (SavePayload.nodes p)
  /\ CanvasData.edges r = SavePayload.edges p
  /\ CanvasData.viewport r = SavePayload.viewport p
  /\ (if Js.truthy (SaveArgs.canvasId a)
      then filter (hasId (handleText (SaveArgs.canvasId a))) (canvases (db w1)) = [r]
      else filter (ownedAs (SavePayload.user_id p) (SavePayload.canvas_name p))
                  (canvases (db w1)) = [r]).
Proof.
  intros H p. unfold canvasOperations.saveCanvas in H. cbv zeta in H. fold p in H.
  destruct (Js.truthy (SaveArgs.canvasId a)).
  - unfold dataOf, updateCanvasQuery in H.
    destruct (dropped w); [discriminate|].
    destruct (_ && _); [discriminate|].
    set (i := handleText (SaveArgs.canvasId a)) in *.
    set (now := clock (transmit (UpdateCanvas i p) w)) in *.
    set (rows := canvases (db (transmit (UpdateCanvas i p) w))) in *.
    destruct (single (filter (hasId i) (mapWhere (hasId i) (writeRow p now) rows)))
      as [r'|e] eqn:Es; [|discriminate].
    injection H as -> <-. apply single_Data in Es.
    assert (Hin : In r (filter (hasId i) (mapWhere (hasId i) (writeRow p now) rows)))
      by (rewrite Es; left; reflexivity).
    apply filter_In in Hin as [Hin Hid].
    apply mapWhere_In in Hin as (a0 & _ & _ & ->); [|exact Hid].
    simpl. repeat split. exact Es.
  - unfold dataOf, upsertCanvasQuery in H.
    destruct (dropped w); [discriminate|].
    set (mine := ownedAs (SavePayload.user_id p) (SavePayload.canvas_name p)) in *.
    set (now := clock (transmit (UpsertCanvas p) w)) in *.
    set (rows := canvases (db (transmit (UpsertCanvas p) w))) in *.
    destruct (existsb mine rows) eqn:Ex.
    + destruct (single (filter mine (mapWhere mine (writeRow p now) rows)))
        as [r'|e] eqn:Es; [|discriminate].
      injection H as -> <-. apply single_Data in Es.
      assert (Hin : In r (filter mine (mapWhere mine (writeRow p now) rows)))
        by (rewrite Es; left; reflexivity).
      apply filter_In in Hin as [Hin Hm].
      apply mapWhere_In in Hin as (a0 & _ & _ & ->); [|exact Hm].
      simpl. repeat split. exact Es.
    + injection H as <- <-. simpl. repeat split.
      rewrite filter_app, (filter_none _ _ Ex). simpl.
      unfold mine, ownedAs. simpl. rewrite !String.eqb_refl. reflexivity.
Qed.

Lemma dataToSave_user (a : SaveArgs.t) (now : nat) :
  SavePayload.user_id (canvasOperations.dataToSave a now) = defaultUser
  /\ SavePayload.nodes (canvasOperations.dataToSave a now) = SaveArgs.nodes a
  /\ SavePayload.edges (canvasOperations.dataToSave a now) = SaveArgs.edges a
  /\ SavePayload.viewport (canvasOperations.dataToSave a now) = SaveArgs.viewport a.
Proof. repeat split. Qed.

Lemma storedNode_plain (nds : list Node.t) :
  (forall n, In n nds ->
     JSON_image (payload (Node.data n)) = payload (Node.data n)) ->
  map storedNode nds = nds.
Proof.
  induction nds as [|n nds IH]; simpl; intros H; [reflexivity|].
  rewrite IH by auto. f_equal. unfold storedNode.
  rewrite (H n (or_introl eq_refl)). destruct n as [i t p s [ti ac pl]]. reflexivity.
Qed.

(** X9. Save and load round trip: when [saveCanvas] resolves, the row it
    returns holds the edges and viewport that were passed in and the nodes
    as the jsonb column gives them back: ids, types, positions, flags and
    titles as passed, the rest of the data in its JSON image; they are the
    nodes passed in when that data has nothing JSON would drop or alter. A
    following [loadCanvas] that reaches the store returns that very row as
    the user's own canvas: by the id when the save was given one, by the
    saved name otherwise. *)
Theorem save_then_load_returns_what_was_saved (a : SaveArgs.t) (w w1 : Backend)
  (r : CanvasData.t) (name : string) :
  canvasOperations.saveCanvas a w = (Resolved r, w1) ->
  dropped w1 = false ->
  (CanvasData.nodes r = map storedNode (SaveArgs.nodes a)
   /\ map (fun n => (Node.id n, Node.type n, Node.position n, Node.selected n,
                     title (Node.data n), isActive (Node.data n)))
          (CanvasData.nodes r)
      = map (fun n => (Node.id n, Node.type n, Node.position n, Node.selected n,
                       title (Node.data n), isActive (Node.data n)))
            (SaveArgs.nodes a)
   /\ ((forall n, In n (SaveArgs.nodes a) ->
          JSON_image (payload (Node.data n)) = payload (Node.data n)) ->
       CanvasData.nodes r = SaveArgs.nodes a)
   /\ CanvasData.edges r = SaveArgs.edges a
   /\ CanvasData.viewport r = SaveArgs.viewport a)
  /\ (if Js.truthy (SaveArgs.canvasId a)
      then fst (canvasOperations.loadCanvas (SaveArgs.canvasId a) name w1)
           = Resolved (Some (ownedCanvas r))
      else fst (canvasOperations.loadCanvas None (CanvasData.canvas_name r) w1)
           = Resolved (Some (ownedCanvas r))).
Proof.
  intros Hsave Hnet.
  destruct (saveCanvas_resolved a w w1 r Hsave) as (Hu & Hn & Hnodes & Hedges & Hv & Hrow).
  destruct (dataToSave_user a (clock w)) as (Hdu & Hdn & Hde & Hdv).
  split.
  { rewrite Hnodes, Hedges, Hv, Hdn. split; [reflexivity|].
    split; [rewrite map_map; reflexivity|].
    split; [apply storedNode_plain|auto]. }
  assert (Howner : negb (String.eqb (CanvasData.user_id r) defaultUser) = false).
  { rewrite Hu, Hdu, String.eqb_refl. reflexivity. }
  destruct (Js.truthy (SaveArgs.canvasId a)) eqn:Et.
  - unfold canvasOperations.loadCanvas. rewrite Et.
    unfold andThen, dataOf, selectCanvasByIdQuery. rewrite Hnet.
    change (canvases (db (transmit _ w1))) with (canvases (db w1)).
    rewrite Hrow. simpl. rewrite Howner. reflexivity.
  - unfold canvasOperations.loadCanvas. simpl.
    unfold andThen, dataOf, selectCanvasByNameQuery. rewrite Hnet.
    change (canvases (db (transmit _ w1))) with (canvases (db w1)).
    rewrite Hn, <- Hdu. rewrite Hrow. reflexivity.
Qed.

End StoreFacts.

(** The first save of a canvas with a document node into the empty store,
    then a load by name: the node comes back without its undefined page
    count. *)
Lemma save_then_load_returns_what_was_saved_witness :
  let doc := {| Node.id := "document-1"; Node.type := Some "documentNode";
                Node.position := at_ 0 0; Node.selected := false;
                Node.data := initialData "document" |} in
  let a := saveArgs [doc] [] homeViewport "Sketch" None None in
  let saved := @canvasOperations.saveCanvas samplePlatform a emptyStore in
  exists r,
    saved = (Resolved r, snd saved)
    /\ map (fun n => includesText "pageCount" (payload (Node.data n)))
           (CanvasData.nodes r) = [false]
    /\ fst (canvasOperations.loadCanvas None "Sketch" (snd saved))
       = Resolved (Some (ownedCanvas r)).
Proof.
  intros doc a saved. eexists. split; [|split].
  - vm_compute. reflexivity.
  - vm_compute. reflexivity.
  - exact (proj2 (@save_then_load_returns_what_was_saved samplePlatform a emptyStore
                    (snd saved) _ "Sketch" eq_refl eq_refl)).
Defined.

Lemma selectSharePermission_found (canvasId userId : string) (w w1 : Backend)
  (perm : Permission) :
  selectSharePermissionQuery canvasId userId w = (Data (Some perm), w1) ->
  exists s, In s (canvas_shares (db w))
            /\ sharedWith canvasId userId s = true
            /\ SharedCanvas.permission s = perm.
Proof.
  unfold selectSharePermissionQuery. destruct (dropped w); [discriminate|].
  change (canvas_shares (db (transmit (SelectSharePermission canvasId userId) w)))
    with (canvas_shares (db w)).
  fold (sharedWith canvasId userId).
  destruct (filter (sharedWith canvasId userId) (canvas_shares (db w)))
    as [|s [|s' l]] eqn:Es; simpl; intros H; try discriminate.
  injection H as <- _.
  assert (Hs : In s (filter (sharedWith canvasId userId) (canvas_shares (db w))))
    by (rewrite Es; left; reflexivity).
  apply filter_In in Hs as [Hs Hm]. eauto.
Qed.

(** X10. [loadCanvas] hands out a stored row only to its owner or to a
    user it is shared with: if it resolves to an object that carries a
    row, the row is in the table, and either it belongs to the user and
    the object says owner with edit permission, or the object says not
    owner and carries the permission of a share of that canvas with the
    user. *)
Theorem load_returns_only_own_or_shared (canvasId : option string) (name : string)
  (w w1 : Backend) (c : LoadedCanvas.t) (r : CanvasData.t) :
  canvasOperations.loadCanvas canvasId name w = (Resolved (Some c), w1) ->
  LoadedCanvas.row c = Some r ->
  In r (canvases (db w))
  /\ ((CanvasData.user_id r = defaultUser /\ c = ownedCanvas r)
      \/ (CanvasData.user_id r <> defaultUser
          /\ LoadedCanvas.isOwner c = false
          /\ exists s, In s (canvas_shares (db w))
                       /\ sharedWith (CanvasData.id r) defaultUser s = true
                       /\ SharedCanvas.permission s = LoadedCanvas.permission c)).
Proof.
  unfold canvasOperations.loadCanvas. intros H Hrow.
  destruct (Js.truthy canvasId) eqn:Et.
  - unfold andThen, dataOf, selectCanvasByIdQuery in H.
    destruct (dropped w); [discriminate|].
    change (canvases (db (transmit _ w))) with (canvases (db w)) in H.
    set (i := handleText canvasId) in *.
    destruct (filter (hasId i) (canvases (db w))) as [|r0 [|r1 l]] eqn:Ef;
      simpl in H; try discriminate.
    { unfold resolve in H. injection H as <- <-. discriminate. }
    assert (Hin : In r0 (canvases (db w)) /\ hasId i r0 = true).
    { apply filter_In. rewrite Ef. left. reflexivity. }
    destruct Hin as [Hin Hid]. apply String.eqb_eq in Hid.
    destruct (String.eqb (CanvasData.user_id r0) defaultUser) eqn:Eu; simpl in H.
    + unfold resolve in H. injection H as <- <-. simpl in Hrow. injection Hrow as <-.
      apply String.eqb_eq in Eu. auto.
    + destruct (selectSharePermissionQuery i defaultUser (transmit (SelectCanvasById i) w))
        as [[[perm|]|e] w2] eqn:Eq; try discriminate.
      injection H as <- <-. simpl in Hrow. injection Hrow as <-.
      apply selectSharePermission_found in Eq as (s & Hs & Hm & Hp).
      split; [exact Hin|]. right. apply String.eqb_neq in Eu.
      split; [exact Eu|]. split; [reflexivity|].
      exists s. rewrite Hid. auto.
  - unfold andThen, dataOf, selectCanvasByNameQuery in H.
    destruct (dropped w); [discriminate|].
    change (canvases (db (transmit _ w))) with (canvases (db w)) in H.
    destruct (filter (ownedAs defaultUser name) (canvases (db w))) as [|r0 [|r1 l]] eqn:Ef;
      simpl in H; unfold resolve in H; try discriminate.
    injection H as <- <-. simpl in Hrow. injection Hrow as <-.
    assert (Hin : In r0 (canvases (db w)) /\ ownedAs defaultUser name r0 = true).
    { apply filter_In. rewrite Ef. left. reflexivity. }
    destruct Hin as [Hin Ho]. unfold ownedAs in Ho. apply andb_prop in Ho as [Hu _].
    apply String.eqb_eq in Hu. auto.
Qed.

(* ------------------------------------------------------------------ *)
(** ** Retention cleanup                                                *)
(* ------------------------------------------------------------------ *)

Lemma insertByUpdatedAt_In (r x : CanvasData.t) (l : list CanvasData.t) :
  In x (insertByUpdatedAt r l) <-> x = r \/ In x l.
Proof.
  induction l as [|a l IH]; simpl.
  - intuition.
  - destruct (CanvasData.updated_at a <? CanvasData.updated_at r)%nat; simpl.
    + intuition.
    + rewrite IH. intuition.
Qed.

Lemma newestFirst_In (x : CanvasData.t) (l : list CanvasData.t) :
  In x (newestFirst l) <-> In x l.
Proof.
  induction l as [|a l IH]; simpl; [tauto|].
  rewrite insertByUpdatedAt_In, IH. intuition.
Qed.

Lemma insertByUpdatedAt_length (r : CanvasData.t) (l : list CanvasData.t) :
  List.length (insertByUpdatedAt r l) = S (List.length l).
Proof.
  induction l as [|a l IH]; simpl; [reflexivity|].
  destruct (_ <? _)%nat; simpl; [|rewrite IH]; reflexivity.
Qed.

Lemma newestFirst_length (l : list CanvasData.t) :
  List.length (newestFirst l) = List.length l.
Proof.
  induction l as [|a l IH]; simpl; [reflexivity|].
  rewrite insertByUpdatedAt_length, IH. reflexivity.
Qed.

Lemma insertByUpdatedAt_NoDup (r : CanvasData.t) (l : list CanvasData.t) :
  ~ In (CanvasData.id r) (map CanvasData.id l) -> NoDup (map CanvasData.id l) ->
  NoDup (map CanvasData.id (insertByUpdatedAt r l)).
Proof.
  induction l as [|a l IH]; simpl; intros Hr Hnd.
  - constructor; [tauto|constructor].
  - destruct (_ <? _)%nat; simpl.
    + constructor; [exact Hr|exact Hnd].
    + inversion Hnd as [|? ? Ha Hl]; subst. constructor.
      * intros Hin. apply in_map_iff in Hin as (x & Hx & Hin).
        apply insertByUpdatedAt_In in Hin as [->|Hin].
        { apply Hr. left. symmetry. exact Hx. }
        { apply Ha. apply in_map_iff. eauto. }
      * apply IH; [tauto|exact Hl].
Qed.

Lemma newestFirst_NoDup (l : list CanvasData.t) :
  NoDup (map CanvasData.id l) -> NoDup (map CanvasData.id (newestFirst l)).
Proof.
  induction l as [|a l IH]; simpl; intros H; [constructor|].
  inversion H as [|? ? Ha Hl]; subst. apply insertByUpdatedAt_NoDup; [|apply IH, Hl].
  intros Hin. apply Ha. apply in_map_iff in Hin as (x & Hx & Hin).
  apply (proj1 (newestFirst_In _ _)) in Hin. apply in_map_iff. eauto.
Qed.

(** The first row of the ordered list is a most recently updated one. *)
Lemma newestFirst_head (l t : list CanvasData.t) (h x : CanvasData.t) :
  newestFirst l = h :: t -> In x l ->
  CanvasData.updated_at x <= CanvasData.updated_at h.
Proof.
  revert h t x. induction l as [|a l IH]; simpl; intros h t x E Hx; [tauto|].
  destruct (newestFirst l) as [|h' t'] eqn:El.
  - simpl in E. injection E as <- <-.
    destruct Hx as [<-|Hx]; [lia|].
    apply (proj2 (newestFirst_In _ _)) in Hx. rewrite El in Hx. destruct Hx.
  - simpl in E.
    destruct (CanvasData.updated_at h' <? CanvasData.updated_at a)%nat eqn:Elt.
    + injection E as <- <-. apply Nat.ltb_lt in Elt.
      destruct Hx as [<-|Hx]; [lia|]. specialize (IH h' t' x eq_refl Hx). lia.
    + injection E as <- <-. apply Nat.ltb_ge in Elt.
      destruct Hx as [<-|Hx]; [lia|]. exact (IH h' _ x eq_refl Hx).
Qed.

Lemma NoDup_map_In_inj {A B} (f : A -> B) (l : list A) (a b : A) :
  NoDup (map f l) -> In a l -> In b l -> f a = f b -> a = b.
Proof.
  induction l as [|c l IH]; simpl; [tauto|].
  intros Hnd Ha Hb E. inversion Hnd as [|? ? Hnotin Hnd']; subst.
  destruct Ha as [->|Ha], Hb as [->|Hb]; auto.
  - exfalso. apply Hnotin. rewrite E. apply in_map, Hb.
  - exfalso. apply Hnotin. rewrite <- E. apply in_map, Ha.
Qed.

Lemma filter_only {A} (f : A -> bool) (l : list A) (h : A) :
  NoDup l -> In h l -> (forall x, In x l -> (f x = true <-> x = h)) ->
  filter f l = [h].
Proof.
  induction l as [|a l IH]; simpl; [tauto|].
  intros Hnd Hh Hf. inversion Hnd as [|? ? Ha Hl]; subst.
  destruct Hh as [->|Hh].
  - rewrite (proj2 (Hf h (or_introl eq_refl)) eq_refl). f_equal.
    apply filter_none. apply not_true_is_false. intros Hex.
    apply existsb_exists in Hex as (x & Hx & Hfx).
    apply (Hf x (or_intror Hx)) in Hfx. subst x. exact (Ha Hx).
  - destruct (f a) eqn:Efa.
    + apply (Hf a (or_introl eq_refl)) in Efa. subst a. contradiction.
    + apply IH; auto.
Qed.

Lemma filter_filter_comm {A} (f g : A -> bool) (l : list A) :
  filter f (filter g l) = filter g (filter f l).
Proof.
  induction l as [|a l IH]; simpl; [reflexivity|].
  destruct (f a) eqn:Ef, (g a) eqn:Eg; simpl; rewrite ?Ef, ?Eg, IH; reflexivity.
Qed.

Lemma filter_filter_implied {A} (f g : A -> bool) (l : list A) :
  (forall x, In x l -> f x = true -> g x = true) ->
  filter f (filter g l) = filter f l.
Proof.
  induction l as [|a l IH]; simpl; intros H; [reflexivity|].
  destruct (g a) eqn:Eg; simpl.
  - rewrite IH by auto. reflexivity.
  - destruct (f a) eqn:Ef.
    + rewrite (H a (or_introl eq_refl) Ef) in Eg. discriminate.
    + apply IH. auto.
Qed.

Lemma short_list_sorted (l : list CanvasData.t) :
  List.length l <= 1 -> newestFirst l = l /\ firstn 1 l = l.
Proof. destruct l as [|a [|b l]]; simpl; intros H; [auto|auto|lia]. Qed.

Lemma short_list_same {A} (l : list A) (a b : A) :
  List.length l <= 1 -> In a l -> In b l -> a = b.
Proof.
  destruct l as [|c [|d l]]; simpl; intros H Ha Hb; [tauto| |lia].
  destruct Ha as [<-|[]], Hb as [<-|[]]. reflexivity.
Qed.

(** X11. Retention cleanup that reaches the store keeps, of the rows the
    user has under the given name, exactly the one listed first by
    descending update time, which no row it removes was updated after; rows
    under other names or of other users stay as they are. *)
Theorem cleanup_keeps_only_the_newest (name : string) (w : Backend) :
  dropped w = false ->
  dropped (transmit (SelectVersions defaultUser name) w) = false ->
  NoDup (map CanvasData.id (canvases (db w))) ->
  let w' := canvasOperations.cleanupOldVersions name w in
  let mine := ownedAs defaultUser name in
  filter mine (canvases (db w'))
    = firstn 1 (newestFirst (filter mine (canvases (db w))))
  /\ filter (fun r => negb (mine r)) (canvases (db w'))
     = filter (fun r => negb (mine r)) (canvases (db w))
  /\ (forall kept x,
        In kept (canvases (db w')) -> mine kept = true ->
        In x (canvases (db w)) -> mine x = true ->
        CanvasData.updated_at x <= CanvasData.updated_at kept).
Proof.
  intros Hnet1 Hnet2 Hnd w' mine.
  set (rows := canvases (db w)) in *.
  set (l := filter mine rows).
  assert (Hl : NoDup (map CanvasData.id l)) by (apply distinct_after_filter, Hnd).
  assert (Hw' : canvases (db w') = rows /\ List.length l <= 1
                \/ exists h t, newestFirst l = h :: t /\ t <> []
                   /\ canvases (db w')
                      = filter (fun r => negb (Js.includes (map CanvasData.id t)
                                                           (CanvasData.id r))) rows).
  { subst w'. unfold canvasOperations.cleanupOldVersions, selectVersionsQuery.
    rewrite Hnet1.
    change (canvases (db (transmit (SelectVersions defaultUser name) w))) with rows.
    fold mine. fold l.
    destruct (1 <? List.length (newestFirst l))%nat eqn:E.
    - right. apply Nat.ltb_lt in E.
      destruct (newestFirst l) as [|h [|t0 t]] eqn:Es; simpl in E; try lia.
      exists h, (t0 :: t). split; [reflexivity|]. split; [discriminate|].
      unfold deleteCanvasesQuery. rewrite Hnet2. reflexivity.
    - left. apply Nat.ltb_ge in E. rewrite newestFirst_length in E. auto. }
  destruct Hw' as [[Hrows Hlen]|(h & t & Hs & Ht & Hrows)]; rewrite Hrows.
  - fold l. destruct (short_list_sorted l Hlen) as [-> ->].
    split; [reflexivity|]. split; [reflexivity|].
    intros kept x Hk Hmk Hx Hmx.
    assert (Hkl : In kept l) by (apply filter_In; auto).
    assert (Hxl : In x l) by (apply filter_In; auto).
    rewrite (short_list_same l kept x Hlen Hkl Hxl). lia.
  - assert (Hsorted : NoDup (map CanvasData.id (h :: t)))
      by (rewrite <- Hs; apply newestFirst_NoDup, Hl).
    inversion Hsorted as [|? ? Hh Htnd]; subst.
    assert (Hhl : In h l) by (apply newestFirst_In; rewrite Hs; left; reflexivity).
    assert (Hkeep : filter mine
                      (filter (fun r => negb (Js.includes (map CanvasData.id t)
                                                          (CanvasData.id r))) rows) = [h]).
    { rewrite filter_filter_comm. fold l. apply filter_only.
      - apply (NoDup_map_inv CanvasData.id), Hl.
      - exact Hhl.
      - intros x Hx. rewrite negb_true_iff, includes_false. split.
        + intros Hnot. apply (proj2 (newestFirst_In _ _)) in Hx. rewrite Hs in Hx.
          destruct Hx as [<-|Hx]; [reflexivity|].
          exfalso. apply Hnot, in_map, Hx.
        + intros ->. exact Hh. }
    split; [rewrite Hkeep, Hs; reflexivity|]. split.
    + apply filter_filter_implied. intros r Hr Hnm.
      rewrite negb_true_iff, includes_false. intros Hin.
      apply in_map_iff in Hin as (t0 & Hid & Ht0).
      assert (Ht0l : In t0 l) by (apply newestFirst_In; rewrite Hs; right; exact Ht0).
      apply filter_In in Ht0l as [Ht0r Hm0].
      rewrite (NoDup_map_In_inj CanvasData.id rows t0 r Hnd Ht0r Hr Hid) in Hm0.
      rewrite Hm0 in Hnm. discriminate.
    + intros kept x Hk Hmk Hx Hmx.
      assert (Hkh : In kept [h]) by (rewrite <- Hkeep; apply filter_In; auto).
      destruct Hkh as [<-|[]].
      apply (newestFirst_head l t h x Hs). apply filter_In. auto.
Qed.

(** Three versions of "My Canvas" and a canvas of another name: the
    version updated last is kept. *)
Lemma cleanup_keeps_only_the_newest_witness :
  map CanvasData.id
      (filter (ownedAs defaultUser "My Canvas")
              (canvases (db (canvasOperations.cleanupOldVersions "My Canvas"
                               versionedStore))))
  = ["v3"].
Proof.
  assert (Hnd : NoDup (map CanvasData.id (canvases (db versionedStore))))
    by (repeat constructor; simpl; intuition discriminate).
  rewrite (proj1 (cleanup_keeps_only_the_newest "My Canvas" versionedStore
                    eq_refl eq_refl Hnd)).
  reflexivity.
Defined.
(* ================================================================== *)
(** * Further properties of the session                                 *)
(* ================================================================== *)

(** A command that does not set an array anew leaves it as it is. *)
Lemma exec_kept {RF : ReactFlowInstance} (cmd : Command) (g : Graph) :
  (setsNodes cmd g = false -> nodes (exec cmd g) = nodes g)
  /\ (setsEdges cmd g = false -> edges (exec cmd g) = edges g).
Proof.
  destruct cmd; cbn [setsNodes setsEdges exec]; split; try discriminate;
    try (intros _; reflexivity).
  - intros H. apply negb_false_iff, Nat.eqb_eq in H.
    unfold onConnect. cbn [edges setEdges]. revert H. unfold addEdge.
    destruct (_ || _); [reflexivity|].
    destruct (connectionExists _ _); [reflexivity|].
    rewrite length_app. simpl. lia.
  - intros H. unfold deleteSelected, selectedNodeIds.
    apply existsb_filter_nil in H. rewrite H. reflexivity.
  - intros H. unfold deleteSelected, selectedNodeIds.
    apply existsb_filter_nil in H. rewrite H. reflexivity.
  - intros H. unfold duplicateSelectedNodes.
    apply existsb_filter_nil in H. rewrite H. reflexivity.
  - unfold duplicateSelectedNodes. destruct (_ =? _)%nat; reflexivity.
  - intros H. apply negb_false_iff in H. unfold organizeNodes. rewrite H. reflexivity.
  - unfold organizeNodes. destruct (_ =? _)%nat; reflexivity.
Qed.

Section SessionMore.
Context {P : Platform} {RF : ReactFlowInstance}.

Lemma afterRender_kept (nodesSet othersSet : bool) (before s : Session) :
  canvasName (afterRender nodesSet othersSet before s) = canvasName s
  /\ graph (afterRender nodesSet othersSet before s) = graph s
  /\ currentCanvasId (afterRender nodesSet othersSet before s) = currentCanvasId s
  /\ lastSaveDataRef (afterRender nodesSet othersSet before s) = lastSaveDataRef s
  /\ saveState (afterRender nodesSet othersSet before s) = saveState s
  /\ flowViewport (afterRender nodesSet othersSet before s) = flowViewport s.
Proof.
  unfold afterRender, autoSaveEffect, keydownEffect.
  destruct (_ || _), nodesSet;
    repeat match goal with |- context [if ?b then _ else _] => destruct b end;
    repeat split.
Qed.

(** In a loaded session the effects leave a pending save of the state
    they ran in when they ran, and the pending save there was otherwise. *)
Lemma afterRender_pending (nodesSet othersSet : bool) (before s : Session) :
  isLoaded s = true ->
  closureOf (afterRender nodesSet othersSet before s) = closureOf s
  /\ (saveTimeoutRef (afterRender nodesSet othersSet before s) = Some (closureOf s)
      \/ nodesSet || othersSet = false
         /\ sameCanvasId (currentCanvasId before) (currentCanvasId s) = true
         /\ canvasName before = canvasName s
         /\ saveTimeoutRef (afterRender nodesSet othersSet before s) = saveTimeoutRef s).
Proof.
  intros Hl. unfold afterRender, autoSaveEffect.
  destruct nodesSet; cbn [orb isLoaded keydownEffect setKeydownClosure negb].
  - rewrite Hl. cbn [negb]. split; [reflexivity|left; reflexivity].
  - destruct othersSet; cbn [orb].
    + rewrite Hl. cbn [negb]. split; [reflexivity|left; reflexivity].
    + destruct (sameCanvasId _ _) eqn:Ei; cbn [negb orb];
        [|rewrite Hl; cbn [negb]; split; [reflexivity|left; reflexivity]].
      destruct (String.eqb (canvasName before) (canvasName s)) eqn:En; cbn [negb orb];
        [|rewrite Hl; cbn [negb]; split; [reflexivity|left; reflexivity]].
      apply String.eqb_eq in En.
      destruct (negb (Bool.eqb _ _)); [rewrite Hl; cbn [negb]|];
        (split; [reflexivity|]); [left; reflexivity|right; auto].
Qed.

Lemma step_edit (canvasId : option string) (e : Event) (s : Session) (w : Backend) :
  isEdit e = true -> isLoaded s = true ->
  snd (step canvasId e (s, w)) = w
  /\ isLoaded (fst (step canvasId e (s, w))) = true
  /\ (saveTimeoutRef s = Some (closureOf s) ->
      saveTimeoutRef (fst (step canvasId e (s, w)))
      = Some (closureOf (fst (step canvasId e (s, w))))).
Proof.
  intros He Hs. split; [destruct e; try discriminate; reflexivity|].
  split; [apply (step_isLoaded_mono canvasId e (s, w)), Hs|].
  intros Hp. destruct e; try discriminate; cbn [step fst].
  - destruct (afterRender_pending (setsNodes c (graph s)) (setsEdges c (graph s)) s
                (setGraph (exec c (graph s)) s) Hs) as [-> [->|(Hf & _ & _ & ->)]];
      [reflexivity|].
    apply orb_false_elim in Hf as [Hn He']. cbn [saveTimeoutRef setGraph]. rewrite Hp.
    unfold closureOf. cbn [graph setGraph currentCanvasId canvasName].
    rewrite (proj1 (exec_kept c (graph s)) Hn), (proj2 (exec_kept c (graph s)) He').
    reflexivity.
  - exact Hp.
  - destruct (afterRender_pending false true s (setViewport (flowViewport s) s) Hs)
      as [-> [->|(Hf & _)]]; [reflexivity|discriminate].
  - destruct (afterRender_pending false false s (setCanvasName newName s) Hs)
      as [-> [->|(_ & _ & Hn & ->)]]; [reflexivity|].
    cbn [saveTimeoutRef setCanvasName canvasName] in *. rewrite Hp.
    unfold closureOf. cbn [graph currentCanvasId canvasName setCanvasName].
    rewrite Hn. reflexivity.
Qed.

Lemma run_edits (canvasId : option string) (es : list Event) (s : Session)
  (w : Backend) :
  isLoaded s = true -> forallb isEdit es = true ->
  snd (runSession canvasId es (s, w)) = w
  /\ isLoaded (fst (runSession canvasId es (s, w))) = true
  /\ Forall (fun h => snd h = []) (history canvasId es (s, w))
  /\ (saveTimeoutRef s = Some (closureOf s) ->
      saveTimeoutRef (fst (runSession canvasId es (s, w)))
      = Some (closureOf (fst (runSession canvasId es (s, w))))).
Proof.
  revert s. induction es as [|e es IH]; intros s Hs He.
  - simpl. auto.
  - cbn [forallb] in He. apply andb_prop in He as [He Hes].
    destruct (step_edit canvasId e s w He Hs) as (Hw & Hl & Hp).
    cbn [runSession fold_left history].
    destruct (step canvasId e (s, w)) as [s1 w1] eqn:E1. cbn [fst snd] in *. subst w1.
    destruct (IH s1 Hl Hes) as (I1 & I2 & I3 & I4). unfold runSession in *.
    repeat split; auto. constructor; [|exact I3]. apply requestsSince_same.
Qed.

(** A burst in which the viewport poll has run leaves a pending save of
    the state after it. *)
Lemma run_edits_polled (canvasId : option string) (es : list Event) (s : Session)
  (w : Backend) :
  isLoaded s = true -> forallb isEdit es = true ->
  existsb isViewportPoll es = true ->
  saveTimeoutRef (fst (runSession canvasId es (s, w)))
  = Some (closureOf (fst (runSession canvasId es (s, w)))).
Proof.
  revert s. induction es as [|e es IH]; intros s Hs He Hp; [discriminate|].
  cbn [forallb] in He. apply andb_prop in He as [He Hes].
  destruct (step_edit canvasId e s w He Hs) as (Hw & Hl & _).
  cbn [existsb] in Hp. cbn [runSession fold_left].
  destruct (isViewportPoll e) eqn:Ev.
  - destruct e; try discriminate. cbn [step] in *. cbn [fst snd] in Hl.
    apply (run_edits canvasId es _ w Hl Hes).
    destruct (afterRender_pending false true s (setViewport (flowViewport s) s) Hs)
      as [Hc [Ht|(Hf & _)]]; [|discriminate].
    cbn [fst]. rewrite Ht.
    destruct (afterRender_pending false true s (setViewport (flowViewport s) s) Hs)
      as [-> _]. reflexivity.
  - destruct (step canvasId e (s, w)) as [s1 w1]. cbn [fst snd] in *. subst w1.
    apply (IH s1 Hl Hes Hp).
Qed.

(** X12. Edits are debounced: in a loaded session any burst of edits,
    pans, viewport polls and renames sends nothing to the store. A save
    of the state that was pending before the burst is a save of the state
    after it; so is the pending save after a burst in which the 16 ms
    viewport poll has run; and once the next poll has run, which re-arms
    the timeout whatever happened, exactly one save is pending and it
    closes over the nodes, edges, canvas id and name of the state after
    the burst. *)
Theorem edits_leave_one_pending_save_of_the_final_state (canvasId : option string)
  (es : list Event) (s : Session) (w : Backend) :
  isLoaded s = true ->
  forallb isEdit es = true ->
  let c := runSession canvasId es (s, w) in
  let c' := step canvasId ViewportPoll c in
  snd c = w /\ snd c' = w
  /\ Forall (fun h => snd h = []) (history canvasId (es ++ [ViewportPoll]) (s, w))
  /\ (saveTimeoutRef s = Some (closureOf s) \/ existsb isViewportPoll es = true ->
      saveTimeoutRef (fst c) = Some (closureOf (fst c)))
  /\ saveTimeoutRef (fst c') = Some (closureOf (fst c))
  /\ closureOf (fst c') = closureOf (fst c).
Proof.
  intros Hs He c c'.
  destruct (run_edits canvasId es s w Hs He) as (Hw & Hl & Hh & Hp). fold c in Hw, Hl, Hp.
  pose proof (run_edits_polled canvasId es s w Hs He) as Hq. fold c in Hq.
  assert (Hes : forallb isEdit (es ++ [ViewportPoll]) = true)
    by (rewrite forallb_app, He; reflexivity).
  destruct (run_edits canvasId (es ++ [ViewportPoll]) s w Hs Hes) as (_ & _ & Hh' & _).
  subst c'. destruct c as [s1 w1]. cbn [fst snd step] in *.
  destruct (afterRender_pending false true s1 (setViewport (flowViewport s1) s1) Hl)
    as [Hc [Ht|(Hf & _)]]; [|discriminate].
  rewrite Hc, Ht. repeat split; auto. intros [H|H]; auto.
Qed.

(** X13. A rename alone is never written by the auto-save: the
    fingerprint covers nodes, edges and viewport but not the name. When
    the snapshot is the one last accepted, and the name really changes (so
    that the effect arms the timeout anew) or the save that is pending, if
    any, is one of the current nodes and edges, then a change of the name
    followed by the debounce delay changes the name in the session and
    leaves the store untouched. *)
Theorem rename_alone_is_not_saved (canvasId : option string) (newName : string)
  (s : Session) (w : Backend) :
  isLoaded s = true ->
  lastSaveDataRef s = fingerprint (closureOf s) s ->
  newName <> canvasName s
  \/ (forall c0, saveTimeoutRef s = Some c0 ->
        closedNodes c0 = nodes (graph s) /\ closedEdges c0 = edges (graph s)) ->
  let c := runSession canvasId [Rename newName; TimerFired] (s, w) in
  snd c = w /\ canvasName (fst c) = newName.
Proof.
  intros Hl Href Hcase. cbn [runSession fold_left step].
  destruct (String.eqb (canvasName s) newName) eqn:Hn.
  - (* the same name: nothing is armed anew *)
    apply String.eqb_eq in Hn.
    destruct Hcase as [Hname|Hpending]; [congruence|].
    assert (Hr : afterRender false false s (setCanvasName newName s)
                 = setCanvasName newName s).
    { unfold afterRender. cbn [orb canvasName setCanvasName currentCanvasId isLoaded].
      rewrite Hn, String.eqb_refl, Bool.eqb_reflx.
      unfold sameCanvasId, optEqb.
      destruct (currentCanvasId s) as [i|]; [rewrite String.eqb_refl|]; reflexivity. }
    rewrite Hr. cbn [saveTimeoutRef setCanvasName].
    destruct (saveTimeoutRef s) as [c0|] eqn:Ep; [|split; reflexivity].
    destruct (Hpending c0 eq_refl) as [Hn0 He0].
    rewrite saveCanvasData_skip
      by (unfold fingerprint in *; cbn [flowViewport setSaveTimeout setCanvasName
                                         lastSaveDataRef];
          rewrite Hn0, He0, Href; reflexivity).
    cbn [fst snd]. split; [reflexivity|].
    exact (proj1 (afterRender_kept false false _ _)).
  - assert (Hr : afterRender false false s (setCanvasName newName s)
                 = setSaveTimeout (Some (closureOf (setCanvasName newName s)))
                                  (setCanvasName newName s)).
    { unfold afterRender. cbn [orb canvasName setCanvasName]. rewrite Hn.
      rewrite orb_true_r. cbn [orb negb].
      unfold autoSaveEffect. cbn [isLoaded setCanvasName]. rewrite Hl. reflexivity. }
    rewrite Hr. cbn [saveTimeoutRef setSaveTimeout].
    rewrite saveCanvasData_skip by (symmetry; exact Href).
    cbn [fst snd]. split; [reflexivity|].
    exact (proj1 (afterRender_kept false false _ _)).
Qed.

(** X15. A session that holds the id of a canvas the store does not have
    cannot save: every save attempt that gets past the fingerprint check
    ends in the auto-save error, whatever the network does, and leaves the
    tables as they were. *)
Theorem unknown_canvas_id_never_saves (c : SaveClosure) (s : Session) (w : Backend)
  (canvasId : string) :
  closedCanvasId c = Some canvasId ->
  Js.isEmpty canvasId = false ->
  existsb (hasId canvasId) (canvases (db w)) = false ->
  fingerprint c s <> lastSaveDataRef s ->
  saveState (fst (saveCanvasData c s w)) = saveFailed "Auto-save failed"
  /\ lastSaveDataRef (fst (saveCanvasData c s w)) = lastSaveDataRef s
  /\ db (snd (saveCanvasData c s w)) = db w.
Proof.
  intros Hc Hid Hnone Hfp. rewrite (saveCanvasData_attempt _ _ _ Hfp). cbv zeta.
  rewrite Hc.
  assert (Ht : Js.truthy (Some canvasId) = true) by (simpl; rewrite Hid; reflexivity).
  assert (Hthumb : forall nds eds v,
            db (snd (tryThumbnail (Some canvasId) nds eds v w)) = db w).
  { intros nds eds v. unfold tryThumbnail. destruct (0 <? _)%nat; [|reflexivity].
    rewrite Ht. unfold canvasOperations.generateThumbnail, andThen, dataOf,
      updateThumbnailQuery, resolve. simpl handleText.
    destruct (dropped w); [reflexivity|].
    change (canvases (db (transmit ?q w))) with (canvases (db w)).
    rewrite (mapWhere_none _ _ _ Hnone), (filter_none _ _ Hnone). simpl.
    destruct w as [[rows shares] ck n o r]. reflexivity. }
  specialize (Hthumb (closedNodes c) (closedEdges c) (flowViewport s)).
  destruct (tryThumbnail (Some canvasId) (closedNodes c) (closedEdges c)
              (flowViewport s) w) as [t w1]. cbn [fst snd] in *.
  unfold canvasOperations.saveCanvas, saveArgs. cbn [SaveArgs.canvasId].
  unfold keepTruthy. rewrite Ht, Ht. cbn [handleText].
  unfold dataOf, updateCanvasQuery.
  change (canvases (db (transmit ?q w1))) with (canvases (db w1)).
  rewrite Hthumb, Hnone. cbn [andb].
  rewrite (mapWhere_none _ _ _ Hnone), (filter_none _ _ Hnone).
  destruct (dropped w1); cbn [single fst snd]; repeat split; try reflexivity.
  - rewrite <- Hthumb. reflexivity.
  - rewrite <- Hthumb. destruct w1 as [[rows shares] ck n o r]. reflexivity.
Qed.

End SessionMore.

Lemma cleanupOldVersions_incl (name : string) (w : Backend) (r : CanvasData.t) :
  In r (canvases (db (canvasOperations.cleanupOldVersions name w))) ->
  In r (canvases (db w)).
Proof.
  unfold canvasOperations.cleanupOldVersions, selectVersionsQuery, deleteCanvasesQuery.
  destruct (dropped w); [auto|].
  destruct (1 <? _)%nat; [|auto].
  destruct (dropped _); [auto|]. simpl. intros H. apply filter_In in H. tauto.
Qed.

Lemma loadCanvas_dropped (canvasId : option string) (name : string) (w : Backend) :
  dropped w = true ->
  exists q e, canvasOperations.loadCanvas canvasId name w = (Rejected e, transmit q w)
              /\ isWrite q = false.
Proof.
  intros Hd. unfold canvasOperations.loadCanvas.
  destruct (Js.truthy canvasId);
    unfold andThen, dataOf, selectCanvasByIdQuery, selectCanvasByNameQuery;
    rewrite Hd; eexists; eexists; split; reflexivity.
Qed.

Lemma upsert_rows {P : Platform} (p : SavePayload.t) (w : Backend) (r : CanvasData.t) :
  dropped w = false ->
  In r (canvases (db (snd (upsertCanvasQuery p w)))) ->
  ownedAs (SavePayload.user_id p) (SavePayload.canvas_name p) r = true ->
  CanvasData.nodes r = map storedNode (SavePayload.nodes p)
  /\ CanvasData.edges r = SavePayload.edges p.
Proof.
  intros Hd. unfold upsertCanvasQuery. rewrite Hd.
  change (canvases (db (transmit (UpsertCanvas p) w))) with (canvases (db w)).
  destruct (existsb _ (canvases (db w))) eqn:Ex; simpl; intros Hin Hm.
  - apply mapWhere_In in Hin as (a0 & _ & _ & ->); [|exact Hm]. auto.
  - apply in_app_or in Hin as [Hin|[<-|[]]]; [|auto].
    exfalso. apply not_true_iff_false in Ex. apply Ex.
    apply existsb_exists. eauto.
Qed.

Section FailedLoad.
Context {P : Platform} {RF : ReactFlowInstance}.

(** The session after a call of [loadCanvasData] whose request was
    dropped. *)
Lemma loadCanvasData_dropped (call : LoadCall) (canvasId : option string)
  (s : Session) (w : Backend) :
  dropped w = true ->
  exists q,
    loadCanvasData call canvasId s w
    = (setIsLoaded true
         (setIsSaving false
            (setLastSavedTime "error"
               (setSaveError (Some "Failed to load canvas data") s))),
       transmit q w)
    /\ isWrite q = false
    /\ loadSetsGraph canvasId w = false.
Proof.
  intros Hd.
  destruct (loadCanvas_dropped (keepTruthy canvasId) "My Canvas" w Hd) as (q & e & Hload & Hq).
  exists q. unfold loadCanvasData, loadSetsGraph. rewrite Hload. auto.
Qed.

(** X14. A failed load does not hold saving back. When the requests of
    both calls of [loadCanvasData] are dropped and the network is back
    afterwards, the session is marked loaded with the empty graph, and
    Ctrl+S, whose handler closes over the first render, upserts that empty
    graph under the name "My Canvas": afterwards every row the user has
    under that name holds no nodes and no edges, whatever it held
    before. *)
Theorem failed_load_lets_manual_save_overwrite (canvasId : option string)
  (first second : LoadCall) (w : Backend) (o : list bool) :
  sameCall first second = false ->
  outages w = true :: true :: false :: o ->
  let c := runSession canvasId [LoadSettled first; LoadSettled second; ManualSave]
                      (mounted, w) in
  graph (fst c) = emptyGraph
  /\ isLoaded (fst c) = true
  /\ (exists q1 q2 p rest,
        requestsSince w (snd c) = q1 :: q2 :: UpsertCanvas p :: rest
        /\ isWrite q1 = false /\ isWrite q2 = false
        /\ SavePayload.nodes p = [] /\ SavePayload.edges p = []
        /\ SavePayload.canvas_name p = "My Canvas")
  /\ (forall r, In r (canvases (db (snd c))) ->
        ownedAs defaultUser "My Canvas" r = true ->
        CanvasData.nodes r = [] /\ CanvasData.edges r = []).
Proof.
  intros Hcalls Ho c. subst c.
  assert (Hd : dropped w = true) by (unfold dropped; rewrite Ho; reflexivity).
  cbn [runSession fold_left].
  assert (Hf1 : inFlight first mounted = true) by (destruct first; reflexivity).
  cbn [step]. rewrite Hf1.
  destruct (loadCanvasData_dropped first canvasId mounted w Hd) as (q1 & -> & Hq1 & ->).
  set (w1 := transmit q1 w).
  assert (Hd1 : dropped w1 = true) by (unfold dropped, w1; simpl; rewrite Ho; reflexivity).
  assert (Hstep2 : exists q2,
            step canvasId (LoadSettled second)
                 (afterRender false false mounted
                    (settled first
                       (setIsLoaded true
                          (setIsSaving false
                             (setLastSavedTime "error"
                                (setSaveError (Some "Failed to load canvas data")
                                              mounted))))), w1)
            = (setLoadsInFlight []
                 (setSaveTimeout (Some (keydownClosure mounted))
                    (setIsLoaded true
                       (setIsSaving false
                          (setLastSavedTime "error"
                             (setSaveError (Some "Failed to load canvas data")
                                           mounted))))), transmit q2 w1)
            /\ isWrite q2 = false).
  { cbn [step].
    match goal with |- context [inFlight second ?s] =>
      assert (Hf2 : inFlight second s = true)
        by (destruct first, second; try discriminate; reflexivity);
      rewrite Hf2;
      destruct (loadCanvasData_dropped second canvasId s w1 Hd1) as (q2 & -> & Hq2 & ->)
    end.
    exists q2. split; [|exact Hq2].
    destruct first, second; try discriminate; reflexivity. }
  destruct Hstep2 as (q2 & -> & Hq2).
  set (w2 := transmit q2 w1).
  assert (Hd2 : dropped w2 = false)
    by (unfold dropped, w2, w1; simpl; rewrite Ho; reflexivity).
  set (s2 := setLoadsInFlight [] _).
  cbn [step]. change (keydownClosure s2) with (keydownClosure mounted).
  unfold manualSave.
  change (tryThumbnail (closedCanvasId (keydownClosure mounted))
            (closedNodes (keydownClosure mounted)) (closedEdges (keydownClosure mounted))
            (flowViewport s2) w2) with (@None string, w2).
  cbv beta iota zeta.
  set (a := saveArgs (closedNodes (keydownClosure mounted))
                     (closedEdges (keydownClosure mounted)) (flowViewport s2)
                     (closedCanvasName (keydownClosure mounted))
                     (closedCanvasId (keydownClosure mounted)) None).
  set (p := canvasOperations.dataToSave a (clock w2)).
  assert (Hsave : canvasOperations.saveCanvas a w2 = dataOf (upsertCanvasQuery p) w2)
    by reflexivity.
  assert (Hrows : forall r, In r (canvases (db (snd (canvasOperations.saveCanvas a w2)))) ->
            ownedAs defaultUser "My Canvas" r = true ->
            CanvasData.nodes r = [] /\ CanvasData.edges r = []).
  { intros r Hin Hm. rewrite Hsave in Hin. unfold dataOf in Hin.
    apply (upsert_rows p w2 r Hd2); [|exact Hm].
    destruct (upsertCanvasQuery p w2) as [[d|e'] w3]; exact Hin. }
  pose proof (saveCanvas_sends a w2) as Hsends. unfold sends in Hsends.
  assert (Hreq : saveRequest a (clock w2) = UpsertCanvas p) by reflexivity.
  rewrite Hreq in Hsends.
  destruct (canvasOperations.saveCanvas a w2) as [[row|e'] w3]; cbn [fst snd] in *.
  - split; [rewrite (proj1 (proj2 (afterRender_kept _ _ _ _))); unfold adoptCanvasId;
            repeat match goal with |- context [if ?b then _ else _] => destruct b end;
            reflexivity|].
    split; [rewrite afterRender_isLoaded; unfold adoptCanvasId;
            repeat match goal with |- context [if ?b then _ else _] => destruct b end;
            reflexivity|].
    split.
    + destruct (cleanupOldVersions_sends (closedCanvasName (keydownClosure mounted)) w3)
        as [l Hl].
      exists q1, q2, p. eexists. split; [|repeat split; assumption].
      apply requestsSince_app. rewrite Hl, Hsends. unfold w2, w1. simpl.
      rewrite <- !app_assoc. reflexivity.
    + intros r Hin. apply Hrows. apply cleanupOldVersions_incl in Hin. exact Hin.
  - split; [reflexivity|]. split; [reflexivity|]. split.
    + exists q1, q2, p, []. split; [|repeat split; assumption].
      apply requestsSince_app. rewrite Hsends. unfold w2, w1. simpl.
      rewrite <- !app_assoc. reflexivity.
    + exact Hrows.
Qed.

End FailedLoad.
(** The stored canvas "My Canvas" holds a node; both loads are dropped,
    Ctrl+S then empties it. *)
Lemma failed_load_lets_manual_save_overwrite_witness :
  outages storeBehindOutage = [true; true; false]
  /\ map CanvasData.nodes (canvases (db storeBehindOutage))
     = [[textNodeAt "text-1" 0 0 false]]
  /\ forall r,
       In r (canvases (db (snd (@runSession samplePlatform unitZoomFlow None
                                  [LoadSettled FirstLoad; LoadSettled SecondLoad;
                                   ManualSave] (mounted, storeBehindOutage))))) ->
       ownedAs defaultUser "My Canvas" r = true ->
       CanvasData.nodes r = [] /\ CanvasData.edges r = [].
Proof.
  split; [reflexivity|]. split; [reflexivity|].
  exact (proj2 (proj2 (proj2
           (@failed_load_lets_manual_save_overwrite samplePlatform unitZoomFlow None
              FirstLoad SecondLoad storeBehindOutage [] eq_refl eq_refl)))).
Defined.

(** The canvas of someone else, shared for viewing, loads as not owned
    with the permission of the share. *)
Lemma load_returns_only_own_or_shared_witness :
  exists c,
    canvasOperations.loadCanvas (Some "f1") "My Canvas" sharedStore
      = (Resolved (Some c), snd (canvasOperations.loadCanvas (Some "f1") "My Canvas"
                                   sharedStore))
    /\ LoadedCanvas.row c = Some foreignRow
    /\ In foreignRow (canvases (db sharedStore)).
Proof.
  eexists. split; [vm_compute; reflexivity|]. split; [reflexivity|].
  exact (proj1 (load_returns_only_own_or_shared (Some "f1") "My Canvas" sharedStore _ _
                  foreignRow eq_refl eq_refl)).
Defined.

(** Two node creations and a pan in a loaded session, then the poll. *)
Lemma edits_leave_one_pending_save_of_the_final_state_witness :
  let es := [ Edit (CreateNode homeViewport "text" (at_ 0 0));
              Edit (CreateNode homeViewport "text" (at_ 400 0));
              Pan homeViewport ] in
  isLoaded freshSession = true
  /\ snd (@runSession samplePlatform unitZoomFlow None es (freshSession, emptyStore))
     = emptyStore.
Proof.
  intros es. split; [reflexivity|].
  exact (proj1 (@edits_leave_one_pending_save_of_the_final_state samplePlatform
                  unitZoomFlow None es freshSession emptyStore eq_refl eq_refl)).
Defined.

(** After the accepted save of [savedSession] the canvas is renamed. *)
Lemma rename_alone_is_not_saved_witness :
  isLoaded savedSession = true
  /\ canvasName savedSession = "My Canvas"
  /\ snd (@runSession samplePlatform unitZoomFlow None [Rename "Plan"; TimerFired]
            (savedSession, savedStore)) = savedStore.
Proof.
  split; [reflexivity|]. split; [reflexivity|].
  assert (Hname : "Plan" <> canvasName savedSession) by (vm_compute; discriminate).
  exact (proj1 (@rename_alone_is_not_saved samplePlatform unitZoomFlow None "Plan"
                  savedSession savedStore eq_refl eq_refl (or_introl Hname))).
Defined.

(** The session that loaded the unknown id "nope" tries to save a node. *)
Lemma unknown_canvas_id_never_saves_witness :
  let s := setGraph (@handleCreateNode unitZoomFlow homeViewport "text" (at_ 0 0) emptyGraph)
                    (fst (loadCanvasData FirstLoad (Some "nope") mounted emptyStore)) in
  currentCanvasId s = Some "nope"
  /\ saveState (fst (@saveCanvasData samplePlatform (closureOf s) s emptyStore))
     = saveFailed "Auto-save failed".
Proof.
  intros s. split; [reflexivity|].
  assert (Hfp : @fingerprint samplePlatform (closureOf s) s <> lastSaveDataRef s)
    by (vm_compute; discriminate).
  exact (proj1 (@unknown_canvas_id_never_saves samplePlatform (closureOf s) s emptyStore
                  "nope" eq_refl eq_refl eq_refl Hfp)).
Defined.

Section NewCanvasThumbnail.
Context {P : Platform}.

(** X16. A canvas that has no id yet gets no thumbnail: the thumbnail is
    aimed at the id "temp", and as long as no row has that id the attempt
    yields no url and changes no row, so the save that follows is sent
    without a thumbnail field. *)
Theorem new_canvas_gets_no_thumbnail (nds : list Node.t) (eds : list Edge.t)
  (v : Viewport) (name : string) (w : Backend) :
  existsb (hasId "temp") (canvases (db w)) = false ->
  fst (tryThumbnail None nds eds v w) = None
  /\ db (snd (tryThumbnail None nds eds v w)) = db w
  /\ SavePayload.thumbnail_url
       (canvasOperations.dataToSave
          (saveArgs nds eds v name None (fst (tryThumbnail None nds eds v w)))
          (clock (snd (tryThumbnail None nds eds v w)))) = None.
Proof.
  intros Hnone.
  assert (H : fst (tryThumbnail None nds eds v w) = None
              /\ db (snd (tryThumbnail None nds eds v w)) = db w).
  { unfold tryThumbnail. destruct (0 <? _)%nat; [|auto].
    unfold canvasOperations.generateThumbnail, andThen, dataOf, updateThumbnailQuery,
      resolve. simpl.
    destruct (dropped w); [auto|].
    change (canvases (db (transmit ?q w))) with (canvases (db w)).
    rewrite (mapWhere_none _ _ _ Hnone), (filter_none _ _ Hnone). simpl.
    destruct w as [[rows shares] ck n o r]. auto. }
  destruct H as [H1 H2]. repeat split; auto.
  rewrite H1. reflexivity.
Qed.
End NewCanvasThumbnail.

(** One node on a new canvas, the store empty. *)
Lemma new_canvas_gets_no_thumbnail_witness :
  fst (@tryThumbnail samplePlatform None [textNodeAt "text-1" 0 0 false] []
         homeViewport emptyStore) = None.
Proof.
  exact (proj1 (@new_canvas_gets_no_thumbnail samplePlatform
                  [textNodeAt "text-1" 0 0 false] [] homeViewport "My Canvas"
                  emptyStore eq_refl)).
Defined.

(* ================================================================== *)
(** * Properties of canvas management                                   *)
(* ================================================================== *)

Lemma filter_negb_none {A} (p : A -> bool) (l : list A) :
  filter p (filter (fun a => negb (p a)) l) = [].
Proof.
  induction l as [|a l IH]; simpl; [reflexivity|].
  destruct (p a) eqn:E; simpl; [|rewrite E]; exact IH.
Qed.

Lemma filter_idem {A} (p : A -> bool) (l : list A) :
  filter p (filter p l) = filter p l.
Proof.
  induction l as [|a l IH]; simpl; [reflexivity|].
  destruct (p a) eqn:E; simpl; [rewrite E, IH|]; auto.
Qed.

(** X18. [deleteCanvas] whose requests get through always resolves and
    always removes every share of the given canvas id, and only those. It
    removes the canvas only if it is the user's: called with the id of a
    canvas of someone else it leaves the canvas in the table and still
    deletes its shares. *)
Theorem delete_canvas_always_drops_the_shares (drops : list bool)
  (canvasId : string) (d : Database) :
  droppedAt drops 0 = false -> droppedAt drops 1 = false ->
  fst (deleteCanvas drops canvasId d) = Resolved tt
  /\ filter (shareOf canvasId) (canvas_shares (snd (deleteCanvas drops canvasId d))) = []
  /\ filter (fun s => negb (shareOf canvasId s))
            (canvas_shares (snd (deleteCanvas drops canvasId d)))
     = filter (fun s => negb (shareOf canvasId s)) (canvas_shares d)
  /\ canvases (snd (deleteCanvas drops canvasId d))
     = filter (fun r => negb (ownsId canvasId r)) (canvases d)
  /\ (existsb (ownsId canvasId) (canvases d) = false ->
      canvases (snd (deleteCanvas drops canvasId d)) = canvases d).
Proof.
  intros H0 H1. unfold deleteCanvas. rewrite H0, H1. cbn [fst snd canvases canvas_shares].
  split; [reflexivity|].
  destruct (existsb (ownsId canvasId) (canvases d)) eqn:Ex.
  - rewrite !filter_idem. split; [apply filter_negb_none|].
    split; [reflexivity|]. split; [reflexivity|discriminate].
  - split; [apply filter_negb_none|]. split; [apply filter_idem|].
    split; [reflexivity|]. intros _. apply filter_all.
    intros r Hr. apply negb_true_iff. apply not_true_is_false. intros Ho.
    apply not_true_iff_false in Ex. apply Ex. apply existsb_exists. eauto.
Qed.

(** Deleting the canvas "f1" of someone else: both canvases stay, the
    share is gone. *)
Lemma delete_canvas_always_drops_the_shares_witness :
  canvases (snd (deleteCanvas [] "f1" mixedTables)) = canvases mixedTables
  /\ canvas_shares (snd (deleteCanvas [] "f1" mixedTables)) = [].
Proof.
  destruct (delete_canvas_always_drops_the_shares [] "f1" mixedTables eq_refl eq_refl)
    as (_ & _ & _ & _ & H).
  split; [exact (H eq_refl)|reflexivity].
Defined.

(** X19. Sharing is for owners and keeps one share per user: when
    [shareCanvas] resolves, the canvas is a row of the user, the canvases
    are untouched, the share it returns carries the given permission and
    is the only share of that canvas with that user, [getCanvasShares]
    lists it, and [unshareCanvas] for that user leaves no share of the
    canvas with that user. *)
Theorem share_is_unique_and_can_be_undone (drops : list bool)
  (canvasId userId : string) (p : Permission) (d d1 : Database) (s : SharedCanvas.t) :
  shareCanvas drops canvasId userId p d = (Resolved s, d1) ->
  (exists r, In r (canvases d) /\ ownsId canvasId r = true)
  /\ canvases d1 = canvases d
  /\ s = newShare canvasId userId p
  /\ filter (sharedWith canvasId userId) (canvas_shares d1) = [s]
  /\ (exists l, fst (getCanvasShares [] canvasId d1) = Resolved l /\ In s l)
  /\ filter (sharedWith canvasId userId)
            (canvas_shares (snd (unshareCanvas [] canvasId userId d1))) = [].
Proof.
  unfold shareCanvas. intros H.
  destruct (if droppedAt drops 0 then _ else _) as [r0|e] eqn:Eown; [|discriminate].
  destruct (droppedAt drops 0); [discriminate|]. apply single_Data in Eown.
  destruct (droppedAt drops 1); [discriminate|].
  set (key := sharedWith canvasId userId) in *.
  set (n := newShare canvasId userId p) in *.
  assert (Hkey : key n = true).
  { unfold key, n, sharedWith. simpl. rewrite !String.eqb_refl. reflexivity. }
  set (shares' := if existsb key (canvas_shares d) then _ else _) in H.
  destruct (single (filter key shares')) as [s'|e] eqn:Es; [|discriminate].
  injection H as -> <-. apply single_Data in Es. cbn [canvases canvas_shares].
  assert (Hs : s = n).
  { assert (Hin : In s (filter key shares')) by (rewrite Es; left; reflexivity).
    apply filter_In in Hin as [Hin Hk]. subst shares'.
    destruct (existsb key (canvas_shares d)) eqn:Ex.
    - apply mapWhere_In in Hin as (a0 & _ & _ & ->); [reflexivity|exact Hk].
    - apply in_app_or in Hin as [Hin|[<-|[]]]; [|reflexivity].
      exfalso. apply not_true_iff_false in Ex. apply Ex. apply existsb_exists. eauto. }
  split.
  { exists r0. assert (Hin : In r0 (filter (ownsId canvasId) (canvases d)))
      by (rewrite Eown; left; reflexivity).
    apply filter_In in Hin. exact Hin. }
  split; [reflexivity|]. split; [exact Hs|]. split; [exact Es|]. split.
  - unfold getCanvasShares. simpl. eexists. split; [reflexivity|].
    apply filter_In. split.
    + assert (Hin : In s (filter key shares')) by (rewrite Es; left; reflexivity).
      apply filter_In in Hin. tauto.
    + rewrite Hs. unfold shareOf, n. simpl. apply String.eqb_refl.
  - unfold unshareCanvas. simpl.
    rewrite filter_filter_comm. fold key. rewrite Es. simpl.
    rewrite Hs. fold key. rewrite Hkey. unfold n. simpl. reflexivity.
Qed.

(** The user shares the canvas "c1" with "ann" for editing. *)
Lemma share_is_unique_and_can_be_undone_witness :
  exists s d1,
    shareCanvas [] "c1" "ann" edit mixedTables = (Resolved s, d1)
    /\ filter (sharedWith "c1" "ann") (canvas_shares d1) = [s].
Proof.
  eexists. eexists. split; [vm_compute; reflexivity|].
  match goal with |- filter _ (canvas_shares ?d1) = [?s] =>
    exact (proj1 (proj2 (proj2 (proj2
             (share_is_unique_and_can_be_undone [] "c1" "ann" edit mixedTables d1 s
                eq_refl)))))
  end.
Defined.

(** X20. Renaming is for owners and changes the name only: when
    [renameCanvas] resolves, the row it returns is a row of the user with
    the given id, renamed and stamped, with its nodes, edges and viewport
    as before; rows of other ids or owners and all shares are untouched.
    Called with an id the user has no row for it is rejected and no row
    changes; a name the user already uses for another canvas is refused
    with the tables as they were. *)
Theorem rename_changes_the_name_only (drops : list bool) (now : nat)
  (canvasId newName : string) (d : Database) :
  (forall r d1,
      renameCanvas drops now canvasId newName d = (Resolved r, d1) ->
      (exists old, In old (canvases d) /\ ownsId canvasId old = true
                   /\ r = renamedRow newName now old)
      /\ CanvasData.canvas_name r = newName
      /\ filter (fun x => negb (ownsId canvasId x)) (canvases d1)
         = filter (fun x => negb (ownsId canvasId x)) (canvases d)
      /\ canvas_shares d1 = canvas_shares d)
  /\ (existsb (ownsId canvasId) (canvases d) = false ->
      (exists e, fst (renameCanvas drops now canvasId newName d) = Rejected e)
      /\ canvases (snd (renameCanvas drops now canvasId newName d)) = canvases d)
  /\ (droppedAt drops 0 = false ->
      existsb (ownsId canvasId) (canvases d) = true ->
      existsb (fun r => negb (ownsId canvasId r) && ownedAs defaultUser newName r)
              (canvases d) = true ->
      renameCanvas drops now canvasId newName d = (Rejected "23505", d)).
Proof.
  unfold renameCanvas. split; [|split].
  - intros r d1 H. destruct (droppedAt drops 0); [discriminate|].
    destruct (_ && _); [discriminate|].
    destruct (single _) as [r'|e] eqn:Es; [|discriminate].
    injection H as -> <-. apply single_Data in Es. cbn [canvases canvas_shares].
    assert (Hin : In r (filter (ownsId canvasId)
                          (mapWhere (ownsId canvasId) (renamedRow newName now) (canvases d))))
      by (rewrite Es; left; reflexivity).
    apply filter_In in Hin as [Hin Ho].
    apply mapWhere_In in Hin as (old & Hold & Hoo & ->); [|exact Ho].
    split; [eauto|]. split; [reflexivity|]. split; [|reflexivity].
    clear. induction (canvases d) as [|a l IH]; simpl; [reflexivity|].
    destruct (ownsId canvasId a) eqn:E; simpl.
    + change (ownsId canvasId (renamedRow newName now a)) with (ownsId canvasId a).
      rewrite E. simpl. exact IH.
    + rewrite E. simpl. rewrite IH. reflexivity.
  - intros Hnone. destruct (droppedAt drops 0); [simpl; split; [eexists|]; reflexivity|].
    rewrite Hnone. cbn [andb].
    rewrite (mapWhere_none _ _ _ Hnone), (filter_none _ _ Hnone). simpl. eauto.
  - intros -> -> ->. reflexivity.
Qed.
